(** * Session resilience engine of perplexity-mcp-zerver: a shallow embedding

    The development follows the TypeScript sources:
    - [JS]: the string and array primitives the sources call;
    - [BrowserManager]: src/server/modules/BrowserManager.ts;
    - [RequestTiming]: src/utils/request-timing.ts, in exact arithmetic;
    - [Binary64], [RequestTimingBinary64]: the numbers of JavaScript and
      the functions of request-timing.ts whose results depend on rounding;
    - [SessionManager]: src/utils/session-manager.ts;
    - [ChatPerplexity]: src/tools/chatPerplexity.ts;
    - [PuppeteerLogic]: src/utils/puppeteer-logic.ts, of which only the
      unit tests are available; its two functions are modelled from the
      specification.

    JavaScript numbers are IEEE 754 doubles. [RequestTiming] computes
    with rationals ([Q]): it is the reading of the source in which no
    operation rounds, and carries the properties that rounding does not
    affect (closed bounds, orderings, choices of a branch).
    [RequestTimingBinary64] computes with the doubles themselves and
    carries those in which rounding or NaN shows. Every call of
    [Math.random()] is an explicit argument [r] with [0 <= r < 1]. *)

From Stdlib Require Import ZArith QArith Qminmax Qround Qpower Lqa Lia.
From Stdlib Require Import Ascii String List Bool.
From Stdlib Require SpecFloat.
From stdpp Require Import base option list strings gmap.
Import ListNotations.

Local Open Scope Z_scope.
Local Open Scope string_scope.

(** ** JavaScript primitives *)

Module JS.

(** [s.startsWith(p)] *)
Definition startsWith (s p : string) : bool := String.prefix p s.

(** [s.includes(sub)]: [sub] occurs at some position of [s]. *)
Fixpoint includes (s sub : string) : bool :=
  String.prefix sub s ||
  match s with
  | EmptyString => false
  | String _ rest => includes rest sub
  end.

(** [s.toLowerCase()] on the ASCII letters; other code units are kept.
    The keywords matched below are ASCII, so this is the part of
    [toLowerCase] their matching depends on. *)
Definition lowerChar (c : ascii) : ascii :=
  let n := nat_of_ascii c in
  if (65 <=? n)%nat && (n <=? 90)%nat then ascii_of_nat (n + 32) else c.

Fixpoint toLowerCase (s : string) : string :=
  match s with
  | EmptyString => EmptyString
  | String c rest => String (lowerChar c) (toLowerCase rest)
  end.

(** [xs.join(sep)] *)
Fixpoint join (sep : string) (xs : list string) : string :=
  match xs with
  | [] => ""
  | [x] => x
  | x :: rest => x +:+ sep +:+ join sep rest
  end.

(** [xs.includes(x)] on an array of strings *)
Definition arrayIncludes (xs : list string) (x : string) : bool :=
  existsb (String.eqb x) xs.

(** [[...new Set(xs)]]: first occurrences, in order. *)
Fixpoint uniq (seen xs : list string) : list string :=
  match xs with
  | [] => []
  | x :: rest =>
      if arrayIncludes seen x then uniq seen rest
      else x :: uniq (x :: seen) rest
  end.

Definition fromSet (xs : list string) : list string := uniq [] xs.

(** [s.split('=')[0]] *)
Fixpoint beforeEquals (s : string) : string :=
  match s with
  | EmptyString => EmptyString
  | String c rest =>
      if Ascii.eqb c "="%char then EmptyString else String c (beforeEquals rest)
  end.

(** The line feed of the template literals. *)
Definition nl : string := String (ascii_of_nat 10) EmptyString.

(** The double quote. *)
Definition quote : string := String (ascii_of_nat 34) EmptyString.

(** [s.endsWith(suffix)]: [suffix] is [s] or ends its tail. *)
Fixpoint endsWith (s suffix : string) : bool :=
  String.eqb s suffix ||
  match s with
  | EmptyString => false
  | String _ rest => endsWith rest suffix
  end.

(** [xs[i]] for an index computed with [Math.floor]: [undefined] outside
    the array. *)
Definition at_ (xs : list string) (i : Z) : option string :=
  if (i <? 0)%Z then None else nth_error xs (Z.to_nat i).

(** [picked || fallback] on a string that may be [undefined]. *)
Definition orString (picked : option string) (fallback : string) : string :=
  match picked with
  | Some EmptyString => fallback
  | Some s => s
  | None => fallback
  end.

End JS.

(** ** A result that is a value or a thrown [Error] (its message) *)

Inductive outcome (A : Type) : Type :=
| Returned (a : A)
| Thrown (message : string).
Arguments Returned {A} a.
Arguments Thrown {A} message.


(** ** src/server/modules/BrowserManager.ts *)

Module BrowserManager.

(** *** Launch options

    [LaunchOptions] as puppeteer types it: [args?: string[]], the key the
    security validation reads, and the remaining keys. The remaining keys
    are kept in insertion order with the JSON text of their value; they
    are modelled for scalar values, which [deepMerge] overwrites. *)
Record LaunchOptions : Type := {
  args : option (list string);
  others : list (string * string)
}.

#[global] Instance LaunchOptions_eq_dec : EqDecision LaunchOptions.
Proof. solve_decision. Defined.

Definition emptyOptions : LaunchOptions := {| args := None; others := [] |}.

(** [output[key] = sourceVal] on the insertion-ordered keys *)
Fixpoint setKey (key value : string) (output : list (string * string))
  : list (string * string) :=
  match output with
  | [] => [(key, value)]
  | (k, v) :: rest =>
      if String.eqb key k then (k, value) :: rest
      else (k, v) :: setKey key value rest
  end.

Definition argPrefix (arg : string) : string :=
  if JS.includes arg "=" then JS.beforeEquals arg else arg.

(** The branch of [deepMerge] for [key === 'args'] when both values are
    arrays: the target arguments overridden by a source argument are
    dropped, the source is appended, duplicates are removed. *)
Definition deepMergeArgs (targetVal sourceVal : list string) : list string :=
  JS.fromSet
    (List.filter
       (fun arg =>
          negb (existsb
                  (fun launchArg =>
                     JS.startsWith arg "--" &&
                     JS.startsWith launchArg (argPrefix arg))
                  sourceVal))
       targetVal
     ++ sourceVal)%list.

Definition deepMerge (target source : LaunchOptions) : LaunchOptions :=
  {| args :=
       match args target, args source with
       | Some targetVal, Some sourceVal => Some (deepMergeArgs targetVal sourceVal)
       | None, Some sourceVal => Some sourceVal
       | targetVal, None => targetVal
       end;
     others :=
       fold_left (fun output kv => setKey (fst kv) (snd kv) output)
                 (others source) (others target) |}.

Definition DANGEROUS_ARGS : list string :=
  [ "--no-sandbox";
    "--disable-setuid-sandbox";
    "--single-process";
    "--disable-web-security";
    "--ignore-certificate-errors";
    "--disable-features=IsolateOrigins";
    "--disable-site-isolation-trials";
    "--allow-running-insecure-content" ].

(** [DANGEROUS_ARGS.some(dangerousArg => arg.startsWith(dangerousArg))] *)
Definition isDangerous (arg : string) : bool :=
  existsb (fun dangerousArg => JS.startsWith arg dangerousArg) DANGEROUS_ARGS.

(** *** The browser and page handles

    The observable state of the two puppeteer objects, and whether their
    [close()] rejects. *)
Record Browser : Type := {
  connected : bool;
  browserCloseError : option string
}.

Record Page : Type := {
  closed : bool;
  pageCloseError : option string
}.

Record State : Type := {
  browser : option Browser;
  page : option Page;
  isInitializing : bool;
  searchInputSelector : string;
  idleTimeout : option nat;
  operationCount : nat;
  previousLaunchOptions : option LaunchOptions;
  launchOptions : LaunchOptions;
  allowDangerous : bool
}.

Definition defaultSearchInputSelector : string :=
  "textarea[placeholder*=" +:+ JS.quote +:+ "Ask" +:+ JS.quote +:+ "]".

(** [new BrowserManager()] *)
Definition initial : State :=
  {| browser := None; page := None; isInitializing := false;
     searchInputSelector := defaultSearchInputSelector;
     idleTimeout := None; operationCount := 0%nat;
     previousLaunchOptions := None; launchOptions := emptyOptions;
     allowDangerous := false |}.

(** Calls that leave the manager. *)
Inductive Event : Type :=
| LogInfo (message : string)
| LogWarn (message : string)
| LogError (message detail : string)
| ClearTimeout (timer : nat)
| PageClose
| BrowserClose
| Launch (options : LaunchOptions)
| Pages
| NewPage
| PageOnConsole.

(** No browser is launched in a trace. *)
Definition noLaunch (t : list Event) : Prop := forall o, ~ In (Launch o) t.

(** *** State, trace and exceptions *)
Definition M (A : Type) : Type := State -> outcome A * State * list Event.

Definition ret {A} (a : A) : M A := fun s => (Returned a, s, []).

Definition bind {A B} (m : M A) (f : A -> M B) : M B :=
  fun s =>
    match m s with
    | (Returned a, s1, t1) =>
        match f a s1 with (r, s2, t2) => (r, s2, (t1 ++ t2)%list) end
    | (Thrown e, s1, t1) => (Thrown e, s1, t1)
    end.

Definition throw {A} (e : string) : M A := fun s => (Thrown e, s, []).
Definition emit (ev : Event) : M unit := fun s => (Returned tt, s, [ev]).
Definition get : M State := fun s => (Returned s, s, []).
Definition modify (f : State -> State) : M unit := fun s => (Returned tt, f s, []).

(** [try { m } catch (error) { handler error }] *)
Definition tryCatch {A} (m : M A) (handler : string -> M A) : M A :=
  fun s =>
    match m s with
    | (Thrown e, s1, t1) =>
        match handler e s1 with (r, s2, t2) => (r, s2, (t1 ++ t2)%list) end
    | done => done
    end.

(** [try { m } finally { final }] *)
Definition tryFinally {A} (m : M A) (final : M unit) : M A :=
  fun s =>
    match m s with
    | (r, s1, t1) =>
        match final s1 with
        | (Returned _, s2, t2) => (r, s2, (t1 ++ t2)%list)
        | (Thrown e, s2, t2) => (Thrown e, s2, (t1 ++ t2)%list)
        end
    end.

Definition when (b : bool) (m : M unit) : M unit := if b then m else ret tt.

(** The sequencing notations [x ← m; k] and [m;; k] are stdpp's. *)
#[global] Instance M_ret : MRet M := @ret.
#[global] Instance M_bind : MBind M := fun A B f m => bind m f.

Definition setBrowser (b : option Browser) (s : State) : State :=
  {| browser := b; page := page s; isInitializing := isInitializing s;
     searchInputSelector := searchInputSelector s;
     idleTimeout := idleTimeout s; operationCount := operationCount s;
     previousLaunchOptions := previousLaunchOptions s;
     launchOptions := launchOptions s; allowDangerous := allowDangerous s |}.

Definition setPage (p : option Page) (s : State) : State :=
  {| browser := browser s; page := p; isInitializing := isInitializing s;
     searchInputSelector := searchInputSelector s;
     idleTimeout := idleTimeout s; operationCount := operationCount s;
     previousLaunchOptions := previousLaunchOptions s;
     launchOptions := launchOptions s; allowDangerous := allowDangerous s |}.

Definition setIsInitializing (v : bool) (s : State) : State :=
  {| browser := browser s; page := page s; isInitializing := v;
     searchInputSelector := searchInputSelector s;
     idleTimeout := idleTimeout s; operationCount := operationCount s;
     previousLaunchOptions := previousLaunchOptions s;
     launchOptions := launchOptions s; allowDangerous := allowDangerous s |}.

Definition setIdleTimeout (t : option nat) (s : State) : State :=
  {| browser := browser s; page := page s; isInitializing := isInitializing s;
     searchInputSelector := searchInputSelector s;
     idleTimeout := t; operationCount := operationCount s;
     previousLaunchOptions := previousLaunchOptions s;
     launchOptions := launchOptions s; allowDangerous := allowDangerous s |}.

Definition setPreviousLaunchOptions (o : option LaunchOptions) (s : State) : State :=
  {| browser := browser s; page := page s; isInitializing := isInitializing s;
     searchInputSelector := searchInputSelector s;
     idleTimeout := idleTimeout s; operationCount := operationCount s;
     previousLaunchOptions := o;
     launchOptions := launchOptions s; allowDangerous := allowDangerous s |}.

Definition setLaunchOptions (o : LaunchOptions) (s : State) : State :=
  {| browser := browser s; page := page s; isInitializing := isInitializing s;
     searchInputSelector := searchInputSelector s;
     idleTimeout := idleTimeout s; operationCount := operationCount s;
     previousLaunchOptions := previousLaunchOptions s;
     launchOptions := o; allowDangerous := allowDangerous s |}.

Definition setAllowDangerous (v : bool) (s : State) : State :=
  {| browser := browser s; page := page s; isInitializing := isInitializing s;
     searchInputSelector := searchInputSelector s;
     idleTimeout := idleTimeout s; operationCount := operationCount s;
     previousLaunchOptions := previousLaunchOptions s;
     launchOptions := launchOptions s; allowDangerous := v |}.

(** *** determineRecoveryLevel (lines 121-147) *)
Definition determineRecoveryLevel (error : option string) : Z :=
  match error with
  | None => 1
  | Some message =>
      let errorMessage := JS.toLowerCase message in
      if JS.includes errorMessage "detached"
         || JS.includes errorMessage "crashed"
         || JS.includes errorMessage "disconnected"
         || JS.includes errorMessage "protocol error"
      then 3
      else if JS.includes errorMessage "navigation"
              || JS.includes errorMessage "timeout"
              || JS.includes errorMessage "net::err"
      then 2
      else 1
  end.

(** The data fields of [getPuppeteerContext()] and the recovery-level
    function it binds; the setter closures are the [set...] functions
    above. *)
Record PuppeteerContext : Type := {
  ctx_browser : option Browser;
  ctx_page : option Page;
  ctx_isInitializing : bool;
  ctx_searchInputSelector : string;
  ctx_idleTimeout : option nat;
  ctx_operationCount : nat;
  ctx_determineRecoveryLevel : option string -> Z
}.

Definition getPuppeteerContext (this : State) : PuppeteerContext :=
  {| ctx_browser := browser this;
     ctx_page := page this;
     ctx_isInitializing := isInitializing this;
     ctx_searchInputSelector := searchInputSelector this;
     ctx_idleTimeout := idleTimeout this;
     ctx_operationCount := operationCount this;
     ctx_determineRecoveryLevel := determineRecoveryLevel |}.

(** *** What one call reads from the process and from puppeteer *)

(** [process.env['PUPPETEER_LAUNCH_OPTIONS']], through [JSON.parse]. *)
Inductive EnvJson : Type :=
| EnvUnset
| EnvInvalid (error : string)
| EnvParsed (config : LaunchOptions).

Record Process : Type := {
  PUPPETEER_LAUNCH_OPTIONS : EnvJson;
  ALLOW_DANGEROUS : option string;
  (** [process.getuid && process.getuid() === 0] *)
  isRoot : bool
}.

(** What [puppeteer.launch] resolves to, with the results of the two calls
    made on the new browser. *)
Record Launched : Type := {
  launchedBrowser : Browser;
  pagesResult : outcome (list Page);
  newPageResult : outcome Page
}.

(** The argument of [initialize] and [ensureBrowser]. *)
Record InitOptions : Type := {
  opt_launchOptions : option LaunchOptions;
  opt_allowDangerous : option bool
}.

(** [if (!args) args = []; if (!args.includes('--no-sandbox')) args.push(...)] *)
Definition pushNoSandbox (config : LaunchOptions) : LaunchOptions :=
  let current := default [] (args config) in
  {| args := Some (if JS.arrayIncludes current "--no-sandbox" then current
                   else (current ++ ["--no-sandbox"])%list);
     others := others config |}.

Definition dangerousMessage (dangerousArgs : list string) : string :=
  "Dangerous browser arguments detected: " +:+ JS.join ", " dangerousArgs +:+ ". " +:+
  "Set allowDangerous: true to override.".

(** [await this.browser?.close()] *)
Definition closeBrowser : M unit :=
  this ← get;
  match browser this with
  | None => mret tt
  | Some b =>
      emit BrowserClose;;
      match browserCloseError b with
      | Some e => throw e
      | None =>
          modify (setBrowser
                    (Some {| connected := false;
                             browserCloseError := browserCloseError b |}));;
          modify (fun s =>
                    setPage
                      (match page s with
                       | Some p => Some {| closed := true;
                                           pageCloseError := pageCloseError p |}
                       | None => None
                       end) s)
      end
  end.

(** [await this.page.close()] *)
Definition closePage (p : Page) : M unit :=
  emit PageClose;;
  match pageCloseError p with
  | Some e => throw e
  | None =>
      modify (setPage (Some {| closed := true;
                               pageCloseError := pageCloseError p |}))
  end.

Definition launchArgs : LaunchOptions :=
  {| args := Some ["--no-sandbox"; "--disable-setuid-sandbox"; "--disable-dev-shm-usage"];
     others := [("headless", "true")] |}.

(** The configuration the security validation inspects: the environment
    configuration merged with the instance options, with [--no-sandbox]
    pushed when running as root. *)
Definition mergedConfigOf (proc : Process) (envConfig newLaunchOptions : LaunchOptions)
  : LaunchOptions :=
  let mergedConfig := deepMerge envConfig newLaunchOptions in
  if isRoot proc then pushNoSandbox mergedConfig else mergedConfig.

Definition envConfigOf (proc : Process) : LaunchOptions :=
  match PUPPETEER_LAUNCH_OPTIONS proc with
  | EnvParsed config => config
  | _ => emptyOptions
  end.

(** *** ensureBrowser (lines 149-225) *)
Definition ensureBrowser (proc : Process) (launchResult : outcome Launched)
                         (options : InitOptions) : M unit :=
  match PUPPETEER_LAUNCH_OPTIONS proc with
  | EnvInvalid e => emit (LogWarn ("Failed to parse PUPPETEER_LAUNCH_OPTIONS:" +:+ e))
  | _ => mret tt
  end;;
  let envConfig := envConfigOf proc in
  this ← get;
  let newLaunchOptions :=
    deepMerge (launchOptions this) (default emptyOptions (opt_launchOptions options)) in
  modify (setLaunchOptions newLaunchOptions);;
  modify (setAllowDangerous (default false (opt_allowDangerous options)));;
  let mergedConfig := mergedConfigOf proc envConfig newLaunchOptions in
  (* deepMerge hands back the very array of this.launchOptions when the
     environment has no args: the push then lands in it as well *)
  when (isRoot proc && bool_decide (args envConfig = None)
        && bool_decide (args newLaunchOptions <> None))
       (modify (setLaunchOptions (pushNoSandbox newLaunchOptions)));;
  (* Security validation *)
  this ← get;
  match args mergedConfig with
  | Some mergedArgs =>
      let dangerousArgs := List.filter isDangerous mergedArgs in
      if (0 <? length dangerousArgs)%nat
         && negb (allowDangerous this
                  || bool_decide (ALLOW_DANGEROUS proc = Some "true"))
      then throw (dangerousMessage dangerousArgs)
      else mret tt
  | None => mret tt
  end;;
  tryCatch
    (this ← get;
     when (match browser this with
           | Some b => negb (connected b)
           | None => false
           end
           || negb (bool_decide
                      (previousLaunchOptions this = Some (launchOptions this))))
          (closeBrowser;;
           modify (setBrowser None);;
           modify (setPage None)))
    (fun _ =>
       modify (setBrowser None);;
       modify (setPage None));;
  modify (fun s => setPreviousLaunchOptions (Some (launchOptions s)) s);;
  this ← get;
  match browser this with
  | Some _ => mret tt
  | None =>
      emit (Launch (deepMerge launchArgs mergedConfig));;
      match launchResult with
      | Thrown e => throw e
      | Returned launched =>
          modify (setBrowser (Some (launchedBrowser launched)));;
          emit Pages;;
          match pagesResult launched with
          | Thrown e => throw e
          | Returned pages =>
              match pages with
              | first :: _ => modify (setPage (Some first))
              | [] =>
                  emit NewPage;;
                  match newPageResult launched with
                  | Thrown e => throw e
                  | Returned p => modify (setPage (Some p))
                  end
              end;;
              emit PageOnConsole
          end
      end
  end.

(** *** initialize (lines 227-245) *)
Definition initialize (proc : Process) (launchResult : outcome Launched)
                      (options : InitOptions) : M unit :=
  this ← get;
  if isInitializing this then
    emit (LogInfo "Browser initialization already in progress...")
  else
    modify (setIsInitializing true);;
    tryFinally
      (tryCatch
         (ensureBrowser proc launchResult options;;
          emit (LogInfo "BrowserManager initialized successfully"))
         (fun e =>
            emit (LogError "BrowserManager initialization failed:" e);;
            throw e))
      (modify (setIsInitializing false)).

(** *** isReady (lines 268-270) *)
Definition isReady (this : State) : bool :=
  match browser this, page this with
  | Some _, Some p => negb (closed p) && negb (isInitializing this)
  | _, _ => false
  end.

(** *** cleanup (lines 272-298) *)
Definition cleanup : M unit :=
  tryCatch
    (this ← get;
     match idleTimeout this with
     | Some timer => emit (ClearTimeout timer);; modify (setIdleTimeout None)
     | None => mret tt
     end;;
     match page this with
     | Some p => if negb (closed p) then closePage p else mret tt
     | None => mret tt
     end;;
     this ← get;
     match browser this with
     | Some b => if connected b then closeBrowser else mret tt
     | None => mret tt
     end;;
     modify (setPage None);;
     modify (setBrowser None);;
     modify (setIsInitializing false);;
     modify (setPreviousLaunchOptions None);;
     emit (LogInfo "BrowserManager cleanup completed"))
    (fun e => emit (LogError "Error during BrowserManager cleanup:" e)).

(** The test of the [filter] callback of [deepMerge] on a target argument:
    some source argument starts with its flag. *)
Definition overridden (sourceVal : list string) (arg : string) : bool :=
  existsb (fun launchArg =>
             JS.startsWith arg "--" && JS.startsWith launchArg (argPrefix arg))
          sourceVal.

(** The security validation lets the merged arguments through. *)
Definition passesValidation (proc : Process) (options : InitOptions)
                            (mergedConfig : LaunchOptions) : bool :=
  match args mergedConfig with
  | Some mergedArgs =>
      negb ((0 <? length (List.filter isDangerous mergedArgs))%nat
            && negb (default false (opt_allowDangerous options)
                     || bool_decide (ALLOW_DANGEROUS proc = Some "true")))
  | None => true
  end.

(** *** Sample inputs *)

Definition userProcess : Process :=
  {| PUPPETEER_LAUNCH_OPTIONS := EnvUnset; ALLOW_DANGEROUS := None; isRoot := false |}.

Definition openPage : Page := {| closed := false; pageCloseError := None |}.

Definition liveBrowser : Browser := {| connected := true; browserCloseError := None |}.

Definition launchOk : outcome Launched :=
  Returned {| launchedBrowser := liveBrowser;
              pagesResult := Returned [openPage];
              newPageResult := Returned openPage |}.

(** The options of the test "should throw an error for dangerous
    arguments if not allowed". *)
Definition dangerousOptions : InitOptions :=
  {| opt_launchOptions :=
       Some {| args := Some ["--no-sandbox"; "--disable-web-security"]; others := [] |};
     opt_allowDangerous := Some false |}.

(** A ready manager whose page rejects [close()], as in the test
    "should handle cleanup errors gracefully". *)
Definition readyWithFailingPage : State :=
  {| browser := Some liveBrowser;
     page := Some {| closed := false; pageCloseError := Some "Close failed" |};
     isInitializing := false;
     searchInputSelector := defaultSearchInputSelector;
     idleTimeout := Some 1%nat; operationCount := 0%nat;
     previousLaunchOptions := Some emptyOptions; launchOptions := emptyOptions;
     allowDangerous := true |}.

End BrowserManager.

(** ** src/utils/request-timing.ts, in exact arithmetic

    Every number is a rational and no operation rounds; there is no NaN
    and no infinity. *)

Module RequestTiming.

Local Open Scope Q_scope.

Record RequestStats : Type := {
  totalRequests : nat;
  averageResponseTime : Q;
  lastRequestTime : Z;
  minDelay : Q;
  maxDelay : Q
}.

(** A request count as a number. *)
Definition num (n : nat) : Q := inject_Z (Z.of_nat n).

(** [initializeRequestStats()]; [now] is [Date.now()]. *)
Definition initializeRequestStats (now : Z) : RequestStats :=
  {| totalRequests := 0;
     averageResponseTime := 0;
     lastRequestTime := now;
     minDelay := 100;
     maxDelay := 2500 |}.

(** [calculateAdaptiveDelay(stats)] (lines 42-66); [random] is the one
    [Math.random()] the call makes. *)
Definition calculateAdaptiveDelay (stats : RequestStats) (random : Q) : Q :=
  if (totalRequests stats =? 0)%nat then
    100 + random * 200
  else
    let requestFatigueFactor := Qmin (num (totalRequests stats) * 50) 500 in
    let baseDelay : Q :=
      if Qlt_le_dec (averageResponseTime stats) 500 then 200
      else if Qlt_le_dec (averageResponseTime stats) 2000 then 500
      else 1000 in
    let randomFactor := 0.5 + random in
    let delay := (baseDelay + requestFatigueFactor) * randomFactor in
    Qmax (minDelay stats) (Qmin (maxDelay stats) delay).

(** [updateRequestStats(stats, responseDuration)] (lines 71-84): the
    object after the call; the log line it writes is left out. *)
Definition updateRequestStats (stats : RequestStats) (responseDuration : Q) (now : Z)
  : RequestStats :=
  let totalRequests' := S (totalRequests stats) in
  {| totalRequests := totalRequests';
     lastRequestTime := now;
     averageResponseTime :=
       (averageResponseTime stats * (num totalRequests' - 1) + responseDuration)
       / num totalRequests';
     minDelay := minDelay stats;
     maxDelay := maxDelay stats |}.

(** Successive calls on the same object, one per observed duration. *)
Definition feed (stats : RequestStats) (durations : list (Q * Z)) : RequestStats :=
  fold_left (fun st d => updateRequestStats st (fst d) (snd d)) durations stats.

(** [calculateExponentialBackoff(attemptNumber)] (lines 160-167) *)
Definition calculateExponentialBackoff (attemptNumber : Z) (random : Q) : Q :=
  let baseDelay := 1000 in
  let exponentialDelay := baseDelay * Qpower 2 (attemptNumber - 1) in
  let maxDelay := 30000 in
  let randomJitter := random * 1000 in
  Qmin (exponentialDelay + randomJitter) maxDelay.

Record NetworkBehaviorProfile : Type := {
  minRequestDelay : Q;
  maxRequestDelay : Q;
  requestVariability : Q;
  responseTimeMultiplier : Q;
  readingPaceMultiplier : Q
}.

(** [generateNetworkProfile()] (lines 185-193); [r1] to [r5] are its
    five [Math.random()] calls, in order. *)
Definition generateNetworkProfile (r1 r2 r3 r4 r5 : Q) : NetworkBehaviorProfile :=
  {| minRequestDelay := 100 + r1 * 300;
     maxRequestDelay := 1500 + r2 * 1500;
     requestVariability := 0.3 + r3 * 0.4;
     responseTimeMultiplier := 0.8 + r4 * 0.4;
     readingPaceMultiplier := 0.7 + r5 * 0.6 |}.

(** [xs[Math.floor(Math.random() * xs.length)]] *)
Definition pick (xs : list string) (random : Q) : option string :=
  JS.at_ xs (Qfloor (random * num (length xs))).

Definition acceptEncodings : list string :=
  [ "gzip, deflate, br";
    "gzip, deflate";
    "gzip";
    "br, gzip, deflate";
    "gzip, deflate, br, compress" ].

Definition acceptLanguages : list string :=
  [ "en-US,en;q=0.9";
    "en-US,en;q=0.8";
    "en-US,en;q=0.9,en;q=0.8";
    "en;q=0.9,en-US;q=0.8" ].

Definition cacheControlValues : list string :=
  [ "max-age=0";
    "no-cache";
    "max-age=0, no-cache, no-store" ].

(** [generateRandomHeaders()] (lines 90-129): the header object, keys in
    the order written; [r1] to [r3] are its three [Math.random()] calls. *)
Definition generateRandomHeaders (r1 r2 r3 : Q) : list (string * string) :=
  let encoding := pick acceptEncodings r1 in
  let language := pick acceptLanguages r2 in
  let cacheControl := pick cacheControlValues r3 in
  [ ("Accept-Encoding", JS.orString encoding "gzip, deflate, br");
    ("Accept-Language", JS.orString language "en-US,en;q=0.9");
    ("Cache-Control", JS.orString cacheControl "max-age=0");
    ("Pragma", "no-cache");
    ("Sec-Fetch-Dest", "document");
    ("Sec-Fetch-Mode", "navigate");
    ("Sec-Fetch-Site", "none");
    ("Upgrade-Insecure-Requests", "1") ].

(** [headers[key]] *)
Fixpoint header (headers : list (string * string)) (key : string) : option string :=
  match headers with
  | [] => None
  | (k, v) :: rest => if String.eqb k key then Some v else header rest key
  end.

(** [getHumanThinkingTime()] (lines 135-138) *)
Definition getHumanThinkingTime (random : Q) : Q := 500 + random * 2500.

Record RequestVariation : Type := {
  jitter : Q;
  delay : Q;
  headerVariation : list (string * string)
}.

(** [generateRequestVariation()] (lines 144-154); the five draws in the
    order the object literal makes them. *)
Definition generateRequestVariation (r1 r2 r3 r4 r5 : Q) : RequestVariation :=
  {| jitter := r1 * 100;
     delay := 50 + r2 * 300;
     headerVariation := generateRandomHeaders r3 r4 r5 |}.

(** [applyBehaviorProfile(profile, baseDelay)] (lines 198-210) *)
Definition applyBehaviorProfile (profile : NetworkBehaviorProfile) (baseDelay : Q)
                                (random : Q) : Q :=
  let variationAmount := baseDelay * requestVariability profile in
  let variance := - variationAmount + random * variationAmount * 2 in
  let adjustedDelay := baseDelay + variance in
  Qmax (minRequestDelay profile)
       (Qmin (maxRequestDelay profile)
             (adjustedDelay * responseTimeMultiplier profile)).

(** What [Math.random()] can return. *)
Definition isRandom (r : Q) : Prop := 0 <= r /\ r < 1.

(** The sum of the observed durations. *)
Definition total (durations : list (Q * Z)) : Q :=
  fold_right (fun d acc => fst d + acc) 0 durations.

End RequestTiming.

(** ** JavaScript numbers: IEEE 754 binary64

    A number is a [spec_float] of the standard library (sign, mantissa,
    exponent; zeros, infinities, NaN), and the operations are its
    round-to-nearest-even operations at precision 53 and maximal exponent
    1024, which is the arithmetic ECMAScript prescribes. *)

Module Binary64.

Abbreviation float := SpecFloat.spec_float.
Abbreviation NaN := SpecFloat.S754_nan.

Definition prec : Z := 53.
Definition emax : Z := 1024.

(** [x + y], [x - y], [x * y], [x / y] *)
Definition add : float -> float -> float := SpecFloat.SFadd prec emax.
Definition sub : float -> float -> float := SpecFloat.SFsub prec emax.
Definition mul : float -> float -> float := SpecFloat.SFmul prec emax.
Definition div : float -> float -> float := SpecFloat.SFdiv prec emax.

(** [x < y] and [x <= y]: false when either side is NaN. [x >= y] is
    [leb y x]. *)
Definition ltb : float -> float -> bool := SpecFloat.SFltb.
Definition leb : float -> float -> bool := SpecFloat.SFleb.

(** An integer literal, and a count held in a number. *)
Definition ofZ (n : Z) : float := SpecFloat.binary_normalize prec emax n 0 false.
Definition ofNat (n : nat) : float := ofZ (Z.of_nat n).

(** A decimal literal such as [0.5] (5 over 10): the double nearest to the
    quotient, which the correctly rounded division of the two integers
    gives. *)
Definition decimal (numerator denominator : Z) : float :=
  div (ofZ numerator) (ofZ denominator).

Definition isNaN (x : float) : bool :=
  match x with SpecFloat.S754_nan => true | _ => false end.

Definition isFinite (x : float) : bool :=
  match x with
  | SpecFloat.S754_zero _ | SpecFloat.S754_finite _ _ _ => true
  | _ => false
  end.

(** The rational a finite double stands for (0 for the others). *)
Definition value (x : float) : Q :=
  match x with
  | SpecFloat.S754_finite s m e =>
      (inject_Z (SpecFloat.cond_Zopp s (Zpos m)) * Qpower 2 e)%Q
  | _ => 0%Q
  end.

(** [Math.max(x, y)]: NaN when either is NaN; [+0] is above [-0]. *)
Definition max (x y : float) : float :=
  if isNaN x || isNaN y then NaN
  else if ltb x y then y
  else if ltb y x then x
  else match x, y with
       | SpecFloat.S754_zero true, SpecFloat.S754_zero false => y
       | _, _ => x
       end.

(** [Math.min(x, y)]: NaN when either is NaN; [-0] is below [+0]. *)
Definition min (x y : float) : float :=
  if isNaN x || isNaN y then NaN
  else if ltb x y then x
  else if ltb y x then y
  else match x, y with
       | SpecFloat.S754_zero false, SpecFloat.S754_zero true => y
       | _, _ => x
       end.

(** The largest value [Math.random()] can return: 1 - 2^-53. *)
Definition largestRandom : float :=
  SpecFloat.S754_finite false (2 ^ 53 - 1) (-53).

End Binary64.

(** ** src/utils/request-timing.ts, in doubles *)

Module RequestTimingBinary64.

Import Binary64.

(** [totalRequests] is a count: it starts at 0 and is only incremented,
    and integers are exact in a double below 2^53. *)
Record RequestStats : Type := {
  totalRequests : nat;
  averageResponseTime : float;
  lastRequestTime : Z;
  minDelay : float;
  maxDelay : float
}.

(** [initializeRequestStats()] (lines 28-36); [now] is [Date.now()]. *)
Definition initializeRequestStats (now : Z) : RequestStats :=
  {| totalRequests := 0;
     averageResponseTime := ofZ 0;
     lastRequestTime := now;
     minDelay := ofZ 100;
     maxDelay := ofZ 2500 |}.

(** [calculateAdaptiveDelay(stats)] (lines 42-66); [random] is the one
    [Math.random()] the call makes. *)
Definition calculateAdaptiveDelay (stats : RequestStats) (random : float) : float :=
  if (totalRequests stats =? 0)%nat then
    add (ofZ 100) (mul random (ofZ 200))
  else
    let requestFatigueFactor :=
      min (mul (ofNat (totalRequests stats)) (ofZ 50)) (ofZ 500) in
    let baseDelay :=
      if ltb (averageResponseTime stats) (ofZ 500) then ofZ 200
      else if ltb (averageResponseTime stats) (ofZ 2000) then ofZ 500
      else ofZ 1000 in
    let randomFactor := add (decimal 5 10) random in
    let delay := mul (add baseDelay requestFatigueFactor) randomFactor in
    max (minDelay stats) (min (maxDelay stats) delay).

(** [updateRequestStats(stats, responseDuration)] (lines 71-84): the
    object after the call; the log line it writes is left out. *)
Definition updateRequestStats (stats : RequestStats) (responseDuration : float) (now : Z)
  : RequestStats :=
  let totalRequests' := S (totalRequests stats) in
  {| totalRequests := totalRequests';
     lastRequestTime := now;
     averageResponseTime :=
       div (add (mul (averageResponseTime stats) (sub (ofNat totalRequests') (ofZ 1)))
                responseDuration)
           (ofNat totalRequests');
     minDelay := minDelay stats;
     maxDelay := maxDelay stats |}.

(** Successive calls on the same object, one per observed duration. *)
Definition feed (stats : RequestStats) (durations : list (float * Z)) : RequestStats :=
  fold_left (fun st d => updateRequestStats st (fst d) (snd d)) durations stats.

(** [maxRequestDelay] of [generateNetworkProfile()] (line 188); [r2] is
    its draw. *)
Definition maxRequestDelay (r2 : float) : float :=
  add (ofZ 1500) (mul r2 (ofZ 1500)).

(** Whether one call of [updateRequestStats] rounds nowhere: the duration
    and the results of its four operations are finite, and each result
    stands for the rational that the operation gives on the rationals its
    operands stand for. *)
Definition exactUpdate (stats : RequestStats) (responseDuration : float) : bool :=
  let count := ofNat (S (totalRequests stats)) in
  let previous := sub count (ofZ 1) in
  let product := mul (averageResponseTime stats) previous in
  let sum := add product responseDuration in
  let quotient := div sum count in
  isFinite responseDuration && isFinite product && isFinite sum && isFinite quotient
  && Qeq_bool (value count) (RequestTiming.num (S (totalRequests stats)))
  && Qeq_bool (value previous) (value count - 1)
  && Qeq_bool (value product) (value (averageResponseTime stats) * value previous)
  && Qeq_bool (value sum) (value product + value responseDuration)
  && Qeq_bool (value quotient) (value sum / value count).

(** Whether no call of a sequence rounds. *)
Fixpoint exactFeed (stats : RequestStats) (durations : list (float * Z)) : bool :=
  match durations with
  | [] => true
  | d :: rest =>
      exactUpdate stats (fst d)
      && exactFeed (updateRequestStats stats (fst d) (snd d)) rest
  end.

(** The rationals a sequence of durations stands for. *)
Definition values (durations : list (float * Z)) : list (Q * Z) :=
  map (fun d => (value (fst d), snd d)) durations.

(** Durations that are whole milliseconds. *)
Definition integers (durations : list Z) : list (float * Z) :=
  map (fun d => (ofZ d, 0)) durations.

End RequestTimingBinary64.

(** ** test-phase2.mjs: the stand-ins the test suite runs instead of
    request-timing.ts *)

Module TestPhase2.

Import RequestTiming.
Local Open Scope Q_scope.

(** [mockRequestTiming.generateNetworkProfile] (lines 73-79) *)
Definition generateNetworkProfile (r1 r2 r3 r4 r5 : Q) : NetworkBehaviorProfile :=
  {| minRequestDelay := 100 + r1 * 300;
     maxRequestDelay := 1500 + r2 * 1500;
     requestVariability := 0.3 + r3 * 0.4;
     responseTimeMultiplier := 0.8 + r4 * 0.4;
     readingPaceMultiplier := 0.8 + r5 * 0.4 |}.

End TestPhase2.

Module TestPhase2Binary64.

Import Binary64.
Import RequestTimingBinary64.

(** [mockRequestTiming.calculateAdaptiveDelay] (lines 47-61) *)
Definition calculateAdaptiveDelay (stats : RequestStats) (random : float) : float :=
  if (totalRequests stats =? 0)%nat then
    add (ofZ 100) (mul random (ofZ 200))
  else
    let requestFatigueFactor :=
      min (mul (ofNat (totalRequests stats)) (ofZ 50)) (ofZ 500) in
    let baseDelay :=
      if leb (ofZ 500) (averageResponseTime stats)
         && ltb (averageResponseTime stats) (ofZ 2000)
      then ofZ 500
      else if leb (ofZ 2000) (averageResponseTime stats) then ofZ 1000
      else ofZ 200 in
    let randomFactor := add (decimal 5 10) random in
    let delay := mul (add baseDelay requestFatigueFactor) randomFactor in
    max (minDelay stats) (min (maxDelay stats) delay).

(** [mockRequestTiming.updateRequestStats] (lines 63-69) *)
Definition updateRequestStats (stats : RequestStats) (responseDuration : float) (now : Z)
  : RequestStats :=
  let totalRequests' := S (totalRequests stats) in
  {| totalRequests := totalRequests';
     lastRequestTime := now;
     averageResponseTime :=
       div (add (mul (averageResponseTime stats) (sub (ofNat totalRequests') (ofZ 1)))
                responseDuration)
           (ofNat totalRequests');
     minDelay := minDelay stats;
     maxDelay := maxDelay stats |}.

(** [readingPaceMultiplier] of [mockRequestTiming.generateNetworkProfile]
    (line 78); [r5] is its draw. *)
Definition readingPaceMultiplier (r5 : float) : float :=
  add (decimal 8 10) (mul r5 (decimal 4 10)).

End TestPhase2Binary64.

(** ** src/server/config.ts: the two keys the session manager reads *)

Module CONFIG.
Definition SESSION_STORAGE_DIR : string := "./session-storage".
Definition SESSION_EXPIRY_HOURS : Z := 24.
End CONFIG.

(** ** src/utils/session-manager.ts *)

Module SessionManager.

Record Cookie : Type := {
  cookieName : string;
  cookieValue : string
}.

Record StoredSession : Type := {
  cookies : list Cookie;
  localStorage : list (string * string);
  timestamp : Z
}.

(** A file of the session directory: the [StoredSession] that
    [JSON.parse] reads from it, or text that [JSON.parse] rejects. *)
Inductive File : Type :=
| SessionFile (session : StoredSession)
| Unparsable (error : string).

(** The file system, by path. [stat] and [unlink] of a path succeed
    exactly when the path is present. *)
Abbreviation FileSystem := (gmap string File).

(** The page, as far as restoring touches it: the cookies set, the
    storage snapshots registered for new documents, and whether the two
    calls reject. *)
Record Page : Type := {
  pageCookies : list Cookie;
  newDocumentStorage : list (list (string * string));
  setCookieError : option string;
  evaluateError : option string
}.

Inductive Event : Type :=
| LogInfo (message : string)
| LogWarn (message detail : string)
| Stat (path : string)
| ReadFile (path : string)
| Unlink (path : string)
| SetCookie (cookies : list Cookie)
| EvaluateOnNewDocument (storage : list (string * string)).

(** [value || fallback] on numbers *)
Definition orDefault (value fallback : Z) : Z :=
  if (value =? 0)%Z then fallback else value.

(** [getSessionPath(sessionId)]; [join] is modelled for a plain file name. *)
Definition getSessionPath (sessionId : string) : string :=
  CONFIG.SESSION_STORAGE_DIR +:+ "/" +:+ sessionId +:+ ".json".

Definition expiryMs : Z :=
  orDefault CONFIG.SESSION_EXPIRY_HOURS 24 * 60 * 60 * 1000.

(** [await page.setCookie(...cookies)] *)
Definition setCookie (page : Page) (cs : list Cookie) : outcome Page :=
  match setCookieError page with
  | Some e => Thrown e
  | None =>
      Returned {| pageCookies := (pageCookies page ++ cs)%list;
                  newDocumentStorage := newDocumentStorage page;
                  setCookieError := setCookieError page;
                  evaluateError := evaluateError page |}
  end.

(** [await page.evaluateOnNewDocument(fn, storage)] *)
Definition evaluateOnNewDocument (page : Page) (storage : list (string * string))
  : outcome Page :=
  match evaluateError page with
  | Some e => Thrown e
  | None =>
      Returned {| pageCookies := pageCookies page;
                  newDocumentStorage := (newDocumentStorage page ++ [storage])%list;
                  setCookieError := setCookieError page;
                  evaluateError := evaluateError page |}
  end.

Record Result : Type := {
  restored : bool;
  files : FileSystem;
  pageAfter : Page;
  trace : list Event
}.

Definition failed (sessionId e : string) (fs : FileSystem) (page : Page)
                  (t : list Event) : Result :=
  {| restored := false; files := fs; pageAfter := page;
     trace := (t ++ [LogWarn ("Failed to restore session for " +:+ sessionId +:+ ":") e])%list |}.

(** [restoreSessionCookies(page, sessionId)] (lines 90-146); [now] is
    [Date.now()]. *)
Definition restoreSessionCookies (now : Z) (fs : FileSystem) (page : Page)
                                 (sessionId : string) : Result :=
  let sessionPath := getSessionPath sessionId in
  match fs !! sessionPath with
  | None =>
      {| restored := false; files := fs; pageAfter := page;
         trace := [Stat sessionPath;
                   LogInfo ("Session file not found for " +:+ sessionId +:+ ", starting fresh")] |}
  | Some (Unparsable e) =>
      failed sessionId e fs page [Stat sessionPath; ReadFile sessionPath]
  | Some (SessionFile session) =>
      let age := now - timestamp session in
      if (age >? expiryMs)%Z then
        {| restored := false; files := delete sessionPath fs; pageAfter := page;
           trace := [Stat sessionPath; ReadFile sessionPath;
                     LogInfo ("Session expired for " +:+ sessionId);
                     Unlink sessionPath] |}
      else
        let t0 := [Stat sessionPath; ReadFile sessionPath] in
        (* Restore cookies *)
        let afterCookies :=
          if (0 <? length (cookies session))%nat then
            match setCookie page (cookies session) with
            | Thrown e => Thrown e
            | Returned page1 =>
                Returned (page1,
                          [SetCookie (cookies session);
                           LogInfo ("Restored cookies for " +:+ sessionId)])
            end
          else Returned (page, []) in
        match afterCookies with
        | Thrown e =>
            failed sessionId e fs page (t0 ++ [SetCookie (cookies session)])%list
        | Returned (page1, t1) =>
            (* Restore localStorage *)
            if (0 <? length (localStorage session))%nat then
              match evaluateOnNewDocument page1 (localStorage session) with
              | Thrown e =>
                  failed sessionId e fs page1
                    (t0 ++ t1 ++ [EvaluateOnNewDocument (localStorage session)])%list
              | Returned page2 =>
                  {| restored := true; files := fs; pageAfter := page2;
                     trace := (t0 ++ t1 ++
                               [EvaluateOnNewDocument (localStorage session);
                                LogInfo ("Restored localStorage items for " +:+ sessionId);
                                LogInfo ("Session restored successfully for " +:+ sessionId)])%list |}
              end
            else
              {| restored := true; files := fs; pageAfter := page1;
                 trace := (t0 ++ t1 ++
                           [LogInfo ("Session restored successfully for " +:+ sessionId)])%list |}
        end
  end.

(** The calls that reapply stored state to the page. *)
Definition touchesPage (ev : Event) : bool :=
  match ev with
  | SetCookie _ | EvaluateOnNewDocument _ => true
  | _ => false
  end.

(** *** Saving, deleting and sweeping *)

(** [saveSessionCookies(page, sessionId)] (lines 45-82). [mkdirError] is the
    rejection of [fs.mkdir], if any (logged by [ensureSessionDir], not
    raised); [pageCookies] and [pageStorage] are what [page.cookies()] and
    the [page.evaluate] of the localStorage resolve to; [writeError] is the
    rejection of [fs.writeFile], if any. The result is the file system and
    the log lines. *)
Definition saveSessionCookies (now : Z) (fs : FileSystem)
    (mkdirError : option string)
    (pageCookies : outcome (list Cookie))
    (pageStorage : outcome (list (string * string)))
    (writeError : option string) (sessionId : string)
  : FileSystem * list Event :=
  let t0 :=
    match mkdirError with
    | Some e =>
        [LogWarn ("Failed to create session directory "
                  +:+ CONFIG.SESSION_STORAGE_DIR +:+ ":") e]
    | None => []
    end in
  let failedSave e :=
    (fs, (t0 ++ [LogWarn ("Failed to save session for " +:+ sessionId +:+ ":") e])%list) in
  match pageCookies with
  | Thrown e => failedSave e
  | Returned cookies =>
      match pageStorage with
      | Thrown e => failedSave e
      | Returned localStorage =>
          let session := {| cookies := cookies;
                            localStorage := localStorage;
                            timestamp := now |} in
          let sessionPath := getSessionPath sessionId in
          match writeError with
          | Some e => failedSave e
          | None =>
              (<[sessionPath := SessionFile session]> fs,
               (t0 ++ [LogInfo ("Session saved for " +:+ sessionId)])%list)
          end
      end
  end.

(** [deleteSession(sessionId)] (lines 196-206) *)
Definition deleteSession (fs : FileSystem) (sessionId : string)
  : FileSystem * list Event :=
  let sessionPath := getSessionPath sessionId in
  match fs !! sessionPath with
  | Some _ => (delete sessionPath fs, [LogInfo ("Deleted session: " +:+ sessionId)])
  | None =>
      (fs, [LogWarn ("Failed to delete session " +:+ sessionId +:+ ":") "ENOENT"])
  end.

(** An entry of the session directory as [clearExpiredSessions] sees it:
    the name [readdir] lists and the [mtimeMs] of its [stat]. *)
Record DirEntry : Type := {
  fileName : string;
  mtimeMs : Z
}.

(** The test of the loop body: a [.json] file whose age exceeds the window. *)
Definition isExpiredFile (now : Z) (entry : DirEntry) : bool :=
  JS.endsWith (fileName entry) ".json" && (now - mtimeMs entry >? expiryMs)%Z.

(** [clearExpiredSessions()] (lines 152-190), on the listing of the
    directory, with [Date.now()] the same for every file: the entries left
    and [deletedCount]; the log lines are left out. *)
Fixpoint clearExpiredSessions (now : Z) (files : list DirEntry)
  : list DirEntry * nat :=
  match files with
  | [] => ([], 0%nat)
  | file :: rest =>
      match clearExpiredSessions now rest with
      | (kept, deletedCount) =>
          if negb (JS.endsWith (fileName file) ".json") then
            (file :: kept, deletedCount)
          else if (now - mtimeMs file >? expiryMs)%Z then
            (kept, S deletedCount)
          else (file :: kept, deletedCount)
      end
  end.

(** The ids for which [getSessionPath] is [join(dir, `${sessionId}.json`)]:
    an id without a path separator adds one segment to the directory, and
    [join] has nothing to normalise. An id such as [./a] or [b/../a] names
    the file of [a] as well. *)
Definition plainFileName (sessionId : string) : bool :=
  negb (JS.includes sessionId "/").

(** *** Sample inputs *)

Definition blankPage : Page :=
  {| pageCookies := []; newDocumentStorage := [];
     setCookieError := None; evaluateError := None |}.

Definition sampleSession : StoredSession :=
  {| cookies := [{| cookieName := "cf_clearance"; cookieValue := "abc" |}];
     localStorage := [("theme", "dark")];
     timestamp := 1000 |}.

Definition sampleFiles : FileSystem :=
  {[ getSessionPath "u1" := SessionFile sampleSession ]}.

(** A directory with the sessions of two ids. *)
Definition twoSessions : FileSystem :=
  <[ getSessionPath "u2" :=
       SessionFile {| cookies := [{| cookieName := "sid"; cookieValue := "xyz" |}];
                      localStorage := [];
                      timestamp := 0 |} ]> sampleFiles.

End SessionManager.

(** ** src/tools/chatPerplexity.ts *)

Module ChatPerplexity.

Inductive Role : Type := user | assistant.

Record ChatMessage : Type := {
  role : Role;
  content : string
}.

Record Args : Type := {
  message : string;
  chat_id : option string;
  launchOptions : option BrowserManager.LaunchOptions;
  allowDangerous : option bool
}.

(** The third argument of [performSearch]. *)
Record SearchOptions : Type := {
  so_launchOptions : option BrowserManager.LaunchOptions;
  so_allowDangerous : option bool
}.

(** The calls [chatPerplexity] makes on the functions it is given. *)
Inductive Call : Type :=
| GetChatHistory (chat_id : string)
| SaveChatMessage (chat_id : string) (msg : ChatMessage)
| PerformSearch (prompt : string) (options : SearchOptions).

(** One line of the conversation prompt (the body of the [for] loop). *)
Definition line (msg : ChatMessage) : string :=
  match role msg with
  | user => "User: " +:+ content msg +:+ JS.nl
  | assistant => "Assistant: " +:+ content msg +:+ JS.nl
  end.

Section Injected.

(** The injected functions and the state they act on. What
    [getChatHistory] returns is a JavaScript array, an object that the
    store may keep and change afterwards: [Array] is the reference
    returned, and [elements store array] the messages the array holds in a
    state of the store. For a store that answers every call with a new
    array (a database query) the elements of an array do not depend on the
    state; for one that hands out the array it keeps, and pushes to it on
    saving, they do. *)
Context {Store Array : Type}.
Variable getChatHistory : Store -> string -> Array.
Variable saveChatMessage : Store -> string -> ChatMessage -> Store.
Variable elements : Store -> Array -> list ChatMessage.
Variable performSearch : string -> SearchOptions -> outcome string.

(** [chatPerplexity(args, ctx, performSearch, getChatHistory,
    saveChatMessage)] (lines 13-41); [randomUUID] is what
    [crypto.randomUUID()] returns. The [for] loop runs after
    [saveChatMessage], over the array as it is then. *)
Definition chatPerplexity (args : Args) (randomUUID : string) (store : Store)
  : outcome string * Store * list Call :=
  let message := message args in
  let chat_id := default randomUUID (chat_id args) in
  let history := getChatHistory store chat_id in
  let userMessage := {| role := user; content := message |} in
  let store' := saveChatMessage store chat_id userMessage in
  let conversationPrompt :=
    fold_left (fun prompt msg => prompt +:+ line msg) (elements store' history) "" in
  let conversationPrompt := conversationPrompt +:+ "User: " +:+ message +:+ JS.nl in
  let options := {| so_launchOptions := launchOptions args;
                    so_allowDangerous := allowDangerous args |} in
  (performSearch conversationPrompt options,
   store',
   [GetChatHistory chat_id;
    SaveChatMessage chat_id userMessage;
    PerformSearch conversationPrompt options]).

End Injected.

(** Modelled from the spec: the chat-history store, whose implementation
    (DatabaseManager) is not among the sources. Section 6 gives it as
    [getHistory(id)], the ordered messages of a chat, and
    [append(id, message)]. *)
Definition getHistory (store : gmap string (list ChatMessage)) (id : string)
  : list ChatMessage :=
  default [] (store !! id).

(** Modelled from the spec: each call of [getHistory] answers with a new
    array of the rows, which nothing changes afterwards; its elements are
    the same in every state of the store. *)
Definition rows (store : gmap string (list ChatMessage)) (array : list ChatMessage)
  : list ChatMessage :=
  array.

(** Modelled from the spec: [append(id, message)] puts the message behind
    the messages of the chat. *)
Definition append (store : gmap string (list ChatMessage)) (id : string)
                  (msg : ChatMessage) : gmap string (list ChatMessage) :=
  <[id := (getHistory store id ++ [msg])%list]> store.

(** A store in memory that keeps one array per chat and hands out that
    array itself: [getChatHistory] returns the array kept for the id (the
    reference is the id) and [saveChatMessage] pushes to it ([append]). *)
Definition keptArray (store : gmap string (list ChatMessage)) (id : string) : string :=
  id.

(** The elements of a kept array are what the store holds for it at the
    time. *)
Definition keptElements (store : gmap string (list ChatMessage)) (array : string)
  : list ChatMessage :=
  default [] (store !! array).

(** The lines of a prompt, in order. *)
Definition promptOf (lines : list string) : string :=
  fold_right String.append "" lines.

End ChatPerplexity.

(** ** src/server/PerplexityServer.ts: the chat handler *)

Module PerplexityServer.

Import ChatPerplexity.

(** The calls the handler makes: the search engine, then the calls of
    [chatPerplexity]. *)
Inductive ServerCall : Type :=
| SearchEngineSearch (query : string) (options : SearchOptions)
| Chat (call : Call).

Section Handler.

(** The injected modules: [searchEngine.performSearch] and the two methods
    of the database manager, acting on the database; [elements] gives the
    messages of an array that [getChatHistory] returned, as for
    [chatPerplexity]. *)
Context {Database Array : Type}.
Variable searchEngine_performSearch : string -> SearchOptions -> outcome string.
Variable databaseManager_getChatHistory : Database -> string -> Array.
Variable databaseManager_saveChatMessage :
  Database -> string -> Role -> string -> Database.
Variable elements : Database -> Array -> list ChatMessage.

(** [handleChatPerplexity(args)] (PerplexityServer, lines 422-446 of the
    listing) *)
Definition handleChatPerplexity (typedArgs : Args) (randomUUID : string)
                                (db : Database)
  : outcome string * Database * list ServerCall :=
  let options := {| so_launchOptions := launchOptions typedArgs;
                    so_allowDangerous := allowDangerous typedArgs |} in
  let searched := SearchEngineSearch (message typedArgs) options in
  match searchEngine_performSearch (message typedArgs) options with
  | Thrown e => (Thrown e, db, [searched])
  | Returned searchResult =>
      let getChatHistoryFn := databaseManager_getChatHistory in
      let saveChatMessageFn :=
        fun d chatId msg =>
          databaseManager_saveChatMessage d chatId (role msg) (content msg) in
      match chatPerplexity getChatHistoryFn saveChatMessageFn elements
                           (fun _ _ => Returned searchResult)
                           typedArgs randomUUID db with
      | (result, db', calls) => (result, db', searched :: map Chat calls)
      end
  end.

End Handler.

End PerplexityServer.

(** ** src/utils/puppeteer-logic.ts

    The file is not among the sources; its unit tests
    (src/utils/__tests__/puppeteer-logic.test.ts) are. *)

Module PuppeteerLogic.

(** Modelled from the spec: the EnvironmentSnapshot of section 3, declared
    in the missing file. *)
Record EnvironmentSnapshot : Type := {
  hasBrowser : bool;
  isBrowserConnected : bool;
  hasValidPage : bool;
  operationCount : nat
}.

(** Modelled from the spec: the ErrorAnalysis of section 3, declared in the
    missing file. *)
Record ErrorAnalysis : Type := {
  isTimeout : bool;
  isNavigation : bool;
  isConnection : bool;
  isDetachedFrame : bool;
  isCaptcha : bool;
  consecutiveTimeouts : nat;
  consecutiveNavigationErrors : nat
}.

(** Modelled from the spec: the critical messages of section 4.2, step 2,
    of the missing [determineRecoveryLevel]. *)
Definition isCritical (rawMessage : string) : bool :=
  JS.includes rawMessage "frame detached"
  || JS.includes rawMessage "session closed"
  || JS.includes rawMessage "target closed".

(** Modelled from the spec: [determineRecoveryLevel(rawError?,
    environment?)] of puppeteer-logic.ts, which is missing. Section 4.2:
    decision order, first match wins: no error gives 1; a raw message
    containing "frame detached", "session closed" or "target closed" gives
    3; [hasBrowser == false] or [isBrowserConnected == false] gives 3;
    [hasValidPage == false] gives 2; otherwise 1. The environment is
    modelled when it is passed. *)
Definition determineRecoveryLevel (rawError : option string)
                                  (environment : EnvironmentSnapshot) : Z :=
  match rawError with
  | None => 1
  | Some rawMessage =>
      if isCritical rawMessage then 3
      else if negb (hasBrowser environment) || negb (isBrowserConnected environment)
      then 3
      else if negb (hasValidPage environment) then 2
      else 1
  end.

Local Open Scope Q_scope.

(** Modelled from the spec: the floor of the missing [calculateRetryDelay],
    the maximum of the floors of the categories that apply (section 4.3:
    [isTimeout] 5000, [isNavigation] 8000, combined by maximum). *)
Definition categoryFloor (analysis : ErrorAnalysis) : Q :=
  Qmax (if isTimeout analysis then 5000 else 0)
       (if isNavigation analysis then 8000 else 0).

Section Backoff.

(** The increment of the fatigue counters; section 4.3 bounds it and
    gives no formula. *)
Variable fatigueIncrement : ErrorAnalysis -> Q.

(** Modelled from the spec: [calculateRetryDelay(attemptNumber,
    analysis)] of puppeteer-logic.ts, which is missing. Section 4.3:
    1000 ms times 2^attempt plus a jitter uniform in (0,1000); the
    category floors are applied before the cap, the fatigue increment is
    added, and the result is capped at 30000 ms (section 3: every delay
    lies within [floor, ceiling]). [random] is the [Math.random()] of the
    jitter. *)
Definition calculateRetryDelay (attemptNumber : nat) (analysis : ErrorAnalysis)
                               (random : Q) : Q :=
  let exponentialDelay := 1000 * inject_Z (2 ^ Z.of_nat attemptNumber) in
  let jitter := random * 1000 in
  Qmin 30000
       (Qmax (categoryFloor analysis) (exponentialDelay + jitter)
        + fatigueIncrement analysis).

End Backoff.

(** A bounded increment with diminishing returns, to run the model on. *)
Definition sampleFatigue (analysis : ErrorAnalysis) : Q :=
  Qmin 4000
    (RequestTiming.num (consecutiveTimeouts analysis) * 1000 / (RequestTiming.num (consecutiveTimeouts analysis) + 1)
     + RequestTiming.num (consecutiveNavigationErrors analysis) * 1000 / (RequestTiming.num (consecutiveNavigationErrors analysis) + 1)).

Definition noFlags : ErrorAnalysis :=
  {| isTimeout := false; isNavigation := false; isConnection := false;
     isDetachedFrame := false; isCaptcha := false;
     consecutiveTimeouts := 0; consecutiveNavigationErrors := 0 |}.

End PuppeteerLogic.

(** * Properties *)

(** ** Substrings *)

Lemma append_cons (c : ascii) (a b : string) :
  String c a +:+ b = String c (a +:+ b).
Proof. reflexivity. Qed.

Lemma prefix_nil (s : string) : String.prefix "" s = true.
Proof. destruct s; reflexivity. Qed.

Lemma prefix_split (p s : string) :
  String.prefix p s = true <-> exists post, s = p +:+ post.
Proof.
  revert s. induction p as [|c p IH]; intros s.
  - rewrite prefix_nil. split; [intros _; exists s; reflexivity | reflexivity].
  - destruct s as [|d s]; simpl.
    + split; [discriminate | intros [post H]; discriminate].
    + destruct (ascii_dec c d) as [->|Hne].
      * rewrite IH. split; intros [post H]; exists post.
        -- now rewrite H.
        -- now injection H.
      * split; [discriminate | intros [post H]; injection H; congruence].
Qed.

Lemma append_assoc (a b c : string) : (a +:+ b) +:+ c = a +:+ (b +:+ c).
Proof.
  induction a as [|x a IH]; [reflexivity |].
  now rewrite !append_cons, IH.
Qed.

Lemma append_nil_r (a : string) : a +:+ "" = a.
Proof.
  induction a as [|x a IH]; [reflexivity |].
  now rewrite append_cons, IH.
Qed.

Lemma includes_nil (sub : string) :
  JS.includes "" sub = String.prefix sub "".
Proof. unfold JS.includes. apply orb_false_r. Qed.

Lemma includes_cons (c : ascii) (s sub : string) :
  JS.includes (String c s) sub = String.prefix sub (String c s) || JS.includes s sub.
Proof. reflexivity. Qed.

(** [includes] finds exactly the strings that occur somewhere in [s]. *)
Lemma includes_split (s sub : string) :
  JS.includes s sub = true <-> exists pre post, s = pre +:+ sub +:+ post.
Proof.
  induction s as [|c s IH].
  - rewrite includes_nil, prefix_split. split.
    + intros [post H]. exists "", post. exact H.
    + intros [pre [post H]]. destruct pre; [now exists post | discriminate].
  - rewrite includes_cons, orb_true_iff, prefix_split, IH. split.
    + intros [[post H] | [pre [post H]]].
      * exists "", post. exact H.
      * exists (String c pre), post. now rewrite append_cons, H.
    + intros [[|d pre] [post H]].
      * left. now exists post.
      * right. exists pre, post. rewrite append_cons in H. now injection H.
Qed.

(** A string that contains [sub] contains every piece of [sub]. *)
Lemma includes_piece (s sub l piece r : string) :
  sub = l +:+ piece +:+ r ->
  JS.includes s sub = true -> JS.includes s piece = true.
Proof.
  intros -> H. apply includes_split in H as [pre [post ->]].
  apply includes_split. exists (pre +:+ l), (r +:+ post).
  now rewrite !append_assoc.
Qed.

(** ** BrowserManager.determineRecoveryLevel *)

(** The four critical keywords of the method, each on its own. *)
Lemma bm_level3_keyword (message : string) :
  JS.includes (JS.toLowerCase message) "detached" = true \/
  JS.includes (JS.toLowerCase message) "crashed" = true \/
  JS.includes (JS.toLowerCase message) "disconnected" = true \/
  JS.includes (JS.toLowerCase message) "protocol error" = true ->
  BrowserManager.determineRecoveryLevel (Some message) = 3.
Proof.
  intros H. unfold BrowserManager.determineRecoveryLevel.
  destruct H as [-> | [-> | [-> | ->]]]; rewrite ?orb_true_r; reflexivity.
Qed.

(** X12: without a critical keyword the level is 2 on a navigation keyword
    ("navigation", "timeout" or "net::err", in any letter case). *)
Lemma bm_level2_keyword (message : string) :
  JS.includes (JS.toLowerCase message) "detached" = false ->
  JS.includes (JS.toLowerCase message) "crashed" = false ->
  JS.includes (JS.toLowerCase message) "disconnected" = false ->
  JS.includes (JS.toLowerCase message) "protocol error" = false ->
  JS.includes (JS.toLowerCase message) "navigation" = true \/
  JS.includes (JS.toLowerCase message) "timeout" = true \/
  JS.includes (JS.toLowerCase message) "net::err" = true ->
  BrowserManager.determineRecoveryLevel (Some message) = 2.
Proof.
  intros H1 H2 H3 H4 H. unfold BrowserManager.determineRecoveryLevel.
  rewrite H1, H2, H3, H4. simpl.
  destruct H as [-> | [-> | ->]]; rewrite ?orb_true_r; reflexivity.
Qed.

(** The tests of the method in the BrowserManager test file. *)
Example bm_level_tests :
  map BrowserManager.determineRecoveryLevel
      [Some "detached"; Some "crashed"; Some "disconnected";
       Some "navigation"; Some "timeout"; Some "net::err";
       Some "Some other error"; None]
  = [3; 3; 3; 2; 2; 2; 1; 1].
Proof. reflexivity. Qed.

(** C2, as stated, fails on the method: a message containing "session
    closed" is among the messages the claim lists, and the method answers 1,
    not 3. *)
Lemma determineRecoveryLevel_session_closed_not_3 :
  ~ (forall (this : BrowserManager.State) (message : string),
       (let errorMessage := JS.toLowerCase message in
        JS.includes errorMessage "frame detached" = true \/
        JS.includes errorMessage "session closed" = true \/
        JS.includes errorMessage "target closed" = true \/
        JS.includes errorMessage "detached" = true \/
        JS.includes errorMessage "crashed" = true \/
        JS.includes errorMessage "disconnected" = true) ->
       BrowserManager.ctx_determineRecoveryLevel
         (BrowserManager.getPuppeteerContext this) (Some message) = 3).
Proof.
  intros H.
  specialize (H BrowserManager.initial "session closed").
  simpl in H. discriminate H. right; left; reflexivity.
Qed.

(** C2, amended: for every error whose lower-cased message contains
    "detached" (so also "frame detached"), "crashed", "disconnected" or
    "protocol error", the recovery-level function that the manager hands to
    the recovery procedure returns 3, whatever the state of the manager
    (browser and page present or not, connected or not): the message is the
    only thing it reads, and these keywords are checked first. *)
Theorem determineRecoveryLevel_critical_message (this : BrowserManager.State)
                                                (message : string) :
  (let errorMessage := JS.toLowerCase message in
   JS.includes errorMessage "frame detached" = true \/
   JS.includes errorMessage "detached" = true \/
   JS.includes errorMessage "crashed" = true \/
   JS.includes errorMessage "disconnected" = true \/
   JS.includes errorMessage "protocol error" = true) ->
  BrowserManager.ctx_determineRecoveryLevel
    (BrowserManager.getPuppeteerContext this) (Some message) = 3.
Proof.
  cbv zeta. intros H. simpl. apply bm_level3_keyword.
  destruct H as [H | H]; [left | exact H].
  eapply (includes_piece _ "frame detached" "frame " "detached" ""); [reflexivity | exact H].
Qed.

Lemma determineRecoveryLevel_critical_message_witness :
  JS.includes (JS.toLowerCase "Navigation failed: Frame DETACHED") "frame detached" = true /\
  BrowserManager.ctx_determineRecoveryLevel
    (BrowserManager.getPuppeteerContext BrowserManager.initial)
    (Some "Navigation failed: Frame DETACHED") = 3.
Proof.
  split; [reflexivity |].
  apply (determineRecoveryLevel_critical_message BrowserManager.initial
           "Navigation failed: Frame DETACHED").
  left. reflexivity.
Defined.

(** ** PuppeteerLogic.determineRecoveryLevel *)

(** The tests of puppeteer-logic.test.ts for the function. *)
Example pl_level_tests :
  let healthy := {| PuppeteerLogic.hasBrowser := true;
                    PuppeteerLogic.isBrowserConnected := true;
                    PuppeteerLogic.hasValidPage := true;
                    PuppeteerLogic.operationCount := 0 |} in
  PuppeteerLogic.determineRecoveryLevel None healthy = 1 /\
  map (fun m => PuppeteerLogic.determineRecoveryLevel (Some m) healthy)
      ["frame detached"; "session closed"; "target closed"] = [3; 3; 3] /\
  PuppeteerLogic.determineRecoveryLevel (Some "any")
    {| PuppeteerLogic.hasBrowser := false;
       PuppeteerLogic.isBrowserConnected := false;
       PuppeteerLogic.hasValidPage := false;
       PuppeteerLogic.operationCount := 0 |} = 3 /\
  PuppeteerLogic.determineRecoveryLevel (Some "any")
    {| PuppeteerLogic.hasBrowser := true;
       PuppeteerLogic.isBrowserConnected := true;
       PuppeteerLogic.hasValidPage := false;
       PuppeteerLogic.operationCount := 0 |} = 2 /\
  PuppeteerLogic.determineRecoveryLevel (Some "any") healthy = 1.
Proof. repeat split. Qed.

(** A critical message gives 3 before the environment is looked at. *)
Lemma pl_critical_message (rawMessage : string)
                          (environment : PuppeteerLogic.EnvironmentSnapshot) :
  PuppeteerLogic.isCritical rawMessage = true ->
  PuppeteerLogic.determineRecoveryLevel (Some rawMessage) environment = 3.
Proof. intros H. unfold PuppeteerLogic.determineRecoveryLevel. now rewrite H. Qed.

(** C1: with an error whose message contains none of the critical
    keywords, the level is 3 when the environment has no browser or a
    disconnected one, 2 when browser and connection are there and the page
    is not valid, and 1 otherwise; with no error the level is 1. *)
Theorem determineRecoveryLevel_by_environment
    (rawMessage : string) (environment : PuppeteerLogic.EnvironmentSnapshot) :
  PuppeteerLogic.isCritical rawMessage = false ->
  (PuppeteerLogic.hasBrowser environment = false \/
   PuppeteerLogic.isBrowserConnected environment = false ->
   PuppeteerLogic.determineRecoveryLevel (Some rawMessage) environment = 3) /\
  (PuppeteerLogic.hasBrowser environment = true ->
   PuppeteerLogic.isBrowserConnected environment = true ->
   PuppeteerLogic.hasValidPage environment = false ->
   PuppeteerLogic.determineRecoveryLevel (Some rawMessage) environment = 2) /\
  (PuppeteerLogic.hasBrowser environment = true ->
   PuppeteerLogic.isBrowserConnected environment = true ->
   PuppeteerLogic.hasValidPage environment = true ->
   PuppeteerLogic.determineRecoveryLevel (Some rawMessage) environment = 1) /\
  PuppeteerLogic.determineRecoveryLevel None environment = 1.
Proof.
  intros Hmsg. unfold PuppeteerLogic.determineRecoveryLevel. rewrite Hmsg.
  destruct environment as [b c p n]; simpl.
  repeat split.
  - intros [-> | ->]; [reflexivity | now rewrite orb_true_r].
  - now intros -> -> ->.
  - now intros -> -> ->.
Qed.

Lemma determineRecoveryLevel_by_environment_witness :
  PuppeteerLogic.isCritical "any" = false /\
  PuppeteerLogic.determineRecoveryLevel (Some "any")
    {| PuppeteerLogic.hasBrowser := true;
       PuppeteerLogic.isBrowserConnected := true;
       PuppeteerLogic.hasValidPage := false;
       PuppeteerLogic.operationCount := 0 |} = 2.
Proof.
  split; [reflexivity |].
  apply (determineRecoveryLevel_by_environment "any"
           {| PuppeteerLogic.hasBrowser := true;
              PuppeteerLogic.isBrowserConnected := true;
              PuppeteerLogic.hasValidPage := false;
              PuppeteerLogic.operationCount := 0 |});
    reflexivity.
Defined.

(** ** BrowserManager: the security validation of the launch arguments *)

Import BrowserManager.

Lemma filter_isDangerous_nonempty (mergedArgs : list string) (arg : string) :
  In arg mergedArgs -> isDangerous arg = true ->
  (0 <? length (List.filter isDangerous mergedArgs))%nat = true.
Proof.
  intros Hin Hd.
  assert (Hf : In arg (List.filter isDangerous mergedArgs))
    by (apply filter_In; split; assumption).
  destruct (List.filter isDangerous mergedArgs); [destruct Hf | reflexivity].
Qed.

Lemma dangerousMessage_prefix (dangerousArgs : list string) :
  JS.startsWith (dangerousMessage dangerousArgs)
                "Dangerous browser arguments detected" = true.
Proof. reflexivity. Qed.

Lemma ensureBrowser_rejects (proc : Process) (launchResult : outcome Launched)
      (options : InitOptions) (this : State) (mergedArgs : list string) (arg : string) :
  args (mergedConfigOf proc (envConfigOf proc)
          (deepMerge (launchOptions this)
                     (default emptyOptions (opt_launchOptions options))))
  = Some mergedArgs ->
  In arg mergedArgs -> isDangerous arg = true ->
  default false (opt_allowDangerous options) = false ->
  ALLOW_DANGEROUS proc <> Some "true" ->
  exists this' t,
    ensureBrowser proc launchResult options this
    = (Thrown (dangerousMessage (List.filter isDangerous mergedArgs)), this', t)
    /\ noLaunch t
    /\ browser this' = browser this /\ page this' = page this
    /\ isInitializing this' = isInitializing this.
Proof.
  intros Hm Hin Hd Hallow Henv.
  pose proof (filter_isDangerous_nonempty _ _ Hin Hd) as Hlen.
  unfold ensureBrowser.
  unfold mbind, M_bind, bind, mret, M_ret, ret, when, emit, modify, get, throw.
  destruct (PUPPETEER_LAUNCH_OPTIONS proc) eqn:Hp;
  destruct (isRoot proc && bool_decide (args (envConfigOf proc) = None) &&
            bool_decide (args (deepMerge (launchOptions this)
                     (default emptyOptions (opt_launchOptions options))) <> None)) eqn:Hr;
  cbn [setLaunchOptions setAllowDangerous allowDangerous launchOptions fst snd];
  rewrite Hm, Hlen, Hallow;
  rewrite (bool_decide_eq_false_2 _ Henv); cbn [negb orb andb];
  eexists _, _; (split; [reflexivity |]);
  (split; [intros o Hc; cbn in Hc; intuition discriminate | repeat split]).
Qed.

Lemma isDangerous_intro (arg dangerousArg : string) :
  In dangerousArg DANGEROUS_ARGS -> JS.startsWith arg dangerousArg = true ->
  isDangerous arg = true.
Proof.
  intros Hin Hs. unfold isDangerous. apply existsb_exists.
  exists dangerousArg. split; assumption.
Qed.

(** C3: when the merged configuration (environment configuration merged
    with the instance options, with the flag pushed for root) holds an
    argument that starts with a flag of DANGEROUS_ARGS, [allowDangerous] is
    false or omitted and ALLOW_DANGEROUS is not the string true (unset in
    particular), [ensureBrowser] throws an error whose message starts with
    "Dangerous browser arguments detected", [puppeteer.launch] is not called
    and the browser handle is left as it was; [initialize], when it runs
    [ensureBrowser] (no other initialisation in flight), logs the error and
    throws the same error to its caller. *)
Theorem dangerous_arguments_rejected
    (proc : Process) (launchResult : outcome Launched) (options : InitOptions)
    (this : State) (mergedArgs : list string) (arg dangerousArg : string) :
  args (mergedConfigOf proc (envConfigOf proc)
          (deepMerge (launchOptions this)
                     (default emptyOptions (opt_launchOptions options))))
  = Some mergedArgs ->
  In arg mergedArgs ->
  In dangerousArg DANGEROUS_ARGS ->
  JS.startsWith arg dangerousArg = true ->
  default false (opt_allowDangerous options) = false ->
  ALLOW_DANGEROUS proc <> Some "true" ->
  (exists message this' t,
      ensureBrowser proc launchResult options this = (Thrown message, this', t)
      /\ JS.startsWith message "Dangerous browser arguments detected" = true
      /\ noLaunch t
      /\ browser this' = browser this) /\
  (isInitializing this = false ->
   exists message this' t,
      initialize proc launchResult options this = (Thrown message, this', t)
      /\ JS.startsWith message "Dangerous browser arguments detected" = true
      /\ noLaunch t
      /\ In (LogError "BrowserManager initialization failed:" message) t
      /\ browser this' = browser this
      /\ isInitializing this' = false).
Proof.
  intros Hm Hin Hd Hs Hallow Henv.
  pose proof (isDangerous_intro _ _ Hd Hs) as Hdanger.
  split.
  - destruct (ensureBrowser_rejects proc launchResult options this _ _
                Hm Hin Hdanger Hallow Henv) as (this' & t & Heq & Hno & Hb & _).
    exists (dangerousMessage (List.filter isDangerous mergedArgs)), this', t.
    repeat split; try assumption.
  - intros Hinit.
    destruct (ensureBrowser_rejects proc launchResult options
                (setIsInitializing true this) _ _
                Hm Hin Hdanger Hallow Henv) as (this' & t & Heq & Hno & Hb & _).
    unfold initialize.
    unfold mbind, M_bind, bind at 1, get. rewrite Hinit.
    unfold bind at 1, modify, tryFinally, tryCatch, bind at 1.
    rewrite Heq.
    unfold bind, emit, throw. cbn [app].
    eexists _, _, _. split; [reflexivity |].
    split; [apply dangerousMessage_prefix |].
    split; [| split; [| split; [exact Hb | reflexivity]]].
    + intros o Hc. rewrite app_nil_r in Hc. apply in_app_or in Hc as [Hc | Hc].
      * exact (Hno o Hc).
      * cbn in Hc. intuition discriminate.
    + rewrite app_nil_r. apply in_or_app. right. left. reflexivity.
Qed.

Lemma dangerous_arguments_rejected_witness :
  args (mergedConfigOf userProcess (envConfigOf userProcess)
          (deepMerge (launchOptions initial)
                     (default emptyOptions (opt_launchOptions dangerousOptions))))
  = Some ["--no-sandbox"; "--disable-web-security"] /\
  JS.startsWith "--disable-web-security" "--disable-web-security" = true /\
  ALLOW_DANGEROUS userProcess <> Some "true" /\
  exists message this' t,
    initialize userProcess launchOk dangerousOptions initial = (Thrown message, this', t)
    /\ JS.startsWith message "Dangerous browser arguments detected" = true
    /\ noLaunch t
    /\ In (LogError "BrowserManager initialization failed:" message) t
    /\ browser this' = browser initial
    /\ isInitializing this' = false.
Proof.
  split; [reflexivity |]. split; [reflexivity |]. split; [discriminate |].
  refine (proj2 (dangerous_arguments_rejected userProcess launchOk dangerousOptions
                   initial ["--no-sandbox"; "--disable-web-security"]
                   "--disable-web-security" "--disable-web-security"
                   eq_refl _ _ eq_refl eq_refl _) eq_refl).
  - right; left; reflexivity.
  - right; right; right; left; reflexivity.
  - discriminate.
Defined.

(** The test "should allow dangerous arguments when explicitly permitted". *)
Example dangerous_arguments_allowed :
  exists this' t,
    initialize userProcess launchOk
      {| opt_launchOptions := opt_launchOptions dangerousOptions;
         opt_allowDangerous := Some true |} initial
    = (Returned tt, this', t)
    /\ isReady this' = true
    /\ In (Launch {| args := Some ["--disable-setuid-sandbox"; "--disable-dev-shm-usage";
                                  "--no-sandbox"; "--disable-web-security"];
                     others := [("headless", "true")] |}) t.
Proof. eexists _, _. split; [reflexivity |]. split; [reflexivity |]. left. reflexivity. Qed.

(** The validation reads the merged configuration, not the built-in
    [launchArgs] merged in for the launch itself: a first [initialize()]
    without options by a non-root process validates nothing and launches
    with the built-in [--no-sandbox]; as root the pushed flag is validated
    and the same call is rejected. *)
Example initialize_without_options :
  (exists this' t,
      initialize userProcess launchOk
        {| opt_launchOptions := None; opt_allowDangerous := None |} initial
      = (Returned tt, this', t)
      /\ In (Launch launchArgs) t) /\
  (exists this' t,
      initialize {| PUPPETEER_LAUNCH_OPTIONS := EnvUnset; ALLOW_DANGEROUS := None;
                    isRoot := true |} launchOk
        {| opt_launchOptions := None; opt_allowDangerous := None |} initial
      = (Thrown (dangerousMessage ["--no-sandbox"]), this', t)
      /\ noLaunch t).
Proof.
  split.
  - eexists _, _. split; [reflexivity | left; reflexivity].
  - eexists _, _. split; [reflexivity |].
    intros o Hc. cbn in Hc. intuition discriminate.
Qed.

(** ** BrowserManager.cleanup *)

(** X9: [cleanup] never throws, and the idle timer is cancelled whatever
    happens to the two [close()] calls. *)
Lemma cleanup_returns (this : State) :
  exists this' t,
    cleanup this = (Returned tt, this', t) /\ idleTimeout this' = None.
Proof.
  destruct this as [[[bc [be|]]|] [[[] [pe|]]|] i sel [tm|] n prev lo ad];
    try destruct bc; eexists _, _; split; reflexivity.
Qed.

(** X10: when the [close()] calls that are made succeed, both handles are
    null afterwards and the manager is not ready. *)
Lemma cleanup_nulls_handles (this : State) :
  (forall p, page this = Some p -> closed p = false -> pageCloseError p = None) ->
  (forall b, browser this = Some b -> connected b = true -> browserCloseError b = None) ->
  exists this' t,
    cleanup this = (Returned tt, this', t)
    /\ page this' = None /\ browser this' = None /\ isReady this' = false.
Proof.
  intros Hp Hb.
  destruct this as [[[bc [be|]]|] [[pc [pe|]]|] i sel [tm|] n prev lo ad];
    cbn in Hp, Hb;
    try (destruct pc; [| now specialize (Hp _ eq_refl eq_refl)]);
    try (destruct bc; [now specialize (Hb _ eq_refl eq_refl) |]);
    try destruct pc; try destruct bc;
    eexists _, _; repeat split; reflexivity.
Qed.

(** C8 fails when [page.close()] rejects: the error is logged and the idle
    timer cancelled, but the statements that null the handles are skipped;
    the page and browser handles stay set and [isReady()] still answers
    true. *)
Theorem cleanup_page_close_error_keeps_handles :
  exists this' t,
    cleanup readyWithFailingPage = (Returned tt, this', t)
    /\ t = [ClearTimeout 1; PageClose;
            LogError "Error during BrowserManager cleanup:" "Close failed"]
    /\ idleTimeout this' = None
    /\ page this' = page readyWithFailingPage
    /\ browser this' = browser readyWithFailingPage
    /\ isReady this' = true.
Proof. eexists _, _. repeat split. Qed.

(** When [browser.close()] rejects after the page was closed, the handles
    stay set as well; the closed page makes [isReady()] false. *)
Example cleanup_browser_close_error_keeps_handles :
  let this :=
    setBrowser (Some {| connected := true; browserCloseError := Some "Close failed" |})
      (setPage (Some openPage) initial) in
  exists this' t,
    cleanup this = (Returned tt, this', t)
    /\ t = [PageClose; BrowserClose;
            LogError "Error during BrowserManager cleanup:" "Close failed"]
    /\ page this' = Some {| closed := true; pageCloseError := None |}
    /\ browser this' = browser this
    /\ isReady this' = false.
Proof. eexists _, _. repeat split. Qed.

(** ** RequestTiming *)

Import RequestTiming.
Local Open Scope Q_scope.

Lemma num_S (n : nat) : num (S n) == num n + 1.
Proof.
  unfold num. rewrite Nat2Z.inj_succ, <- Z.add_1_r, inject_Z_plus. reflexivity.
Qed.

Lemma num_nonneg (n : nat) : 0 <= num n.
Proof.
  unfold num. change 0 with (inject_Z 0). rewrite <- Zle_Qle. lia.
Qed.

(** One call: the running sum [average * count] grows by the duration. *)
Lemma updateRequestStats_sum (stats : RequestStats) (d : Q) (now : Z) (sum : Q) :
  averageResponseTime stats * num (totalRequests stats) == sum ->
  averageResponseTime (updateRequestStats stats d now)
  * num (totalRequests (updateRequestStats stats d now)) == sum + d.
Proof.
  intros H. cbn [updateRequestStats averageResponseTime totalRequests].
  pose proof (num_nonneg (totalRequests stats)) as Hn.
  rewrite num_S. rewrite <- H. field. lra.
Qed.

Lemma total_cons (d : Q * Z) (ds : list (Q * Z)) : total (d :: ds) = fst d + total ds.
Proof. reflexivity. Qed.

Lemma feed_sum (durations : list (Q * Z)) :
  forall (stats : RequestStats) (sum : Q),
    averageResponseTime stats * num (totalRequests stats) == sum ->
    totalRequests (feed stats durations)
    = (totalRequests stats + length durations)%nat /\
    averageResponseTime (feed stats durations)
    * num (totalRequests (feed stats durations)) == sum + total durations.
Proof.
  induction durations as [|d ds IH]; intros stats sum H.
  - cbn [feed fold_left length total fold_right]. split; [lia | lra].
  - change (feed stats (d :: ds))
      with (feed (updateRequestStats stats (fst d) (snd d)) ds).
    destruct (IH _ _ (updateRequestStats_sum stats (fst d) (snd d) sum H)) as [Hn Hs].
    split.
    + rewrite Hn. cbn [updateRequestStats totalRequests length]. lia.
    + rewrite Hs, total_cons. lra.
Qed.

(** In exact arithmetic the recurrence of [updateRequestStats] is the
    mean: after any sequence of durations fed into a fresh stats object,
    [averageResponseTime] is their sum divided by their number. *)
Lemma updateRequestStats_exact_arithmetic :
  (forall (stats : RequestStats) (d : Q) (now : Z),
      totalRequests (updateRequestStats stats d now) = S (totalRequests stats)) /\
  (forall (now0 : Z) (durations : list (Q * Z)),
      totalRequests (feed (initializeRequestStats now0) durations) = length durations /\
      averageResponseTime (feed (initializeRequestStats now0) durations)
      == total durations / num (length durations)) /\
  (forall (now0 now1 now2 : Z),
      totalRequests (feed (initializeRequestStats now0) [(500, now1); (700, now2)]) = 2%nat /\
      averageResponseTime (feed (initializeRequestStats now0) [(500, now1); (700, now2)])
      == 600).
Proof.
  split; [reflexivity |]. split.
  - intros now0 durations.
    destruct (feed_sum durations (initializeRequestStats now0) 0) as [Hn Hs].
    { cbn. lra. }
    cbn [initializeRequestStats totalRequests] in Hn. rewrite Nat.add_0_l in Hn.
    split; [exact Hn |].
    rewrite Hn in Hs. rewrite Qplus_0_l in Hs.
    destruct durations as [|d ds].
    + reflexivity.
    + rewrite <- Hs. field.
      pose proof (num_nonneg (length ds)) as Hl.
      cbn [length]. rewrite num_S. lra.
  - intros. split; reflexivity.
Qed.

Section RunningMean.

Import Binary64.
Import RequestTimingBinary64.

(** One call that rounds nowhere: the running sum [average * count] grows
    by the duration. *)
Lemma exactUpdate_sum (stats : RequestStats) (d : float) (now : Z) (sum : Q) :
  exactUpdate stats d = true ->
  value (averageResponseTime stats) * RequestTiming.num (totalRequests stats) == sum ->
  value (averageResponseTime (updateRequestStats stats d now))
  * RequestTiming.num (totalRequests (updateRequestStats stats d now)) == sum + value d.
Proof.
  unfold exactUpdate. cbv zeta. rewrite !andb_true_iff.
  intros [[[[[_ Hc] Hp] Hm] Hs] Hq] H.
  apply Qeq_bool_iff in Hc, Hp, Hm, Hs, Hq.
  cbn [updateRequestStats averageResponseTime totalRequests].
  pose proof (num_nonneg (totalRequests stats)) as Hn.
  rewrite Hq, Hs, Hm, Hp, Hc. rewrite num_S. rewrite <- H. field. lra.
Qed.

Lemma exactFeed_sum (durations : list (float * Z)) :
  forall (stats : RequestStats) (sum : Q),
    exactFeed stats durations = true ->
    value (averageResponseTime stats) * RequestTiming.num (totalRequests stats) == sum ->
    value (averageResponseTime (feed stats durations))
    * RequestTiming.num (totalRequests stats + length durations)
    == sum + RequestTiming.total (values durations).
Proof.
  induction durations as [|d ds IH]; intros stats sum He H.
  - cbn [feed fold_left length values map RequestTiming.total fold_right].
    rewrite Nat.add_0_r. lra.
  - cbn [exactFeed] in He. apply andb_true_iff in He as [He1 He2].
    change (feed stats (d :: ds))
      with (feed (updateRequestStats stats (fst d) (snd d)) ds).
    pose proof (IH _ _ He2 (exactUpdate_sum stats (fst d) (snd d) sum He1 H)) as Hs.
    cbn [updateRequestStats totalRequests] in Hs.
    cbn [length]. rewrite Nat.add_succ_r. cbn [plus] in Hs. rewrite Hs.
    cbn [values map]. rewrite total_cons. cbn [fst]. fold (values ds). lra.
Qed.

Lemma feed_count (durations : list (float * Z)) (stats : RequestStats) :
  totalRequests (feed stats durations) = (totalRequests stats + length durations)%nat.
Proof.
  revert stats. induction durations as [|d ds IH]; intros stats.
  - cbn. lia.
  - change (feed stats (d :: ds))
      with (feed (updateRequestStats stats (fst d) (snd d)) ds).
    rewrite IH. cbn [updateRequestStats totalRequests length]. lia.
Qed.

(** C6: each call of [updateRequestStats] adds exactly one to
    [totalRequests], so after any sequence of durations fed into a fresh
    stats object [totalRequests] is their number. [averageResponseTime] is
    computed in doubles by [(average * (count - 1) + duration) / count],
    with no weighting: whenever no operation of the sequence rounds, it is
    the sum of the durations divided by their number; the durations 500
    then 700 give [totalRequests = 2] and [averageResponseTime = 600]. *)
Theorem updateRequestStats_running_mean :
  (forall (stats : RequestStats) (d : float) (now : Z),
      totalRequests (updateRequestStats stats d now) = S (totalRequests stats)) /\
  (forall (now0 : Z) (durations : list (float * Z)),
      totalRequests (feed (initializeRequestStats now0) durations) = length durations /\
      (exactFeed (initializeRequestStats now0) durations = true ->
       value (averageResponseTime (feed (initializeRequestStats now0) durations))
       == RequestTiming.total (values durations) / RequestTiming.num (length durations))) /\
  (forall (now0 now1 now2 : Z),
      totalRequests (feed (initializeRequestStats now0) [(ofZ 500, now1); (ofZ 700, now2)])
      = 2%nat /\
      averageResponseTime (feed (initializeRequestStats now0)
                                [(ofZ 500, now1); (ofZ 700, now2)])
      = ofZ 600).
Proof.
  split; [reflexivity |]. split.
  - intros now0 durations. split.
    + now rewrite feed_count.
    + intros He.
      pose proof (exactFeed_sum durations (initializeRequestStats now0) 0 He) as Hs.
      cbn [initializeRequestStats totalRequests averageResponseTime] in Hs.
      rewrite Nat.add_0_l in Hs.
      assert (H0 : value (ofZ 0) * RequestTiming.num 0 == 0) by reflexivity.
      specialize (Hs H0). rewrite Qplus_0_l in Hs.
      destruct durations as [|d ds].
      * reflexivity.
      * rewrite <- Hs. field.
        pose proof (num_nonneg (length ds)) as Hl.
        cbn [length]. rewrite num_S. lra.
  - intros. split; [reflexivity | vm_compute; reflexivity].
Qed.

Lemma updateRequestStats_running_mean_witness :
  exactFeed (initializeRequestStats 0) (integers [500; 700; 630]%Z) = true /\
  value (averageResponseTime
           (feed (initializeRequestStats 0) (integers [500; 700; 630]%Z)))
  == 610.
Proof.
  assert (He : exactFeed (initializeRequestStats 0) (integers [500; 700; 630]%Z) = true)
    by (vm_compute; reflexivity).
  split; [exact He |].
  destruct updateRequestStats_running_mean as [_ [H _]].
  destruct (H 0%Z (integers [500; 700; 630]%Z)) as [_ Hmean].
  rewrite (Hmean He). vm_compute. reflexivity.
Defined.

(** The mean is not kept for every sequence: the durations 6, 4, 4, 1, 6,
    4, 4, 2 (whole milliseconds, mean 31/8 = 3.875, itself a double) leave
    [averageResponseTime] at 3.875 + 2^-51, printed 3.8750000000000004. *)
Lemma updateRequestStats_mean_not_exact :
  let durations := integers [6; 4; 4; 1; 6; 4; 4; 2]%Z in
  let stats := feed (initializeRequestStats 0) durations in
  RequestTiming.total (values durations) / RequestTiming.num (length durations)
  == 31 # 8 /\
  value (averageResponseTime stats) == (31 # 8) + (1 # 2 ^ 51) /\
  ~ value (averageResponseTime stats)
    == RequestTiming.total (values durations) / RequestTiming.num (length durations).
Proof.
  cbv zeta. repeat split; try (vm_compute; reflexivity).
  vm_compute. discriminate.
Qed.

(** Nor does the average stay within the durations observed: three times
    0.1 leave it above 0.1. *)
Example updateRequestStats_three_tenths :
  let tenth := decimal 1 10 in
  let stats := feed (initializeRequestStats 0) [(tenth, 1%Z); (tenth, 2%Z); (tenth, 3%Z)] in
  ltb tenth (averageResponseTime stats) = true.
Proof. vm_compute. reflexivity. Qed.

End RunningMean.

(** X29: the three fields whose range is a constant of [generateNetworkProfile]:
    the first two are as section 3 gives them, the reading pace is drawn
    from [0.7, 1.3). *)
Lemma generateNetworkProfile_ranges (r1 r2 r3 r4 r5 : Q) :
  isRandom r3 -> isRandom r4 -> isRandom r5 ->
  let profile := generateNetworkProfile r1 r2 r3 r4 r5 in
  (0.3 <= requestVariability profile /\ requestVariability profile <= 0.7) /\
  (0.8 <= responseTimeMultiplier profile /\ responseTimeMultiplier profile <= 1.2) /\
  (0.7 <= readingPaceMultiplier profile /\ readingPaceMultiplier profile < 1.3).
Proof.
  unfold isRandom. intros [? ?] [? ?] [? ?].
  cbn [generateNetworkProfile requestVariability responseTimeMultiplier
       readingPaceMultiplier].
  repeat split; lra.
Qed.

(** The reading pace is inside [0.8, 1.2] exactly for the draws between
    1/6 and 5/6. *)
Lemma readingPaceMultiplier_in_range (r1 r2 r3 r4 r5 : Q) :
  let pace := readingPaceMultiplier (generateNetworkProfile r1 r2 r3 r4 r5) in
  (0.8 <= pace /\ pace <= 1.2) <-> (1 # 6 <= r5 /\ r5 <= 5 # 6).
Proof.
  cbn [generateNetworkProfile readingPaceMultiplier]. split; intros [? ?]; split; lra.
Qed.

(** C7 fails on [readingPaceMultiplier]: when the fifth [Math.random()]
    returns 0 the multiplier is 0.7, below the 0.8 that the interface
    comment and section 3 give as its lower bound. *)
Theorem generateNetworkProfile_reading_pace_below_range (r1 r2 r3 r4 : Q) :
  readingPaceMultiplier (generateNetworkProfile r1 r2 r3 r4 0) == 0.7 /\
  ~ (0.8 <= readingPaceMultiplier (generateNetworkProfile r1 r2 r3 r4 0)).
Proof.
  cbn [generateNetworkProfile readingPaceMultiplier]. split; [lra | lra].
Qed.

(** ** calculateAdaptiveDelay *)

Lemma clamp_within (lo hi x : Q) :
  lo <= hi -> lo <= Qmax lo (Qmin hi x) /\ Qmax lo (Qmin hi x) <= hi.
Proof.
  intros H. split; [apply Q.le_max_l |].
  apply Q.max_lub; [exact H | apply Q.le_min_l].
Qed.



(** The first request of a fresh stats object: the range of section 8. *)
Example calculateAdaptiveDelay_fresh (now : Z) (random : Q) :
  isRandom random ->
  100 <= calculateAdaptiveDelay (initializeRequestStats now) random /\
  calculateAdaptiveDelay (initializeRequestStats now) random < 300.
Proof. intros [? ?]. cbn. lra. Qed.

(** [calculateExponentialBackoff] of request-timing.ts stays under its
    30000 ms cap; its exponent is [attemptNumber - 1], so attempt 2 waits
    between 2000 and 3000 ms. *)
Lemma calculateExponentialBackoff_capped (attemptNumber : Z) (random : Q) :
  calculateExponentialBackoff attemptNumber random <= 30000.
Proof. unfold calculateExponentialBackoff. apply Q.le_min_r. Qed.

Example calculateExponentialBackoff_attempt_2 (random : Q) :
  isRandom random ->
  2000 <= calculateExponentialBackoff 2 random /\
  calculateExponentialBackoff 2 random < 3000.
Proof.
  intros [? ?]. unfold calculateExponentialBackoff.
  change (Qpower 2 (2 - 1)) with 2.
  rewrite Q.min_l by lra. lra.
Qed.

(** ** PuppeteerLogic.calculateRetryDelay *)

Section RetryDelay.

Import PuppeteerLogic.

Variable fatigueIncrement : ErrorAnalysis -> Q.
Hypothesis fatigue_nonneg : forall analysis, 0 <= fatigueIncrement analysis.

Lemma categoryFloor_timeout (analysis : ErrorAnalysis) :
  isTimeout analysis = true -> 5000 <= categoryFloor analysis.
Proof.
  intros H. unfold categoryFloor. rewrite H.
  apply Q.le_max_l.
Qed.

Lemma categoryFloor_navigation (analysis : ErrorAnalysis) :
  isNavigation analysis = true -> 8000 <= categoryFloor analysis.
Proof.
  intros H. unfold categoryFloor. rewrite H.
  apply Q.le_max_r.
Qed.

(** The delay is at least any bound under the cap that the floor or the
    exponential part reaches. *)
Lemma calculateRetryDelay_lower (attemptNumber : nat) (analysis : ErrorAnalysis)
      (random bound : Q) :
  bound <= 30000 ->
  bound <= Qmax (categoryFloor analysis)
                (1000 * inject_Z (2 ^ Z.of_nat attemptNumber) + random * 1000) ->
  bound <= calculateRetryDelay fatigueIncrement attemptNumber analysis random.
Proof.
  intros Hcap Hb. unfold calculateRetryDelay.
  apply Q.min_glb; [exact Hcap |].
  pose proof (fatigue_nonneg analysis). lra.
Qed.

(** C4: for every jitter, the delay of attempt 2 is at least 4000 ms
    (whatever the analysis, so also when no flag is set and the counters
    are zero), the delay of attempt 0 is at least 5000 ms when [isTimeout]
    is set and at least 8000 ms when [isNavigation] is set, and every delay
    is at most 30000 ms. *)
Theorem calculateRetryDelay_bounds (random : Q) :
  RequestTiming.isRandom random ->
  (forall analysis,
      4000 <= calculateRetryDelay fatigueIncrement 2 analysis random) /\
  (forall analysis, isTimeout analysis = true ->
      5000 <= calculateRetryDelay fatigueIncrement 0 analysis random) /\
  (forall analysis, isNavigation analysis = true ->
      8000 <= calculateRetryDelay fatigueIncrement 0 analysis random) /\
  (forall attemptNumber analysis,
      calculateRetryDelay fatigueIncrement attemptNumber analysis random <= 30000).
Proof.
  intros [Hr0 Hr1]. repeat split.
  - intros analysis. apply calculateRetryDelay_lower; [lra |].
    eapply Qle_trans; [| apply Q.le_max_r].
    change (inject_Z (2 ^ Z.of_nat 2)) with 4. lra.
  - intros analysis H. apply calculateRetryDelay_lower; [lra |].
    eapply Qle_trans; [apply (categoryFloor_timeout _ H) | apply Q.le_max_l].
  - intros analysis H. apply calculateRetryDelay_lower; [lra |].
    eapply Qle_trans; [apply (categoryFloor_navigation _ H) | apply Q.le_max_l].
  - intros attemptNumber analysis. unfold calculateRetryDelay. apply Q.le_min_l.
Qed.

End RetryDelay.

Lemma sampleFatigue_nonneg (analysis : PuppeteerLogic.ErrorAnalysis) :
  0 <= PuppeteerLogic.sampleFatigue analysis.
Proof.
  unfold PuppeteerLogic.sampleFatigue.
  pose proof (num_nonneg (PuppeteerLogic.consecutiveTimeouts analysis)) as H1.
  pose proof (num_nonneg (PuppeteerLogic.consecutiveNavigationErrors analysis)) as H2.
  apply Q.min_glb; [lra |].
  assert (forall x, 0 <= x -> 0 <= x * 1000 / (x + 1)) as Hdiv.
  { intros x Hx. apply Qle_shift_div_l; lra. }
  pose proof (Hdiv _ H1). pose proof (Hdiv _ H2). lra.
Qed.

Lemma calculateRetryDelay_bounds_witness :
  RequestTiming.isRandom 0.25 /\
  4000 <= PuppeteerLogic.calculateRetryDelay PuppeteerLogic.sampleFatigue 2
            PuppeteerLogic.noFlags 0.25 /\
  PuppeteerLogic.calculateRetryDelay PuppeteerLogic.sampleFatigue 2
    PuppeteerLogic.noFlags 0.25 <= 30000.
Proof.
  assert (Hr : isRandom 0.25) by (unfold isRandom; split; lra).
  split; [exact Hr |].
  destruct (calculateRetryDelay_bounds PuppeteerLogic.sampleFatigue
              sampleFatigue_nonneg 0.25 Hr) as (H2 & _ & _ & Hcap).
  split; [apply H2 | apply Hcap].
Defined.

(** ** SessionManager.restoreSessionCookies *)

Section Restore.

Import SessionManager.

Variables (now : Z) (fs : gmap string File) (page : Page) (sessionId : string).

(** A session that is not on disk is not restored and nothing is touched. *)
Lemma restore_not_found :
  fs !! getSessionPath sessionId = None ->
  restored (restoreSessionCookies now fs page sessionId) = false /\
  files (restoreSessionCookies now fs page sessionId) = fs /\
  pageAfter (restoreSessionCookies now fs page sessionId) = page /\
  existsb touchesPage (trace (restoreSessionCookies now fs page sessionId)) = false.
Proof.
  intros H. unfold restoreSessionCookies. rewrite H. repeat split.
Qed.

(** The page is touched only for a stored session within the window. *)
Lemma restore_touches_only_valid :
  pageAfter (restoreSessionCookies now fs page sessionId) <> page \/
  existsb touchesPage (trace (restoreSessionCookies now fs page sessionId)) = true \/
  restored (restoreSessionCookies now fs page sessionId) = true ->
  exists session,
    fs !! getSessionPath sessionId = Some (SessionFile session) /\
    (now - timestamp session <= expiryMs)%Z.
Proof.
  unfold restoreSessionCookies.
  destruct (fs !! getSessionPath sessionId) as [[session | e] |] eqn:Hf.
  - destruct (Z.gtb_spec (now - timestamp session) expiryMs) as [Hgt | Hle].
    + cbn. intros [H | [H | H]]; [contradiction | discriminate | discriminate].
    + intros _. exists session. split; [reflexivity | exact Hle].
  - cbn. intros [H | [H | H]]; [contradiction | discriminate | discriminate].
  - cbn. intros [H | [H | H]]; [contradiction | discriminate | discriminate].
Qed.

End Restore.

(** C5: for a stored session whose age [now - timestamp] exceeds the expiry
    window, [restoreSessionCookies] returns false, leaves the page as it was
    (no cookie, no localStorage reapplied) and removes the session file;
    afterwards every restore of that session id, at any time and on any
    page, returns false and leaves that page untouched. Whenever a restore
    touches the page or returns true, the session was stored with an age
    within the window. *)
Theorem restoreSessionCookies_expired
    (now : Z) (fs : gmap string SessionManager.File) (page : SessionManager.Page)
    (sessionId : string) (session : SessionManager.StoredSession) :
  fs !! SessionManager.getSessionPath sessionId = Some (SessionManager.SessionFile session) ->
  (now - SessionManager.timestamp session > SessionManager.expiryMs)%Z ->
  let result := SessionManager.restoreSessionCookies now fs page sessionId in
  SessionManager.restored result = false /\
  SessionManager.pageAfter result = page /\
  existsb SessionManager.touchesPage (SessionManager.trace result) = false /\
  In (SessionManager.Unlink (SessionManager.getSessionPath sessionId))
     (SessionManager.trace result) /\
  SessionManager.files result = delete (SessionManager.getSessionPath sessionId) fs /\
  SessionManager.files result !! SessionManager.getSessionPath sessionId = None /\
  (forall (later : Z) (page' : SessionManager.Page),
      let again := SessionManager.restoreSessionCookies later
                     (SessionManager.files result) page' sessionId in
      SessionManager.restored again = false /\
      SessionManager.pageAfter again = page' /\
      existsb SessionManager.touchesPage (SessionManager.trace again) = false) /\
  (forall (now' : Z) (fs' : gmap string SessionManager.File)
          (page' : SessionManager.Page) (id : string),
      SessionManager.pageAfter (SessionManager.restoreSessionCookies now' fs' page' id) <> page' \/
      existsb SessionManager.touchesPage
        (SessionManager.trace (SessionManager.restoreSessionCookies now' fs' page' id)) = true \/
      SessionManager.restored (SessionManager.restoreSessionCookies now' fs' page' id) = true ->
      exists stored,
        fs' !! SessionManager.getSessionPath id = Some (SessionManager.SessionFile stored) /\
        (now' - SessionManager.timestamp stored <= SessionManager.expiryMs)%Z).
Proof.
  intros Hfile Hage result.
  assert (Hres : result =
            {| SessionManager.restored := false;
               SessionManager.files := delete (SessionManager.getSessionPath sessionId) fs;
               SessionManager.pageAfter := page;
               SessionManager.trace :=
                 [SessionManager.Stat (SessionManager.getSessionPath sessionId);
                  SessionManager.ReadFile (SessionManager.getSessionPath sessionId);
                  SessionManager.LogInfo ("Session expired for " +:+ sessionId);
                  SessionManager.Unlink (SessionManager.getSessionPath sessionId)] |}).
  { subst result. unfold SessionManager.restoreSessionCookies. rewrite Hfile.
    destruct (Z.gtb_spec (now - SessionManager.timestamp session) SessionManager.expiryMs);
      [reflexivity | lia]. }
  rewrite Hres. cbn [SessionManager.restored SessionManager.files
                     SessionManager.pageAfter SessionManager.trace].
  split; [reflexivity |]. split; [reflexivity |]. split; [reflexivity |].
  split; [right; right; right; left; reflexivity |].
  split; [reflexivity |].
  split; [apply lookup_delete_eq |].
  split.
  - intros later page'.
    destruct (restore_not_found later
                (delete (SessionManager.getSessionPath sessionId) fs) page' sessionId)
      as (Hr & _ & Hp & Ht); [apply lookup_delete_eq |].
    repeat split; assumption.
  - intros now' fs' page' id. apply restore_touches_only_valid.
Qed.

Lemma restoreSessionCookies_expired_witness :
  SessionManager.sampleFiles !! SessionManager.getSessionPath "u1"
  = Some (SessionManager.SessionFile SessionManager.sampleSession) /\
  (86401001 - SessionManager.timestamp SessionManager.sampleSession
   > SessionManager.expiryMs)%Z /\
  SessionManager.restored
    (SessionManager.restoreSessionCookies 86401001 SessionManager.sampleFiles
       SessionManager.blankPage "u1") = false /\
  SessionManager.files
    (SessionManager.restoreSessionCookies 86401001 SessionManager.sampleFiles
       SessionManager.blankPage "u1") !! SessionManager.getSessionPath "u1" = None.
Proof.
  assert (Hf : SessionManager.sampleFiles !! SessionManager.getSessionPath "u1"
               = Some (SessionManager.SessionFile SessionManager.sampleSession))
    by reflexivity.
  assert (Ha : (86401001 - SessionManager.timestamp SessionManager.sampleSession
                > SessionManager.expiryMs)%Z) by reflexivity.
  split; [exact Hf |]. split; [exact Ha |].
  destruct (restoreSessionCookies_expired 86401001 SessionManager.sampleFiles
              SessionManager.blankPage "u1" SessionManager.sampleSession Hf Ha)
    as (Hr & _ & _ & _ & _ & Hgone & _).
  split; [exact Hr | exact Hgone].
Defined.

(** Within the window (here at the very limit of 24 hours) the cookies and
    the localStorage snapshot are reapplied and the file stays. *)
Example restoreSessionCookies_within_window :
  let result := SessionManager.restoreSessionCookies 86401000 SessionManager.sampleFiles
                  SessionManager.blankPage "u1" in
  SessionManager.restored result = true /\
  SessionManager.pageCookies (SessionManager.pageAfter result)
  = SessionManager.cookies SessionManager.sampleSession /\
  SessionManager.newDocumentStorage (SessionManager.pageAfter result)
  = [SessionManager.localStorage SessionManager.sampleSession] /\
  SessionManager.files result = SessionManager.sampleFiles.
Proof. repeat split. Qed.

(** ** ChatPerplexity.chatPerplexity *)

Section Chat.

Import ChatPerplexity.

Context {Store Array : Type}.
Variable getChatHistory : Store -> string -> Array.
Variable saveChatMessage : Store -> string -> ChatMessage -> Store.
Variable elements : Store -> Array -> list ChatMessage.
Variable performSearch : string -> SearchOptions -> outcome string.

Lemma promptOf_app (xs ys : list string) :
  promptOf (xs ++ ys) = promptOf xs +:+ promptOf ys.
Proof.
  induction xs as [|x xs IH]; [reflexivity |].
  cbn [app promptOf fold_right]. fold (promptOf (xs ++ ys)) (promptOf xs).
  now rewrite IH, append_assoc.
Qed.

(** The [for] loop appends one line per message, in order. *)
Lemma prompt_loop (history : list ChatMessage) (prompt : string) :
  fold_left (fun prompt msg => prompt +:+ line msg) history prompt
  = prompt +:+ promptOf (map line history).
Proof.
  revert prompt. induction history as [|msg history IH]; intros prompt.
  - cbn [fold_left map promptOf fold_right]. now rewrite append_nil_r.
  - cbn [fold_left map promptOf fold_right]. rewrite IH.
    fold (promptOf (map line history)). now rewrite append_assoc.
Qed.

(** What the function does for every store: the array is read after the
    save, so the prompt has one line per message that the array returned by
    [getChatHistory] holds once [saveChatMessage] has run, then the line of
    the new message. *)
Lemma chatPerplexity_reads_after_save
      (args : Args) (randomUUID : string) (store : Store) :
  let id := default randomUUID (chat_id args) in
  let userMessage := {| role := user; content := message args |} in
  let saved := saveChatMessage store id userMessage in
  let prompt :=
    promptOf (map line (elements saved (getChatHistory store id) ++ [userMessage])) in
  let options := {| so_launchOptions := launchOptions args;
                    so_allowDangerous := allowDangerous args |} in
  chatPerplexity getChatHistory saveChatMessage elements performSearch
                 args randomUUID store
  = (performSearch prompt options, saved,
     [GetChatHistory id; SaveChatMessage id userMessage; PerformSearch prompt options]).
Proof.
  cbv zeta. unfold chatPerplexity. rewrite prompt_loop.
  rewrite map_app, promptOf_app.
  match goal with
  | |- context [("" +:+ promptOf ?l) +:+ _] =>
      change ("" +:+ promptOf l) with (promptOf l)
  end.
  change (promptOf (map line [{| role := user; content := message args |}]))
    with (("User: " +:+ message args +:+ JS.nl) +:+ "").
  rewrite append_nil_r. reflexivity.
Qed.

(** C10: the history is requested, then the user message is saved, then
    the search runs, all on the chat id (the given one, or the generated
    UUID when [chat_id] is omitted), whatever the store. When
    [saveChatMessage] leaves the array that [getChatHistory] returned as it
    was (a store that answers with a new array), the prompt passed to
    [performSearch] is the concatenation of one line per message stored
    before the call, in stored order, each "User: " or "Assistant: " by its
    role, then the content and a line feed, followed by one such line for
    the new user message; the result of the search is returned. *)
Theorem chatPerplexity_prompt (args : Args) (randomUUID : string) (store : Store) :
  let id := default randomUUID (chat_id args) in
  let userMessage := {| role := user; content := message args |} in
  let history := getChatHistory store id in
  let saved := saveChatMessage store id userMessage in
  let lineOf := fun msg : ChatMessage =>
    String.append
      match role msg with user => "User: " | assistant => "Assistant: " end
      (String.append (content msg) (String (ascii_of_nat 10) EmptyString)) in
  let prompt :=
    fold_right String.append EmptyString
      (map lineOf (elements store history ++ [userMessage])) in
  let options := {| so_launchOptions := launchOptions args;
                    so_allowDangerous := allowDangerous args |} in
  (elements saved history = elements store history ->
   chatPerplexity getChatHistory saveChatMessage elements performSearch
                  args randomUUID store
   = (performSearch prompt options, saved,
      [GetChatHistory id; SaveChatMessage id userMessage; PerformSearch prompt options]))
  /\ (exists sent,
        chatPerplexity getChatHistory saveChatMessage elements performSearch
                       args randomUUID store
        = (performSearch sent options, saved,
           [GetChatHistory id; SaveChatMessage id userMessage;
            PerformSearch sent options]))
  /\ length (map lineOf (elements store history ++ [userMessage]))
     = S (length (elements store history))
  /\ lineOf userMessage
     = String.append "User: "
         (String.append (message args) (String (ascii_of_nat 10) EmptyString))
  /\ (forall (text : string) lo ad,
         let omitted := {| message := text; chat_id := None;
                           launchOptions := lo; allowDangerous := ad |} in
         snd (chatPerplexity getChatHistory saveChatMessage elements performSearch
                             omitted randomUUID store) !! 0%nat
         = Some (GetChatHistory randomUUID) /\
         snd (chatPerplexity getChatHistory saveChatMessage elements performSearch
                             omitted randomUUID store) !! 1%nat
         = Some (SaveChatMessage randomUUID {| role := user; content := text |})).
Proof.
  cbv zeta. split; [| split; [| split; [| split]]].
  - intros Hsame.
    rewrite chatPerplexity_reads_after_save. cbv zeta. rewrite Hsame.
    unfold promptOf.
    assert (Hline : forall l : list ChatMessage,
               map line l
               = map (fun msg : ChatMessage =>
                        String.append
                          match role msg with
                          | user => "User: "
                          | assistant => "Assistant: "
                          end
                          (String.append (content msg)
                                         (String (ascii_of_nat 10) EmptyString))) l).
    { intros l. apply map_ext. intros [[] text]; reflexivity. }
    rewrite Hline. reflexivity.
  - eexists. apply chatPerplexity_reads_after_save.
  - rewrite length_map, length_app. cbn [length]. lia.
  - reflexivity.
  - intros text lo ad. split; reflexivity.
Qed.

End Chat.

Lemma chatPerplexity_prompt_witness :
  let search := fun (prompt : string) (_ : ChatPerplexity.SearchOptions) => Returned prompt in
  let store : gmap string (list ChatPerplexity.ChatMessage) :=
    {[ "c1" := [ {| ChatPerplexity.role := ChatPerplexity.user;
                    ChatPerplexity.content := "hello" |};
                 {| ChatPerplexity.role := ChatPerplexity.assistant;
                    ChatPerplexity.content := "hi there" |} ] ]} in
  fst (fst (ChatPerplexity.chatPerplexity
              ChatPerplexity.getHistory ChatPerplexity.append ChatPerplexity.rows search
              {| ChatPerplexity.message := "again"; ChatPerplexity.chat_id := Some "c1";
                 ChatPerplexity.launchOptions := None;
                 ChatPerplexity.allowDangerous := None |}
              "generated" store))
  = Returned ("User: hello" +:+ JS.nl +:+ "Assistant: hi there" +:+ JS.nl
              +:+ "User: again" +:+ JS.nl).
Proof.
  intros search store.
  destruct (chatPerplexity_prompt
              ChatPerplexity.getHistory ChatPerplexity.append ChatPerplexity.rows search
              {| ChatPerplexity.message := "again"; ChatPerplexity.chat_id := Some "c1";
                 ChatPerplexity.launchOptions := None;
                 ChatPerplexity.allowDangerous := None |}
              "generated" store) as [H _].
  rewrite (H eq_refl). reflexivity.
Defined.

(** With a store that hands out the array it keeps and pushes the saved
    message to it, the loop meets the new message in the history: in a chat
    with no message stored, the prompt has the line of the new message
    twice, where one line per stored message followed by the new one is
    that line once. *)
Lemma chatPerplexity_kept_array_repeats_message :
  let search := fun (prompt : string) (_ : ChatPerplexity.SearchOptions) => Returned prompt in
  let args := {| ChatPerplexity.message := "hi"; ChatPerplexity.chat_id := Some "c1";
                 ChatPerplexity.launchOptions := None;
                 ChatPerplexity.allowDangerous := None |} in
  let store : gmap string (list ChatPerplexity.ChatMessage) := ∅ in
  ChatPerplexity.keptElements store (ChatPerplexity.keptArray store "c1") = [] /\
  fst (fst (ChatPerplexity.chatPerplexity
              ChatPerplexity.keptArray ChatPerplexity.append ChatPerplexity.keptElements
              search args "generated" store))
  = Returned ("User: hi" +:+ JS.nl +:+ "User: hi" +:+ JS.nl) /\
  fst (fst (ChatPerplexity.chatPerplexity
              ChatPerplexity.keptArray ChatPerplexity.append ChatPerplexity.keptElements
              search args "generated" store))
  <> Returned ("User: hi" +:+ JS.nl).
Proof.
  cbv zeta. split; [reflexivity |]. split; [reflexivity |]. discriminate.
Qed.

(** With the history store of section 6, the saved message is the last of
    the chat afterwards, behind the messages that were there. *)
Lemma chatPerplexity_appends (performSearch : string -> ChatPerplexity.SearchOptions -> outcome string)
      (args : ChatPerplexity.Args) (randomUUID : string)
      (store : gmap string (list ChatPerplexity.ChatMessage)) :
  let id := default randomUUID (ChatPerplexity.chat_id args) in
  ChatPerplexity.getHistory
    (snd (fst (ChatPerplexity.chatPerplexity ChatPerplexity.getHistory ChatPerplexity.append
                 ChatPerplexity.rows performSearch args randomUUID store))) id
  = (ChatPerplexity.getHistory store id
     ++ [{| ChatPerplexity.role := ChatPerplexity.user;
            ChatPerplexity.content := ChatPerplexity.message args |}])%list.
Proof.
  cbv zeta. cbn [ChatPerplexity.chatPerplexity fst snd].
  unfold ChatPerplexity.append at 1. unfold ChatPerplexity.getHistory at 1.
  now rewrite lookup_insert_eq.
Qed.

(** Two turns of one conversation. *)
Example chatPerplexity_two_turns :
  let search := fun (prompt : string) (_ : ChatPerplexity.SearchOptions) => Returned prompt in
  let turn text store :=
    ChatPerplexity.chatPerplexity ChatPerplexity.getHistory ChatPerplexity.append
      ChatPerplexity.rows search
      {| ChatPerplexity.message := text; ChatPerplexity.chat_id := Some "c1";
         ChatPerplexity.launchOptions := None; ChatPerplexity.allowDangerous := None |}
      "generated" store in
  let after1 := snd (fst (turn "hello" ∅)) in
  fst (fst (turn "hello" ∅)) = Returned ("User: hello" +:+ JS.nl) /\
  fst (fst (turn "again" after1))
  = Returned ("User: hello" +:+ JS.nl +:+ "User: again" +:+ JS.nl).
Proof. split; reflexivity. Qed.

(** * Further properties of the sources *)

(** ** deepMerge on launch arguments *)

Lemma arrayIncludes_In (xs : list string) (x : string) :
  JS.arrayIncludes xs x = true <-> In x xs.
Proof.
  unfold JS.arrayIncludes. rewrite existsb_exists. split.
  - intros [y [Hin Heq]]. apply String.eqb_eq in Heq. now subst.
  - intros Hin. exists x. split; [exact Hin | apply String.eqb_refl].
Qed.

Lemma uniq_In (xs seen : list string) (x : string) :
  In x (JS.uniq seen xs) <-> In x xs /\ ~ In x seen.
Proof.
  revert seen. induction xs as [|y xs IH]; intros seen; cbn [JS.uniq].
  - split; [intros [] | intros [[] _]].
  - destruct (JS.arrayIncludes seen y) eqn:Hy.
    + apply arrayIncludes_In in Hy. rewrite IH. split.
      * intros [Hin Hn]. split; [now right | exact Hn].
      * intros [[-> | Hin] Hn]; [contradiction | now split].
    + assert (Hny : ~ In y seen) by (rewrite <- arrayIncludes_In, Hy; discriminate).
      cbn [In]. rewrite IH. cbn [In]. split.
      * intros [-> | [Hin Hn]]; [split; [now left | exact Hny] |].
        split; [now right | intros Hs; apply Hn; now right].
      * intros [[-> | Hin] Hn]; [now left |].
        destruct (string_dec y x) as [-> | Hne]; [now left | right].
        split; [exact Hin | intros [Hs | Hs]; [congruence | contradiction]].
Qed.

Lemma uniq_NoDup (xs seen : list string) : List.NoDup (JS.uniq seen xs).
Proof.
  revert seen. induction xs as [|y xs IH]; intros seen; cbn [JS.uniq].
  - constructor.
  - destruct (JS.arrayIncludes seen y); [apply IH |].
    constructor; [| apply IH].
    rewrite uniq_In. intros [_ Hn]. apply Hn. now left.
Qed.

Lemma deepMergeArgs_membership_aux (targetVal sourceVal : list string) (arg : string) :
  In arg sourceVal \/
  (In arg targetVal /\ BrowserManager.overridden sourceVal arg = false) ->
  In arg (BrowserManager.deepMergeArgs targetVal sourceVal).
Proof.
  unfold BrowserManager.deepMergeArgs, JS.fromSet, BrowserManager.overridden.
  rewrite uniq_In, in_app_iff, filter_In, negb_true_iff.
  intros [H | H]; (split; [| intros []]); [now right | now left].
Qed.

(** X1: an argument is in the merged list exactly when the source has it, or
    the target has it and no source argument overrides it (the target
    argument starts with two dashes and a source argument starts with its
    flag, the part before the equals sign). *)
Theorem deepMergeArgs_membership (targetVal sourceVal : list string) (arg : string) :
  In arg (BrowserManager.deepMergeArgs targetVal sourceVal) <->
  In arg sourceVal \/
  (In arg targetVal /\ BrowserManager.overridden sourceVal arg = false).
Proof.
  split; [| apply deepMergeArgs_membership_aux].
  unfold BrowserManager.deepMergeArgs, JS.fromSet, BrowserManager.overridden.
  rewrite uniq_In, in_app_iff, filter_In, negb_true_iff.
  intros [[H | H] _]; [now right | now left].
Qed.

(** X2: the merged list repeats no argument, whatever the two lists hold. *)
Theorem deepMergeArgs_NoDup (targetVal sourceVal : list string) :
  List.NoDup (BrowserManager.deepMergeArgs targetVal sourceVal).
Proof. unfold BrowserManager.deepMergeArgs, JS.fromSet. apply uniq_NoDup. Qed.

Lemma startsWith_trans (s a d : string) :
  JS.startsWith s a = true -> JS.startsWith a d = true -> JS.startsWith s d = true.
Proof.
  unfold JS.startsWith. rewrite !prefix_split.
  intros [p1 ->] [p2 ->]. exists (p2 +:+ p1). apply append_assoc.
Qed.

Lemma beforeEquals_app (d rest : string) :
  JS.beforeEquals d = d ->
  JS.beforeEquals (d +:+ rest) = d +:+ JS.beforeEquals rest.
Proof.
  induction d as [|c d IH]; intros H; [reflexivity |].
  rewrite append_cons. cbn [JS.beforeEquals] in *.
  destruct (Ascii.eqb c "=") eqn:Hc; [discriminate H |].
  injection H as H. now rewrite append_cons, IH.
Qed.

(** The flag of an argument that starts with [d] starts with [d], when [d]
    holds no equals sign. *)
Lemma argPrefix_startsWith (arg d : string) :
  JS.beforeEquals d = d -> JS.startsWith arg d = true ->
  JS.startsWith (BrowserManager.argPrefix arg) d = true.
Proof.
  intros Hd Hs. unfold BrowserManager.argPrefix.
  destruct (JS.includes arg "="); [| exact Hs].
  unfold JS.startsWith in *. apply prefix_split in Hs as [rest ->].
  rewrite (beforeEquals_app _ _ Hd). apply prefix_split. now eexists.
Qed.

(** X3: merging cannot launder a dangerous flag. When either list holds an
    argument that starts with a flag of DANGEROUS_ARGS other than
    --disable-features=IsolateOrigins, the merged list holds an argument
    that starts with the same flag: the argument itself, or the source
    argument that overrode it. *)
Theorem deepMergeArgs_keeps_dangerous
    (targetVal sourceVal : list string) (arg dangerousArg : string) :
  In arg targetVal \/ In arg sourceVal ->
  In dangerousArg BrowserManager.DANGEROUS_ARGS ->
  dangerousArg <> "--disable-features=IsolateOrigins" ->
  JS.startsWith arg dangerousArg = true ->
  exists merged,
    In merged (BrowserManager.deepMergeArgs targetVal sourceVal) /\
    JS.startsWith merged dangerousArg = true /\
    BrowserManager.isDangerous merged = true.
Proof.
  intros Hin Hd Hne Hs.
  assert (Hplain : JS.beforeEquals dangerousArg = dangerousArg).
  { cbn in Hd. repeat (destruct Hd as [<- | Hd]; [reflexivity || contradiction |]).
    destruct Hd. }
  assert (Hfound : exists merged,
             In merged (BrowserManager.deepMergeArgs targetVal sourceVal) /\
             JS.startsWith merged dangerousArg = true).
  { destruct Hin as [Hin | Hin].
    - destruct (BrowserManager.overridden sourceVal arg) eqn:Ho.
      + unfold BrowserManager.overridden in Ho.
        apply existsb_exists in Ho as [launchArg [Hl Hp]].
        apply andb_true_iff in Hp as [_ Hp].
        exists launchArg. split.
        * apply deepMergeArgs_membership_aux. now left.
        * eapply startsWith_trans; [exact Hp |].
          now apply argPrefix_startsWith.
      + exists arg. split; [| exact Hs].
        apply deepMergeArgs_membership_aux. right. now split.
    - exists arg. split; [| exact Hs].
      apply deepMergeArgs_membership_aux. now left. }
  destruct Hfound as [merged [Hm Hsm]].
  exists merged. repeat split; try assumption.
  unfold BrowserManager.isDangerous. apply existsb_exists.
  exists dangerousArg. now split.
Qed.

Lemma deepMergeArgs_keeps_dangerous_witness :
  In "--no-sandbox" ["--no-sandbox"; "--window-size=800,600"] /\
  exists merged,
    In merged (BrowserManager.deepMergeArgs
                 ["--no-sandbox"; "--window-size=800,600"]
                 ["--no-sandbox-and-more"; "--window-size=1,1"]) /\
    JS.startsWith merged "--no-sandbox" = true /\
    BrowserManager.isDangerous merged = true.
Proof.
  split; [left; reflexivity |].
  apply (deepMergeArgs_keeps_dangerous _ _ "--no-sandbox" "--no-sandbox").
  - left; left; reflexivity.
  - left; reflexivity.
  - discriminate.
  - reflexivity.
Defined.

(** The excepted flag holds an equals sign, so a source argument that sets
    the same switch to another value replaces it. *)
Example deepMergeArgs_replaces_feature_list :
  BrowserManager.deepMergeArgs ["--disable-features=IsolateOrigins"]
                               ["--disable-features=Translate"]
  = ["--disable-features=Translate"] /\
  BrowserManager.isDangerous "--disable-features=Translate" = false.
Proof. split; reflexivity. Qed.

(** ** ensureBrowser and initialize beyond the rejection *)

Import BrowserManager.

(** One round of evaluation of the manager monad; the merge and the
    validation stay folded. *)
Ltac manager_step :=
  unfold mbind, M_bind, mret, M_ret, tryCatch, tryFinally, closeBrowser, when,
         bind, get, modify, emit, throw, ret;
  cbn -[deepMerge mergedConfigOf envConfigOf isDangerous List.filter
        dangerousMessage pushNoSandbox bool_decide length Nat.ltb launchArgs].

(** The validation of [ensureBrowser] in terms of [passesValidation]. *)
Lemma ensureBrowser_accepts (proc : Process) (launchResult : outcome Launched)
      (options : InitOptions) (this : State) :
  let merged := mergedConfigOf proc (envConfigOf proc)
                  (deepMerge (launchOptions this)
                             (default emptyOptions (opt_launchOptions options))) in
  passesValidation proc options merged = true ->
  browser this = None ->
  exists this' t,
    ensureBrowser proc launchResult options this
    = (match launchResult with
       | Thrown e => Thrown e
       | Returned launched =>
           match pagesResult launched with
           | Thrown e => Thrown e
           | Returned (_ :: _) => Returned tt
           | Returned [] =>
               match newPageResult launched with
               | Thrown e => Thrown e
               | Returned _ => Returned tt
               end
           end
       end, this', t)
    /\ In (Launch (deepMerge launchArgs merged)) t
    /\ ~ In BrowserClose t
    /\ isInitializing this' = isInitializing this
    /\ previousLaunchOptions this' = Some (launchOptions this')
    /\ browser this' = match launchResult with
                       | Thrown _ => None
                       | Returned launched => Some (launchedBrowser launched)
                       end
    /\ match launchResult with
       | Thrown _ => True
       | Returned launched =>
           match pagesResult launched with
           | Thrown _ => True
           | Returned (first :: _) => page this' = Some first
           | Returned [] =>
               match newPageResult launched with
               | Thrown _ => True
               | Returned p => page this' = Some p
               end
           end
       end.
Proof.
  cbv zeta. intros Hpass Hb.
  unfold passesValidation in Hpass.
  destruct this as [b p i sel tm n prev lo ad]. cbn in Hb. subst b.
  cbn [launchOptions isInitializing] in *.
  remember (mergedConfigOf proc (envConfigOf proc)
              (deepMerge lo (default emptyOptions (opt_launchOptions options))))
    as merged eqn:Hmerged.
  unfold ensureBrowser.
  destruct (PUPPETEER_LAUNCH_OPTIONS proc) eqn:Hp;
  destruct (isRoot proc) eqn:Hroot;
  manager_step; rewrite <- ?Hmerged;
  repeat match goal with
         | |- context [bool_decide ?P] => destruct (bool_decide P)
         end;
  manager_step; rewrite <- ?Hmerged;
  destruct (args merged) as [mergedArgs |] eqn:Hm;
  try (apply negb_true_iff in Hpass; rewrite Hpass);
  manager_step;
  repeat match goal with
         | |- context [bool_decide ?P] => destruct (bool_decide P)
         end;
  manager_step;
  destruct launchResult as [[lb [[|first more] | pe] [np | ne]] | le];
  manager_step;
  eexists _, _; (split; [reflexivity |]);
  (split; [cbn; tauto |]);
  (split; [cbn; intuition discriminate |]);
  repeat split.
Qed.

(** [initialize], when it runs, in terms of the [ensureBrowser] it wraps. *)
Lemma initialize_runs (proc : Process) (launchResult : outcome Launched)
      (options : InitOptions) (this : State) :
  isInitializing this = false ->
  initialize proc launchResult options this
  = match ensureBrowser proc launchResult options (setIsInitializing true this) with
    | (Returned _, s, t) =>
        (Returned tt, setIsInitializing false s,
         ((t ++ [LogInfo "BrowserManager initialized successfully"]) ++ [])%list)
    | (Thrown e, s, t) =>
        (Thrown e, setIsInitializing false s,
         ((t ++ [LogError "BrowserManager initialization failed:" e]) ++ [])%list)
    end.
Proof.
  intros H. unfold initialize.
  unfold mbind, M_bind, bind at 1, get. rewrite H.
  unfold bind at 1, modify, tryFinally, tryCatch, bind at 1.
  destruct (ensureBrowser proc launchResult options (setIsInitializing true this))
    as [[[[]|e] s] t]; reflexivity.
Qed.

(** X4: a manager without a browser that is not initialising, given options
    that pass the validation and a launch that resolves to a browser with at
    least one page: [initialize] returns, holds the launched browser and its
    first page, has called [puppeteer.launch] with the built-in arguments
    merged with the validated configuration, and is ready exactly when that
    page is open. *)
Theorem initialize_launches_fresh_browser
    (proc : Process) (options : InitOptions) (this : State)
    (launched : Launched) (first : Page) (more : list Page) :
  isInitializing this = false ->
  browser this = None ->
  passesValidation proc options
    (mergedConfigOf proc (envConfigOf proc)
       (deepMerge (launchOptions this)
                  (default emptyOptions (opt_launchOptions options)))) = true ->
  pagesResult launched = Returned (first :: more) ->
  exists this' t,
    initialize proc (Returned launched) options this = (Returned tt, this', t)
    /\ browser this' = Some (launchedBrowser launched)
    /\ page this' = Some first
    /\ isInitializing this' = false
    /\ isReady this' = negb (closed first)
    /\ In (Launch (deepMerge launchArgs
                     (mergedConfigOf proc (envConfigOf proc)
                        (deepMerge (launchOptions this)
                           (default emptyOptions (opt_launchOptions options)))))) t
    /\ In (LogInfo "BrowserManager initialized successfully") t.
Proof.
  intros Hinit Hb Hpass Hpages.
  rewrite (initialize_runs _ _ _ _ Hinit).
  destruct (ensureBrowser_accepts proc (Returned launched) options
              (setIsInitializing true this) Hpass Hb)
    as (s & t & Heq & Hlaunch & _ & _ & _ & Hbrowser & Hpage).
  rewrite Hpages in Heq, Hpage. rewrite Heq.
  eexists _, _. split; [reflexivity |].
  cbn [setIsInitializing browser page isInitializing].
  repeat split; try assumption.
  - unfold isReady. cbn [setIsInitializing browser page isInitializing].
    rewrite Hbrowser, Hpage. apply andb_true_r.
  - rewrite app_nil_r. apply in_or_app. now left.
  - rewrite app_nil_r. apply in_or_app. right. now left.
Qed.

Lemma initialize_launches_fresh_browser_witness :
  exists this' t,
    initialize userProcess launchOk
      {| opt_launchOptions := Some {| args := Some ["--window-size=800,600"]; others := [] |};
         opt_allowDangerous := None |} initial = (Returned tt, this', t)
    /\ browser this' = Some liveBrowser
    /\ page this' = Some openPage
    /\ isReady this' = true.
Proof.
  destruct (initialize_launches_fresh_browser userProcess
              {| opt_launchOptions := Some {| args := Some ["--window-size=800,600"]; others := [] |};
                 opt_allowDangerous := None |} initial
              {| launchedBrowser := liveBrowser;
                 pagesResult := Returned [openPage];
                 newPageResult := Returned openPage |} openPage []
              eq_refl eq_refl eq_refl eq_refl)
    as (this' & t & Heq & Hb & Hp & _ & Hr & _).
  exists this', t. repeat split; assumption.
Defined.

(** X5: a rejected launch is surfaced and leaves no handle: when the
    validation passes and [puppeteer.launch] rejects, [initialize] on a
    manager without a browser logs the error, throws it unchanged, keeps the
    browser handle null, is not ready and is no longer initialising. *)
Theorem initialize_launch_error
    (proc : Process) (options : InitOptions) (this : State) (error : string) :
  isInitializing this = false ->
  browser this = None ->
  passesValidation proc options
    (mergedConfigOf proc (envConfigOf proc)
       (deepMerge (launchOptions this)
                  (default emptyOptions (opt_launchOptions options)))) = true ->
  exists this' t,
    initialize proc (Thrown error) options this = (Thrown error, this', t)
    /\ browser this' = None
    /\ isReady this' = false
    /\ isInitializing this' = false
    /\ In (LogError "BrowserManager initialization failed:" error) t.
Proof.
  intros Hinit Hb Hpass.
  rewrite (initialize_runs _ _ _ _ Hinit).
  destruct (ensureBrowser_accepts proc (Thrown error) options
              (setIsInitializing true this) Hpass Hb)
    as (s & t & Heq & _ & _ & _ & _ & Hbrowser & _).
  rewrite Heq. eexists _, _. split; [reflexivity |].
  cbn [setIsInitializing browser page isInitializing].
  repeat split; try assumption.
  - unfold isReady. cbn [setIsInitializing browser]. now rewrite Hbrowser.
  - rewrite app_nil_r. apply in_or_app. right. now left.
Qed.

Lemma initialize_launch_error_witness :
  exists this' t,
    initialize userProcess (Thrown "Launch failed")
      {| opt_launchOptions := None; opt_allowDangerous := Some true |} initial
    = (Thrown "Launch failed", this', t)
    /\ browser this' = None
    /\ isReady this' = false.
Proof.
  destruct (initialize_launch_error userProcess
              {| opt_launchOptions := None; opt_allowDangerous := Some true |}
              initial "Launch failed" eq_refl eq_refl eq_refl)
    as (this' & t & Heq & Hb & Hr & _).
  exists this', t. repeat split; assumption.
Defined.

(** X6: [initialize] never leaves the manager marked as initialising:
    whatever [ensureBrowser] does (return, reject the arguments, fail to
    launch), a call that found the flag clear clears it again; a call that
    finds it set changes nothing and launches nothing. *)
Theorem initialize_clears_flag
    (proc : Process) (launchResult : outcome Launched) (options : InitOptions)
    (this : State) :
  (isInitializing this = false ->
   isInitializing (snd (fst (initialize proc launchResult options this))) = false) /\
  (isInitializing this = true ->
   initialize proc launchResult options this
   = (Returned tt, this, [LogInfo "Browser initialization already in progress..."])).
Proof.
  split; intros H.
  - rewrite (initialize_runs _ _ _ _ H).
    destruct (ensureBrowser proc launchResult options (setIsInitializing true this))
      as [[[[]|e] s] t]; reflexivity.
  - unfold initialize, mbind, M_bind, bind, get. now rewrite H.
Qed.

Lemma initialize_clears_flag_witness :
  isInitializing (snd (fst (initialize userProcess launchOk dangerousOptions initial)))
  = false.
Proof.
  exact (proj1 (initialize_clears_flag userProcess launchOk dangerousOptions initial)
               eq_refl).
Defined.

Lemma deepMerge_empty_r (options : LaunchOptions) :
  deepMerge options emptyOptions = options.
Proof. destruct options as [[a|] o]; reflexivity. Qed.

(** X7: a connected browser is reused. For a process that is not root, a
    call of [initialize] without launch options on a manager that holds a
    connected browser launched with its current options passes the
    validation like the launch did, closes nothing, launches nothing and
    keeps browser and page. *)
Theorem initialize_reuses_browser
    (proc : Process) (launchResult : outcome Launched) (options : InitOptions)
    (this : State) (b : Browser) :
  isInitializing this = false ->
  isRoot proc = false ->
  opt_launchOptions options = None ->
  browser this = Some b ->
  connected b = true ->
  previousLaunchOptions this = Some (launchOptions this) ->
  passesValidation proc options
    (mergedConfigOf proc (envConfigOf proc) (launchOptions this)) = true ->
  exists this' t,
    initialize proc launchResult options this = (Returned tt, this', t)
    /\ browser this' = Some b
    /\ page this' = page this
    /\ launchOptions this' = launchOptions this
    /\ noLaunch t
    /\ ~ In BrowserClose t.
Proof.
  intros Hinit Hroot Hopt Hb Hc Hprev Hpass.
  rewrite (initialize_runs _ _ _ _ Hinit).
  destruct options as [ol oa]. cbn in Hopt. subst ol.
  destruct this as [b0 p i sel tm n prev lo ad].
  cbn in Hb, Hprev, Hinit. subst b0 prev i.
  cbn [launchOptions opt_launchOptions opt_allowDangerous] in *.
  unfold passesValidation, mergedConfigOf in Hpass. rewrite Hroot in Hpass.
  unfold ensureBrowser, mergedConfigOf. rewrite Hroot.
  cbn [default opt_launchOptions setIsInitializing launchOptions].
  destruct (PUPPETEER_LAUNCH_OPTIONS proc) eqn:Hp;
  manager_step; rewrite !deepMerge_empty_r;
  destruct (args (deepMerge (envConfigOf proc) lo)) as [mergedArgs |] eqn:Hm;
  try (apply negb_true_iff in Hpass; cbn [opt_allowDangerous] in Hpass; rewrite Hpass);
  manager_step; rewrite Hc;
  rewrite bool_decide_eq_true_2 by reflexivity;
  manager_step;
  eexists _, _; (split; [reflexivity |]);
  repeat split; try (intros o Hin; cbn in Hin; intuition discriminate);
  try (intros Hin; cbn in Hin; intuition discriminate).
Qed.

Lemma initialize_reuses_browser_witness :
  let ready := snd (fst (initialize userProcess launchOk
                           {| opt_launchOptions := None; opt_allowDangerous := None |}
                           initial)) in
  browser ready = Some liveBrowser /\
  exists this' t,
    initialize userProcess (Thrown "not called")
      {| opt_launchOptions := None; opt_allowDangerous := None |} ready
    = (Returned tt, this', t)
    /\ browser this' = Some liveBrowser
    /\ noLaunch t.
Proof.
  cbv zeta. split; [reflexivity |].
  destruct (initialize_reuses_browser userProcess (Thrown "not called")
              {| opt_launchOptions := None; opt_allowDangerous := None |}
              (snd (fst (initialize userProcess launchOk
                           {| opt_launchOptions := None; opt_allowDangerous := None |}
                           initial)))
              liveBrowser eq_refl eq_refl eq_refl eq_refl eq_refl eq_refl eq_refl)
    as (this' & t & Heq & Hb & _ & _ & Hn & _).
  exists this', t. repeat split; assumption.
Defined.

(** X8: a disconnected browser is replaced. Whatever the options and the
    process, when the manager holds a browser that is no longer connected
    and the validation passes, [initialize] calls [close()] on it, drops
    both handles (also when that [close()] rejects) and launches a new
    browser, whose first page becomes the page. *)
Theorem initialize_replaces_disconnected_browser
    (proc : Process) (options : InitOptions) (this : State) (b : Browser)
    (launched : Launched) (first : Page) (more : list Page) :
  isInitializing this = false ->
  browser this = Some b ->
  connected b = false ->
  passesValidation proc options
    (mergedConfigOf proc (envConfigOf proc)
       (deepMerge (launchOptions this)
                  (default emptyOptions (opt_launchOptions options)))) = true ->
  pagesResult launched = Returned (first :: more) ->
  exists this' t,
    initialize proc (Returned launched) options this = (Returned tt, this', t)
    /\ In BrowserClose t
    /\ In (Launch (deepMerge launchArgs
                     (mergedConfigOf proc (envConfigOf proc)
                        (deepMerge (launchOptions this)
                           (default emptyOptions (opt_launchOptions options)))))) t
    /\ browser this' = Some (launchedBrowser launched)
    /\ page this' = Some first
    /\ isInitializing this' = false.
Proof.
  intros Hinit Hb Hc Hpass Hpages.
  rewrite (initialize_runs _ _ _ _ Hinit).
  destruct this as [b0 p i sel tm n prev lo ad].
  cbn in Hb, Hinit. subst b0 i.
  destruct b as [c be]. cbn in Hc. subst c.
  destruct launched as [lb pr npr]. cbn in Hpages. subst pr.
  cbn [launchOptions] in *.
  unfold passesValidation in Hpass.
  remember (mergedConfigOf proc (envConfigOf proc)
              (deepMerge lo (default emptyOptions (opt_launchOptions options))))
    as merged eqn:Hmerged.
  unfold ensureBrowser. cbn [setIsInitializing launchOptions].
  destruct (PUPPETEER_LAUNCH_OPTIONS proc) eqn:Hp;
  destruct (isRoot proc) eqn:Hroot;
  manager_step; rewrite <- ?Hmerged;
  repeat match goal with
         | |- context [bool_decide ?P] => destruct (bool_decide P)
         end;
  manager_step; rewrite <- ?Hmerged;
  destruct (args merged) as [mergedArgs |] eqn:Hm;
  try (apply negb_true_iff in Hpass; rewrite Hpass);
  manager_step;
  destruct be as [e |];
  manager_step;
  eexists _, _; (split; [reflexivity |]);
  (split; [cbn; tauto |]);
  (split; [cbn; tauto |]);
  repeat split.
Qed.

Lemma initialize_replaces_disconnected_browser_witness :
  exists this' t,
    initialize userProcess launchOk
      {| opt_launchOptions := None; opt_allowDangerous := None |}
      (setBrowser (Some {| connected := false; browserCloseError := Some "Target closed" |})
                  initial)
    = (Returned tt, this', t)
    /\ In BrowserClose t
    /\ browser this' = Some liveBrowser.
Proof.
  destruct (initialize_replaces_disconnected_browser userProcess
              {| opt_launchOptions := None; opt_allowDangerous := None |}
              (setBrowser (Some {| connected := false;
                                   browserCloseError := Some "Target closed" |}) initial)
              {| connected := false; browserCloseError := Some "Target closed" |}
              {| launchedBrowser := liveBrowser;
                 pagesResult := Returned [openPage];
                 newPageResult := Returned openPage |} openPage []
              eq_refl eq_refl eq_refl eq_refl eq_refl)
    as (this' & t & Heq & Hc & _ & Hb & _).
  exists this', t. repeat split; assumption.
Defined.

Lemma cleanup_nulls_handles_witness :
  exists this' t,
    cleanup (setIdleTimeout (Some 3%nat)
               (setPage (Some openPage) (setBrowser (Some liveBrowser) initial)))
    = (Returned tt, this', t)
    /\ page this' = None /\ browser this' = None /\ isReady this' = false.
Proof.
  apply (cleanup_nulls_handles
           (setIdleTimeout (Some 3%nat)
              (setPage (Some openPage) (setBrowser (Some liveBrowser) initial)))).
  - intros p Hp _. injection Hp as <-. reflexivity.
  - intros b Hb _. injection Hb as <-. reflexivity.
Defined.

(** The state a [cleanup] whose [close()] calls succeed leaves behind. *)
Lemma cleanup_success_state (this : State) :
  (forall p, page this = Some p -> closed p = false -> pageCloseError p = None) ->
  (forall b, browser this = Some b -> connected b = true -> browserCloseError b = None) ->
  exists t,
    cleanup this
    = (Returned tt,
       {| browser := None; page := None; isInitializing := false;
          searchInputSelector := searchInputSelector this;
          idleTimeout := None; operationCount := operationCount this;
          previousLaunchOptions := None;
          launchOptions := launchOptions this;
          allowDangerous := allowDangerous this |}, t).
Proof.
  intros Hp Hb.
  destruct this as [[[bc [be|]]|] [[pc [pe|]]|] i sel [tm|] n prev lo ad];
    cbn in Hp, Hb;
    try (destruct pc; [| now specialize (Hp _ eq_refl eq_refl)]);
    try (destruct bc; [now specialize (Hb _ eq_refl eq_refl) |]);
    try destruct pc; try destruct bc;
    eexists; reflexivity.
Qed.

(** X11: after a [cleanup] whose [close()] calls succeed (the idle timeout
    firing, for instance), the next [initialize] starts over: whatever the
    manager held before, it launches a new browser with the instance options
    kept across the cleanup and takes its first page. *)
Theorem cleanup_then_initialize
    (proc : Process) (options : InitOptions) (this : State)
    (launched : Launched) (first : Page) (more : list Page) :
  (forall p, page this = Some p -> closed p = false -> pageCloseError p = None) ->
  (forall b, browser this = Some b -> connected b = true -> browserCloseError b = None) ->
  passesValidation proc options
    (mergedConfigOf proc (envConfigOf proc)
       (deepMerge (launchOptions this)
                  (default emptyOptions (opt_launchOptions options)))) = true ->
  pagesResult launched = Returned (first :: more) ->
  exists cleaned t1 this' t2,
    cleanup this = (Returned tt, cleaned, t1)
    /\ initialize proc (Returned launched) options cleaned = (Returned tt, this', t2)
    /\ browser this' = Some (launchedBrowser launched)
    /\ page this' = Some first
    /\ In (Launch (deepMerge launchArgs
                     (mergedConfigOf proc (envConfigOf proc)
                        (deepMerge (launchOptions this)
                           (default emptyOptions (opt_launchOptions options)))))) t2.
Proof.
  intros Hp Hb Hpass Hpages.
  destruct (cleanup_success_state this Hp Hb) as [t1 Hclean].
  match type of Hclean with
  | _ = (_, ?c, _) => set (cleaned := c) in *; exists cleaned, t1
  end.
  assert (Hinit : isInitializing cleaned = false) by reflexivity.
  assert (Hnone : browser cleaned = None) by reflexivity.
  rewrite (initialize_runs _ _ _ _ Hinit).
  destruct (ensureBrowser_accepts proc (Returned launched) options
              (setIsInitializing true cleaned) Hpass Hnone)
    as (s & t & Heq & Hlaunch & _ & _ & _ & Hbrowser & Hpage).
  rewrite Hpages in Heq, Hpage. rewrite Heq.
  eexists _, _. split; [exact Hclean |]. split; [reflexivity |].
  cbn [setIsInitializing browser page].
  repeat split; try assumption.
  rewrite app_nil_r. apply in_or_app. now left.
Qed.

Lemma cleanup_then_initialize_witness :
  exists cleaned t1 this' t2,
    cleanup (setPage (Some openPage) (setBrowser (Some liveBrowser) initial))
    = (Returned tt, cleaned, t1)
    /\ initialize userProcess launchOk
         {| opt_launchOptions := None; opt_allowDangerous := None |} cleaned
       = (Returned tt, this', t2)
    /\ browser this' = Some liveBrowser
    /\ page this' = Some openPage.
Proof.
  destruct (cleanup_then_initialize userProcess
              {| opt_launchOptions := None; opt_allowDangerous := None |}
              (setPage (Some openPage) (setBrowser (Some liveBrowser) initial))
              {| launchedBrowser := liveBrowser;
                 pagesResult := Returned [openPage];
                 newPageResult := Returned openPage |} openPage [])
    as (cleaned & t1 & this' & t2 & Hc & Hi & Hb & Hp & _).
  - intros p Hp _. injection Hp as <-. reflexivity.
  - intros b Hb _. injection Hb as <-. reflexivity.
  - reflexivity.
  - reflexivity.
  - exists cleaned, t1, this', t2. repeat split; assumption.
Defined.

Lemma bm_level2_keyword_witness :
  JS.includes (JS.toLowerCase "Navigation Timeout of 30000 ms exceeded") "timeout" = true /\
  determineRecoveryLevel (Some "Navigation Timeout of 30000 ms exceeded") = 2%Z.
Proof.
  split; [reflexivity |].
  apply (bm_level2_keyword "Navigation Timeout of 30000 ms exceeded");
    try reflexivity.
  right; left; reflexivity.
Defined.

(** ** request-timing.ts beyond the claims *)

Import RequestTiming.
Local Open Scope Q_scope.

Lemma feed_bounds (durations : list (Q * Z)) (stats : RequestStats) :
  minDelay (feed stats durations) = minDelay stats /\
  maxDelay (feed stats durations) = maxDelay stats.
Proof.
  revert stats. induction durations as [|d ds IH]; intros stats; [now split |].
  change (feed stats (d :: ds))
    with (feed (updateRequestStats stats (fst d) (snd d)) ds).
  destruct (IH (updateRequestStats stats (fst d) (snd d))) as [-> ->]. now split.
Qed.

Lemma fatigue_range (n : nat) :
  n <> 0%nat -> 50 <= Qmin (num n * 50) 500 /\ Qmin (num n * 50) 500 <= 500.
Proof.
  intros Hn. split; [| apply Q.le_min_r].
  apply Q.min_glb; [| lra].
  assert (H : 1 <= num n).
  { unfold num. change 1 with (inject_Z 1). rewrite <- Zle_Qle. lia. }
  lra.
Qed.

Lemma baseDelay_range (average : Q) :
  let baseDelay : Q :=
    if Qlt_le_dec average 500 then 200
    else if Qlt_le_dec average 2000 then 500 else 1000 in
  200 <= baseDelay /\ baseDelay <= 1000.
Proof.
  cbv zeta. destruct (Qlt_le_dec average 500); [split; lra |].
  destruct (Qlt_le_dec average 2000); split; lra.
Qed.

Lemma product_range (b f : Q) :
  250 <= b -> b <= 1500 -> 0.5 <= f -> f < 1.5 ->
  125 <= b * f /\ b * f < 2250.
Proof. intros. split; nra. Qed.

(** X13: on every stats object the module itself produces (a fresh one fed
    any durations) the adaptive delay lies in [100, 2250], and is at least
    125 once a request is recorded, so the clamp to [100, 2500] of such an
    object changes nothing. The upper end is closed: in doubles it is
    reached ([calculateAdaptiveDelay_reaches_2250]). *)
Theorem calculateAdaptiveDelay_module_range
    (now0 : Z) (durations : list (Q * Z)) (random : Q) :
  isRandom random ->
  100 <= calculateAdaptiveDelay (feed (initializeRequestStats now0) durations) random /\
  calculateAdaptiveDelay (feed (initializeRequestStats now0) durations) random <= 2250 /\
  (durations <> [] ->
   125 <= calculateAdaptiveDelay (feed (initializeRequestStats now0) durations) random).
Proof.
  intros [Hr0 Hr1].
  destruct (feed_sum durations (initializeRequestStats now0) 0) as [Hn _];
    [cbn; lra |].
  destruct (feed_bounds durations (initializeRequestStats now0)) as [Hmin Hmax].
  cbn [initializeRequestStats totalRequests minDelay maxDelay] in Hn, Hmin, Hmax.
  rewrite Nat.add_0_l in Hn.
  unfold calculateAdaptiveDelay. rewrite Hn, Hmin, Hmax.
  destruct durations as [|d ds].
  - cbn [length Nat.eqb]. repeat split; try lra. intros H. now contradiction H.
  - cbn [length Nat.eqb].
    set (average := averageResponseTime _).
    pose proof (baseDelay_range average) as Hbase. cbv zeta in Hbase.
    set (baseDelay := if Qlt_le_dec average 500 then _ else _) in *.
    pose proof (fatigue_range (S (length ds)) ltac:(discriminate)) as Hf.
    set (fatigue := Qmin (num (S (length ds)) * 50) 500) in *.
    destruct (product_range (baseDelay + fatigue) (0.5 + random)) as [Hlo Hhi];
      try lra.
    rewrite Q.min_r by lra. rewrite Q.max_r by lra.
    repeat split; try lra.
Qed.

(** In doubles, at the largest draw [0.5 + random] rounds to 1.5: after
    ten slow requests the delay is 2250 exactly. *)
Example calculateAdaptiveDelay_reaches_2250 :
  RequestTimingBinary64.calculateAdaptiveDelay
    (RequestTimingBinary64.feed
       (RequestTimingBinary64.initializeRequestStats 0)
       (RequestTimingBinary64.integers (repeat 2000%Z 10)))
    Binary64.largestRandom
  = Binary64.ofZ 2250.
Proof. vm_compute. reflexivity. Qed.

Lemma calculateAdaptiveDelay_module_range_witness :
  isRandom 0.5 /\
  125 <= calculateAdaptiveDelay
           (feed (initializeRequestStats 0) [(800, 1%Z); (1200, 2%Z)]) 0.5.
Proof.
  assert (Hr : isRandom 0.5) by (unfold isRandom; split; lra).
  split; [exact Hr |].
  destruct (calculateAdaptiveDelay_module_range 0 [(800, 1%Z); (1200, 2%Z)] 0.5 Hr)
    as (_ & _ & H).
  apply H. discriminate.
Defined.

Lemma clamp_monotone (lo hi x y : Q) :
  x <= y -> Qmax lo (Qmin hi x) <= Qmax lo (Qmin hi y).
Proof.
  intros H. apply Q.max_le_compat_l. apply Q.min_le_compat_l. exact H.
Qed.

Lemma num_le (n m : nat) : (n <= m)%nat -> num n <= num m.
Proof. intros H. unfold num. rewrite <- Zle_Qle. lia. Qed.

(** X14: request fatigue. With the same average, bounds and draw, the
    adaptive delay never decreases as more requests are recorded, and from
    the tenth request on it no longer depends on their number. *)
Theorem calculateAdaptiveDelay_fatigue
    (average lo hi : Q) (last : Z) (n m : nat) (random : Q) :
  isRandom random ->
  (0 < n <= m)%nat ->
  let stats k := {| totalRequests := k; averageResponseTime := average;
                    lastRequestTime := last; minDelay := lo; maxDelay := hi |} in
  calculateAdaptiveDelay (stats n) random <= calculateAdaptiveDelay (stats m) random /\
  ((10 <= n)%nat ->
   calculateAdaptiveDelay (stats n) random == calculateAdaptiveDelay (stats m) random).
Proof.
  intros [Hr0 Hr1] [Hn Hnm]. cbv zeta. unfold calculateAdaptiveDelay.
  cbn [totalRequests averageResponseTime minDelay maxDelay].
  destruct n as [|n]; [lia |]. destruct m as [|m]; [lia |]. cbn [Nat.eqb].
  pose proof (baseDelay_range average) as Hbase. cbv zeta in Hbase.
  set (baseDelay := if Qlt_le_dec average 500 then _ else _) in *.
  pose proof (num_le _ _ Hnm) as Hle.
  split.
  - apply clamp_monotone.
    assert (Hf : Qmin (num (S n) * 50) 500 <= Qmin (num (S m) * 50) 500).
    { apply Q.min_le_compat_r. lra. }
    apply Qmult_le_compat_r; lra.
  - intros H10.
    assert (H1 : 10 <= num (S n)) by (apply (num_le 10 (S n)); lia).
    assert (H2 : 10 <= num (S m)) by (apply (num_le 10 (S m)); lia).
    rewrite (Q.min_r (num (S n) * 50)) by lra.
    rewrite (Q.min_r (num (S m) * 50)) by lra.
    reflexivity.
Qed.

Lemma calculateAdaptiveDelay_fatigue_witness :
  isRandom 0.25 /\
  calculateAdaptiveDelay
    {| totalRequests := 1; averageResponseTime := 800; lastRequestTime := 0%Z;
       minDelay := 100; maxDelay := 2500 |} 0.25
  <= calculateAdaptiveDelay
       {| totalRequests := 5; averageResponseTime := 800; lastRequestTime := 0%Z;
          minDelay := 100; maxDelay := 2500 |} 0.25.
Proof.
  assert (Hr : isRandom 0.25) by (unfold isRandom; split; lra).
  split; [exact Hr |].
  apply (calculateAdaptiveDelay_fatigue 800 100 2500 0%Z 1 5 0.25 Hr). lia.
Defined.

Lemma pow2_ge_32 (attemptNumber : Z) :
  (6 <= attemptNumber)%Z -> 32 <= Qpower 2 (attemptNumber - 1).
Proof.
  intros H. change 32 with (Qpower 2 5).
  apply Qpower_le_compat_l; [lia | lra].
Qed.

Lemma pow2_le_16 (attemptNumber : Z) :
  (attemptNumber <= 5)%Z -> 0 < Qpower 2 (attemptNumber - 1) <= 16.
Proof.
  intros H. split; [apply Qpower_0_lt; lra |].
  change 16 with (Qpower 2 4).
  apply Qpower_le_compat_l; [lia | lra].
Qed.

(** X16: where the cap of the exponential backoff binds. Up to the fifth
    attempt the delay is 1000 ms times 2^(attempt - 1) plus the jitter,
    uncapped; from the sixth attempt on it is exactly 30000 ms, whatever the
    jitter; and with the same jitter a later attempt never waits less. *)
Theorem calculateExponentialBackoff_cap (attemptNumber : Z) (random : Q) :
  isRandom random ->
  ((attemptNumber <= 5)%Z ->
   calculateExponentialBackoff attemptNumber random
   == 1000 * Qpower 2 (attemptNumber - 1) + random * 1000) /\
  ((6 <= attemptNumber)%Z ->
   calculateExponentialBackoff attemptNumber random == 30000) /\
  (forall later : Z, (attemptNumber <= later)%Z ->
     calculateExponentialBackoff attemptNumber random
     <= calculateExponentialBackoff later random).
Proof.
  intros [Hr0 Hr1]. unfold calculateExponentialBackoff. repeat split.
  - intros H. destruct (pow2_le_16 _ H) as [_ Hp].
    apply Q.min_l. lra.
  - intros H. pose proof (pow2_ge_32 _ H) as Hp.
    apply Q.min_r. lra.
  - intros later H.
    assert (Hp : Qpower 2 (attemptNumber - 1) <= Qpower 2 (later - 1))
      by (apply Qpower_le_compat_l; [lia | lra]).
    apply Q.min_le_compat_r. lra.
Qed.

Lemma calculateExponentialBackoff_cap_witness :
  isRandom 0.75 /\
  calculateExponentialBackoff 3 0.75 == 4750 /\
  calculateExponentialBackoff 9 0.75 == 30000.
Proof.
  assert (Hr : isRandom 0.75) by (unfold isRandom; split; lra).
  split; [exact Hr |]. split.
  - rewrite (proj1 (calculateExponentialBackoff_cap 3 0.75 Hr)) by lia. reflexivity.
  - apply (proj1 (proj2 (calculateExponentialBackoff_cap 9 0.75 Hr))). lia.
Defined.

(** X17: every generated profile has its delays in order:
    [minRequestDelay] in [100, 400), [maxRequestDelay] in [1500, 3000], so
    the minimum is below the maximum by more than 1100 ms. The upper end of
    [maxRequestDelay] is closed: in doubles it is reached
    ([maxRequestDelay_reaches_3000]). *)
Theorem generateNetworkProfile_delays_ordered (r1 r2 r3 r4 r5 : Q) :
  isRandom r1 -> isRandom r2 ->
  let profile := generateNetworkProfile r1 r2 r3 r4 r5 in
  100 <= minRequestDelay profile /\ minRequestDelay profile < 400 /\
  1500 <= maxRequestDelay profile /\ maxRequestDelay profile <= 3000 /\
  minRequestDelay profile + 1100 < maxRequestDelay profile.
Proof.
  intros [? ?] [? ?]. cbn [generateNetworkProfile minRequestDelay maxRequestDelay].
  repeat split; lra.
Qed.

(** In doubles, at the largest draw [1500 + random * 1500] rounds to
    3000. *)
Example maxRequestDelay_reaches_3000 :
  RequestTimingBinary64.maxRequestDelay Binary64.largestRandom = Binary64.ofZ 3000.
Proof. vm_compute. reflexivity. Qed.

Lemma generateNetworkProfile_delays_ordered_witness :
  isRandom 0.9 /\ isRandom 0.1 /\
  minRequestDelay (generateNetworkProfile 0.9 0.1 0 0 0) + 1100
  < maxRequestDelay (generateNetworkProfile 0.9 0.1 0 0 0).
Proof.
  assert (H1 : isRandom 0.9) by (unfold isRandom; split; lra).
  assert (H2 : isRandom 0.1) by (unfold isRandom; split; lra).
  split; [exact H1 |]. split; [exact H2 |].
  apply (generateNetworkProfile_delays_ordered 0.9 0.1 0 0 0 H1 H2).
Defined.

(** X18: a delay passed through a generated profile is clamped into the
    profile: for every finite base delay (negative ones included) and
    every draw, [applyBehaviorProfile] answers between the
    profile's [minRequestDelay] and [maxRequestDelay], so between 100 and
    3000 ms, both ends included. *)
Theorem applyBehaviorProfile_within_profile
    (r1 r2 r3 r4 r5 : Q) (baseDelay random : Q) :
  isRandom r1 -> isRandom r2 ->
  let profile := generateNetworkProfile r1 r2 r3 r4 r5 in
  minRequestDelay profile <= applyBehaviorProfile profile baseDelay random /\
  applyBehaviorProfile profile baseDelay random <= maxRequestDelay profile /\
  100 <= applyBehaviorProfile profile baseDelay random /\
  applyBehaviorProfile profile baseDelay random <= 3000.
Proof.
  intros [? ?] [? ?]. cbv zeta.
  assert (Horder : minRequestDelay (generateNetworkProfile r1 r2 r3 r4 r5)
                   <= maxRequestDelay (generateNetworkProfile r1 r2 r3 r4 r5))
    by (cbn [generateNetworkProfile minRequestDelay maxRequestDelay]; lra).
  unfold applyBehaviorProfile.
  destruct (clamp_within _ _
              ((baseDelay + (- (baseDelay * requestVariability
                                    (generateNetworkProfile r1 r2 r3 r4 r5))
                             + random * (baseDelay * requestVariability
                                    (generateNetworkProfile r1 r2 r3 r4 r5)) * 2))
               * responseTimeMultiplier (generateNetworkProfile r1 r2 r3 r4 r5))
              Horder) as [Hlo Hhi].
  cbn [generateNetworkProfile minRequestDelay maxRequestDelay] in Hlo, Hhi |- *.
  repeat split; try assumption; lra.
Qed.

Lemma applyBehaviorProfile_within_profile_witness :
  isRandom 0.5 /\
  100 <= applyBehaviorProfile (generateNetworkProfile 0.5 0.5 0.5 0.5 0.5) 99999 0.5 /\
  applyBehaviorProfile (generateNetworkProfile 0.5 0.5 0.5 0.5 0.5) 99999 0.5 <= 3000.
Proof.
  assert (Hr : isRandom 0.5) by (unfold isRandom; split; lra).
  split; [exact Hr |].
  destruct (applyBehaviorProfile_within_profile 0.5 0.5 0.5 0.5 0.5 99999 0.5 Hr Hr)
    as (_ & _ & H1 & H2).
  split; assumption.
Defined.

(** X19: the ranges of the two remaining random delays:
    [getHumanThinkingTime] is in [500, 3000); a request variation has its
    jitter in [0, 100) and its delay in [50, 350). *)
Theorem thinking_time_and_variation_ranges (random r1 r2 r3 r4 r5 : Q) :
  isRandom random -> isRandom r1 -> isRandom r2 ->
  (500 <= getHumanThinkingTime random /\ getHumanThinkingTime random < 3000) /\
  (0 <= jitter (generateRequestVariation r1 r2 r3 r4 r5) /\
   jitter (generateRequestVariation r1 r2 r3 r4 r5) < 100) /\
  (50 <= delay (generateRequestVariation r1 r2 r3 r4 r5) /\
   delay (generateRequestVariation r1 r2 r3 r4 r5) < 350).
Proof.
  intros [? ?] [? ?] [? ?].
  unfold getHumanThinkingTime. cbn [generateRequestVariation jitter delay].
  repeat split; lra.
Qed.

Lemma thinking_time_and_variation_ranges_witness :
  isRandom 0.5 /\
  500 <= getHumanThinkingTime 0.5 /\ getHumanThinkingTime 0.5 < 3000.
Proof.
  assert (Hr : isRandom 0.5) by (unfold isRandom; split; lra).
  split; [exact Hr |].
  apply (thinking_time_and_variation_ranges 0.5 0.5 0.5 0 0 0 Hr Hr Hr).
Defined.

(** [Math.floor(random * n)] is an index of an array of [n] elements. *)
Lemma floor_index (random : Q) (n : nat) :
  isRandom random -> (0 < n)%nat ->
  (0 <= Qfloor (random * num n) < Z.of_nat n)%Z.
Proof.
  intros [Hr0 Hr1] Hn.
  assert (Hpos : 0 < num n).
  { unfold num. change 0 with (inject_Z 0). rewrite <- Zlt_Qlt. lia. }
  split.
  - change 0%Z with (Qfloor 0). apply Qfloor_resp_le. nra.
  - apply Z.lt_nge. intros Hge.
    assert (H : num n <= random * num n).
    { eapply Qle_trans; [| apply Qfloor_le]. unfold num. now rewrite <- Zle_Qle. }
    nra.
Qed.

Lemma pick_In (xs : list string) (random : Q) :
  isRandom random -> xs <> [] ->
  exists x, pick xs random = Some x /\ In x xs.
Proof.
  intros Hr Hne.
  assert (Hn : (0 < length xs)%nat) by (destruct xs; [contradiction | cbn; lia]).
  destruct (floor_index random (length xs) Hr Hn) as [H0 H1].
  unfold pick, JS.at_.
  destruct (Z.ltb_spec (Qfloor (random * num (length xs))) 0) as [Hneg | _]; [lia |].
  destruct (nth_error xs (Z.to_nat (Qfloor (random * num (length xs))))) as [x |] eqn:Hx.
  - exists x. split; [reflexivity | eapply nth_error_In; exact Hx].
  - apply nth_error_None in Hx. lia.
Qed.

Lemma orString_nonempty (x fallback : string) :
  x <> "" -> JS.orString (Some x) fallback = x.
Proof. intros H. destruct x; [contradiction | reflexivity]. Qed.

(** X20: the fallbacks of [generateRandomHeaders] are never taken: for all
    draws the three varied headers hold a value of their list, and the
    object is those three followed by the five fixed headers. *)
Theorem generateRandomHeaders_values (r1 r2 r3 : Q) :
  isRandom r1 -> isRandom r2 -> isRandom r3 ->
  exists encoding language cacheControl,
    pick acceptEncodings r1 = Some encoding /\ In encoding acceptEncodings /\
    pick acceptLanguages r2 = Some language /\ In language acceptLanguages /\
    pick cacheControlValues r3 = Some cacheControl /\
    In cacheControl cacheControlValues /\
    generateRandomHeaders r1 r2 r3
    = [ ("Accept-Encoding", encoding);
        ("Accept-Language", language);
        ("Cache-Control", cacheControl);
        ("Pragma", "no-cache");
        ("Sec-Fetch-Dest", "document");
        ("Sec-Fetch-Mode", "navigate");
        ("Sec-Fetch-Site", "none");
        ("Upgrade-Insecure-Requests", "1") ].
Proof.
  intros H1 H2 H3.
  destruct (pick_In acceptEncodings r1 H1 ltac:(discriminate)) as [e [He Hine]].
  destruct (pick_In acceptLanguages r2 H2 ltac:(discriminate)) as [l [Hl Hinl]].
  destruct (pick_In cacheControlValues r3 H3 ltac:(discriminate)) as [c [Hc Hinc]].
  exists e, l, c. repeat (split; [assumption |]).
  unfold generateRandomHeaders. rewrite He, Hl, Hc.
  rewrite !orString_nonempty; [reflexivity | | |].
  - cbn in Hinc. intuition (subst; discriminate).
  - cbn in Hinl. intuition (subst; discriminate).
  - cbn in Hine. intuition (subst; discriminate).
Qed.

Lemma generateRandomHeaders_values_witness :
  isRandom 0.99 /\
  header (generateRandomHeaders 0.99 0.5 0) "Accept-Encoding"
  = Some "gzip, deflate, br, compress" /\
  header (generateRandomHeaders 0.99 0.5 0) "Cache-Control" = Some "max-age=0".
Proof.
  assert (Ha : isRandom 0.99) by (unfold isRandom; split; lra).
  assert (Hb : isRandom 0.5) by (unfold isRandom; split; lra).
  assert (Hc : isRandom 0) by (unfold isRandom; split; lra).
  split; [exact Ha |].
  destruct (generateRandomHeaders_values 0.99 0.5 0 Ha Hb Hc)
    as (e & l & c & He & _ & _ & _ & Hcc & _ & Heq).
  rewrite Heq. cbn [header String.eqb Ascii.eqb Bool.eqb].
  split.
  - f_equal. assert (Hp : pick acceptEncodings 0.99 = Some "gzip, deflate, br, compress")
      by reflexivity. congruence.
  - cbn. f_equal.
    assert (Hp : pick cacheControlValues 0 = Some "max-age=0") by reflexivity. congruence.
Defined.

(** ** The stand-ins of test-phase2.mjs against request-timing.ts *)

Section StandIns.

Import Binary64.

(** Comparing the other way round gives the opposite answer. *)
Lemma compare_antisym (x y : float) :
  SpecFloat.SFcompare y x = option_map CompOpp (SpecFloat.SFcompare x y).
Proof.
  destruct x as [sx | sx | | sx mx ex], y as [sy | sy | | sy my ey];
    try reflexivity; try (destruct sx; reflexivity);
    try (destruct sy; reflexivity); try (destruct sx, sy; reflexivity).
  cbn [SpecFloat.SFcompare option_map].
  pose proof (Pos.compare_antisym mx my) as Hm. unfold Pos.compare in Hm.
  rewrite (Z.compare_antisym ex ey), Hm.
  destruct sx, sy; try reflexivity;
    destruct (ex ?= ey)%Z; reflexivity.
Qed.

(** Two numbers compare unless one of them is NaN. *)
Lemma compare_defined (x y : float) :
  isNaN x = false -> isNaN y = false ->
  exists c, SpecFloat.SFcompare x y = Some c.
Proof.
  intros Hx Hy.
  destruct x as [sx | sx | | sx mx ex]; try discriminate Hx;
    destruct y as [sy | sy | | sy my ey]; try discriminate Hy;
    cbn [SpecFloat.SFcompare]; eexists; reflexivity.
Qed.

(** [y >= x] is the negation of [y < x] unless one of them is NaN. *)
Lemma leb_ltb (x y : float) :
  isNaN x = false -> isNaN y = false -> leb x y = negb (ltb y x).
Proof.
  intros Hx Hy. unfold leb, ltb, SpecFloat.SFleb, SpecFloat.SFltb.
  rewrite (compare_antisym x y).
  destruct (compare_defined x y Hx Hy) as [c ->].
  destruct c; reflexivity.
Qed.

(** Below 500 is below 2000. *)
Lemma ltb_500_2000 (x : float) :
  ltb x (ofZ 500) = true -> ltb x (ofZ 2000) = true.
Proof.
  set (c5 := ofZ 500). vm_compute in c5.
  set (c2 := ofZ 2000). vm_compute in c2. subst c5 c2.
  unfold ltb, SpecFloat.SFltb.
  destruct x as [s | s | | s m e]; try destruct s; cbn [SpecFloat.SFcompare];
    try discriminate; try reflexivity.
  destruct (Z.compare_spec e (-44)), (Z.compare_spec e (-42));
    try lia; try discriminate; reflexivity.
Qed.

End StandIns.

(** X21: the test suite exercises its own copies of the timing functions.
    In doubles, the copy of [calculateAdaptiveDelay] computes what the
    module computes whenever [averageResponseTime] is not NaN; on NaN the
    module takes the branch of a slow response (as for 2000) and the copy
    that of a quick one (as for 0). The copy of [updateRequestStats] is the
    module's. The copy of [generateNetworkProfile] agrees on four fields
    and draws [readingPaceMultiplier] as [0.8 + r * 0.4], within
    [0.8, 1.2], where the module computes [0.7 + r * 0.6]. *)
Theorem test_stand_ins_against_module :
  (forall (stats : RequestTimingBinary64.RequestStats) (random : Binary64.float),
      Binary64.isNaN (RequestTimingBinary64.averageResponseTime stats) = false ->
      TestPhase2Binary64.calculateAdaptiveDelay stats random
      = RequestTimingBinary64.calculateAdaptiveDelay stats random) /\
  (forall (n : nat) (last : Z) (lo hi random : Binary64.float),
      let stats := fun average =>
        {| RequestTimingBinary64.totalRequests := n;
           RequestTimingBinary64.averageResponseTime := average;
           RequestTimingBinary64.lastRequestTime := last;
           RequestTimingBinary64.minDelay := lo;
           RequestTimingBinary64.maxDelay := hi |} in
      RequestTimingBinary64.calculateAdaptiveDelay (stats Binary64.NaN) random
      = RequestTimingBinary64.calculateAdaptiveDelay (stats (Binary64.ofZ 2000)) random /\
      TestPhase2Binary64.calculateAdaptiveDelay (stats Binary64.NaN) random
      = TestPhase2Binary64.calculateAdaptiveDelay (stats (Binary64.ofZ 0)) random) /\
  (forall stats duration now,
      TestPhase2Binary64.updateRequestStats stats duration now
      = RequestTimingBinary64.updateRequestStats stats duration now) /\
  (forall r1 r2 r3 r4 r5,
      let mock := TestPhase2.generateNetworkProfile r1 r2 r3 r4 r5 in
      let real := generateNetworkProfile r1 r2 r3 r4 r5 in
      minRequestDelay mock = minRequestDelay real /\
      maxRequestDelay mock = maxRequestDelay real /\
      requestVariability mock = requestVariability real /\
      responseTimeMultiplier mock = responseTimeMultiplier real /\
      readingPaceMultiplier mock == 0.8 + r5 * 0.4 /\
      readingPaceMultiplier real == 0.7 + r5 * 0.6 /\
      (0 <= r5 -> r5 < 1 ->
       0.8 <= readingPaceMultiplier mock /\ readingPaceMultiplier mock <= 1.2)).
Proof.
  split; [| split; [| split]].
  - intros stats random Hnan.
    unfold TestPhase2Binary64.calculateAdaptiveDelay,
           RequestTimingBinary64.calculateAdaptiveDelay.
    destruct (RequestTimingBinary64.totalRequests stats =? 0)%nat; [reflexivity |].
    rewrite (leb_ltb (Binary64.ofZ 500) _ eq_refl Hnan).
    rewrite (leb_ltb (Binary64.ofZ 2000) _ eq_refl Hnan).
    destruct (Binary64.ltb (RequestTimingBinary64.averageResponseTime stats)
                           (Binary64.ofZ 500)) eqn:H5;
      destruct (Binary64.ltb (RequestTimingBinary64.averageResponseTime stats)
                             (Binary64.ofZ 2000)) eqn:H2;
      cbn [negb andb]; try reflexivity.
    apply ltb_500_2000 in H5. congruence.
  - intros n last lo hi random. cbv zeta. split; reflexivity.
  - reflexivity.
  - intros r1 r2 r3 r4 r5. cbv zeta.
    cbn [TestPhase2.generateNetworkProfile generateNetworkProfile minRequestDelay
         maxRequestDelay requestVariability responseTimeMultiplier
         readingPaceMultiplier].
    repeat split; try reflexivity; intros; lra.
Qed.

(** In doubles, at the largest draw the reading pace of the copy is the
    double of the literal 1.2. *)
Example stand_in_reading_pace_reaches_bound :
  TestPhase2Binary64.readingPaceMultiplier Binary64.largestRandom
  = Binary64.decimal 12 10.
Proof. vm_compute. reflexivity. Qed.

(** ** session-manager.ts beyond the expiry *)

Import SessionManager.
Local Open Scope Z_scope.

(** What a restore does with a stored session inside the window when the
    page accepts the calls. *)
Lemma restore_valid (now : Z) (fs : gmap string File) (page : Page)
      (sessionId : string) (session : StoredSession) :
  fs !! getSessionPath sessionId = Some (SessionFile session) ->
  now - timestamp session <= expiryMs ->
  setCookieError page = None ->
  evaluateError page = None ->
  restored (restoreSessionCookies now fs page sessionId) = true /\
  files (restoreSessionCookies now fs page sessionId) = fs /\
  SessionManager.pageCookies (pageAfter (restoreSessionCookies now fs page sessionId))
  = (SessionManager.pageCookies page ++ cookies session)%list /\
  newDocumentStorage (pageAfter (restoreSessionCookies now fs page sessionId))
  = (newDocumentStorage page
     ++ match localStorage session with [] => [] | _ => [localStorage session] end)%list.
Proof.
  intros Hf Hage Hc He. unfold restoreSessionCookies. rewrite Hf.
  destruct (Z.gtb_spec (now - timestamp session) expiryMs) as [Hgt | _]; [lia |].
  destruct session as [cs st ts]. cbn [cookies localStorage].
  destruct page as [pc nd sce ee]. cbn in Hc, He. subst sce ee.
  destruct cs as [|c cs]; destruct st as [|kv st];
    cbn; rewrite ?app_nil_r; repeat split.
Qed.

Lemma length_append (a b : string) :
  String.length (a +:+ b) = (String.length a + String.length b)%nat.
Proof.
  induction a as [|c a IH]; [reflexivity |].
  rewrite append_cons. cbn [String.length]. now rewrite IH.
Qed.

Lemma append_cancel_l (p a b : string) : p +:+ a = p +:+ b -> a = b.
Proof.
  induction p as [|c p IH]; intros H; [exact H |].
  rewrite !append_cons in H. injection H as H. now apply IH.
Qed.

Lemma append_cancel_r (s a b : string) : a +:+ s = b +:+ s -> a = b.
Proof.
  revert b. induction a as [|c a IH]; intros [|d b] H.
  - reflexivity.
  - change ("" +:+ s) with s in H.
    apply (f_equal String.length) in H.
    rewrite append_cons in H. cbn [String.length] in H.
    rewrite length_append in H. lia.
  - change ("" +:+ s) with s in H.
    apply (f_equal String.length) in H.
    rewrite append_cons in H. cbn [String.length] in H.
    rewrite length_append in H. lia.
  - rewrite !append_cons in H. injection H as -> H. f_equal. now apply IH.
Qed.

Lemma getSessionPath_inj (a b : string) :
  getSessionPath a = getSessionPath b -> a = b.
Proof.
  unfold getSessionPath. intros H.
  apply append_cancel_l in H. apply append_cancel_l in H.
  now apply append_cancel_r in H.
Qed.

(** A restore reads the file system at the path of its session only. *)
Lemma restore_reads_own_path (now : Z) (fs1 fs2 : gmap string File) (page : Page)
      (sessionId : string) :
  fs1 !! getSessionPath sessionId = fs2 !! getSessionPath sessionId ->
  restored (restoreSessionCookies now fs1 page sessionId)
  = restored (restoreSessionCookies now fs2 page sessionId) /\
  pageAfter (restoreSessionCookies now fs1 page sessionId)
  = pageAfter (restoreSessionCookies now fs2 page sessionId) /\
  trace (restoreSessionCookies now fs1 page sessionId)
  = trace (restoreSessionCookies now fs2 page sessionId).
Proof.
  intros H. unfold restoreSessionCookies. rewrite H.
  destruct (fs2 !! getSessionPath sessionId) as [[session | e] |]; [| now repeat split ..].
  destruct (now - timestamp session >? expiryMs); [now repeat split |].
  destruct (0 <? length (cookies session))%nat;
    [destruct (setCookie page (cookies session)) as [page1 | e] |];
    cbn [failed restored pageAfter trace];
    try (now repeat split);
    destruct (0 <? length (localStorage session))%nat;
    try (now repeat split);
    match goal with
    | |- context [evaluateOnNewDocument ?p ?s] =>
        destruct (evaluateOnNewDocument p s)
    end; now repeat split.
Qed.

(** X22: save and restore round trip. After a save that succeeds, a restore
    of the same id within the expiry window, on a page that accepts the
    calls, returns true and sets exactly the cookies saved, in order, and
    registers the saved localStorage (when it has a key), whatever the
    directory held for that id before. *)
Theorem save_then_restore
    (saveTime now : Z) (fs : gmap string File) (mkdirError : option string)
    (saved : list Cookie) (storage : list (string * string))
    (sessionId : string) (page : Page) :
  now - saveTime <= expiryMs ->
  setCookieError page = None ->
  evaluateError page = None ->
  let fs' := fst (saveSessionCookies saveTime fs mkdirError (Returned saved)
                    (Returned storage) None sessionId) in
  restored (restoreSessionCookies now fs' page sessionId) = true /\
  SessionManager.pageCookies (pageAfter (restoreSessionCookies now fs' page sessionId))
  = (SessionManager.pageCookies page ++ saved)%list /\
  newDocumentStorage (pageAfter (restoreSessionCookies now fs' page sessionId))
  = (newDocumentStorage page ++ match storage with [] => [] | _ => [storage] end)%list /\
  files (restoreSessionCookies now fs' page sessionId) = fs'.
Proof.
  intros Hage Hc He. cbv zeta. cbn [saveSessionCookies fst].
  destruct (restore_valid now
              (<[getSessionPath sessionId :=
                   SessionFile {| cookies := saved; localStorage := storage;
                                  timestamp := saveTime |}]> fs)
              page sessionId
              {| cookies := saved; localStorage := storage; timestamp := saveTime |})
    as (H1 & H2 & H3 & H4); try assumption.
  - apply lookup_insert_eq.
  - repeat split; assumption.
Qed.

Lemma save_then_restore_witness :
  let fs' := fst (saveSessionCookies 5000 sampleFiles None
                    (Returned [{| cookieName := "sid"; cookieValue := "xyz" |}])
                    (Returned []) None "u1") in
  (5000 + 86400000 - 5000 <= expiryMs) /\
  restored (restoreSessionCookies (5000 + 86400000) fs' blankPage "u1") = true /\
  SessionManager.pageCookies
    (pageAfter (restoreSessionCookies (5000 + 86400000) fs' blankPage "u1"))
  = [{| cookieName := "sid"; cookieValue := "xyz" |}].
Proof.
  cbv zeta.
  assert (Hage : 5000 + 86400000 - 5000 <= expiryMs) by (vm_compute; discriminate).
  split; [exact Hage |].
  destruct (save_then_restore 5000 (5000 + 86400000) sampleFiles None
              [{| cookieName := "sid"; cookieValue := "xyz" |}] [] "u1" blankPage
              Hage eq_refl eq_refl) as (H1 & H2 & _).
  split; [exact H1 | exact H2].
Defined.

(** X23: saving is best effort. When [page.cookies()], the localStorage
    evaluation or [fs.writeFile] rejects, nothing is written: the directory
    is as before, so a session stored earlier under the id is still there,
    and the failure is logged as a warning. A failed [mkdir] alone does not
    stop the save. *)
Theorem saveSessionCookies_failure
    (now : Z) (fs : gmap string File) (mkdirError : option string)
    (pageCookiesResult : outcome (list Cookie))
    (pageStorage : outcome (list (string * string)))
    (writeError : option string) (sessionId e : string) :
  (pageCookiesResult = Thrown e \/
   (exists cs, pageCookiesResult = Returned cs) /\ pageStorage = Thrown e \/
   (exists cs st, pageCookiesResult = Returned cs /\ pageStorage = Returned st) /\
   writeError = Some e) ->
  fst (saveSessionCookies now fs mkdirError pageCookiesResult pageStorage
         writeError sessionId) = fs /\
  In (LogWarn ("Failed to save session for " +:+ sessionId +:+ ":") e)
     (snd (saveSessionCookies now fs mkdirError pageCookiesResult pageStorage
             writeError sessionId)) /\
  (forall cs st,
      fst (saveSessionCookies now fs (Some e) (Returned cs) (Returned st) None sessionId)
      !! getSessionPath sessionId
      = Some (SessionFile {| cookies := cs; localStorage := st; timestamp := now |})).
Proof.
  intros H. split; [| split].
  - destruct H as [-> | [[[cs ->] ->] | [[cs [st [-> ->]]] ->]]]; reflexivity.
  - destruct H as [-> | [[[cs ->] ->] | [[cs [st [-> ->]]] ->]]];
      cbn [saveSessionCookies snd]; apply in_or_app; right; now left.
  - intros cs st. cbn [saveSessionCookies fst]. apply lookup_insert_eq.
Qed.

Lemma saveSessionCookies_failure_witness :
  fst (saveSessionCookies 9000 sampleFiles None (Thrown "Target closed")
         (Returned []) None "u1") = sampleFiles.
Proof.
  apply (saveSessionCookies_failure 9000 sampleFiles None (Thrown "Target closed")
           (Returned []) None "u1" "Target closed").
  left. reflexivity.
Defined.



(** X25: sessions do not interfere. For two different ids that are plain
    file names (so that [join] maps them to different files), what a restore
    of one returns, does to the page and logs is the same before and after
    the other is saved, deleted, or removed by an expired restore. *)
Theorem sessions_independent
    (now : Z) (fs : gmap string File) (page : Page) (sessionId other : string) :
  plainFileName sessionId = true ->
  plainFileName other = true ->
  other <> sessionId ->
  let same fs' :=
    restored (restoreSessionCookies now fs' page other)
    = restored (restoreSessionCookies now fs page other) /\
    pageAfter (restoreSessionCookies now fs' page other)
    = pageAfter (restoreSessionCookies now fs page other) /\
    trace (restoreSessionCookies now fs' page other)
    = trace (restoreSessionCookies now fs page other) in
  (forall saveTime mkdirError cookiesResult storageResult writeError,
      same (fst (saveSessionCookies saveTime fs mkdirError cookiesResult
                   storageResult writeError sessionId))) /\
  same (fst (deleteSession fs sessionId)) /\
  (forall restoreTime page',
      same (files (restoreSessionCookies restoreTime fs page' sessionId))).
Proof.
  intros _ _ Hne. cbv zeta.
  assert (Hpath : getSessionPath sessionId <> getSessionPath other).
  { intros Heq. apply Hne. symmetry. now apply getSessionPath_inj. }
  repeat split; intros; apply restore_reads_own_path.
  1-3: unfold saveSessionCookies;
       destruct cookiesResult; [destruct storageResult; [destruct writeError |] |];
       cbn [fst]; try reflexivity; now apply lookup_insert_ne.
  1-3: unfold deleteSession; destruct (fs !! getSessionPath sessionId);
       cbn [fst]; try reflexivity; now apply lookup_delete_ne.
  all: unfold restoreSessionCookies;
       destruct (fs !! getSessionPath sessionId) as [[session | e] |];
       cbn [failed files]; try reflexivity;
       destruct (restoreTime - timestamp session >? expiryMs);
       [cbn [files]; now apply lookup_delete_ne |];
       destruct (0 <? length (cookies session))%nat;
       [destruct (setCookie page' (cookies session)) as [page1 | e] |];
       cbn [failed files]; try reflexivity;
       destruct (0 <? length (localStorage session))%nat; try reflexivity;
       match goal with
       | |- context [evaluateOnNewDocument ?p ?s] =>
           destruct (evaluateOnNewDocument p s)
       end; reflexivity.
Qed.

Lemma sessions_independent_witness :
  let afterDelete := fst (deleteSession twoSessions "u2") in
  let afterExpiry := files (restoreSessionCookies 90000000 twoSessions blankPage "u2") in
  twoSessions !! getSessionPath "u2" <> None /\
  afterDelete !! getSessionPath "u2" = None /\
  afterExpiry !! getSessionPath "u2" = None /\
  restored (restoreSessionCookies 2000 afterDelete blankPage "u1")
  = restored (restoreSessionCookies 2000 twoSessions blankPage "u1") /\
  pageAfter (restoreSessionCookies 2000 afterExpiry blankPage "u1")
  = pageAfter (restoreSessionCookies 2000 twoSessions blankPage "u1") /\
  restored (restoreSessionCookies 2000 twoSessions blankPage "u1") = true.
Proof.
  cbv zeta.
  destruct (sessions_independent 2000 twoSessions blankPage "u2" "u1")
    as (_ & (Hdelete & _) & Hexpiry); [reflexivity | reflexivity | discriminate |].
  destruct (Hexpiry 90000000 blankPage) as (_ & Hpage & _).
  split; [discriminate |]. split; [reflexivity |]. split; [reflexivity |].
  split; [exact Hdelete |]. split; [exact Hpage |]. reflexivity.
Defined.

Lemma clearExpiredSessions_filter (now : Z) (listing : list DirEntry) :
  fst (clearExpiredSessions now listing)
  = List.filter (fun f => negb (isExpiredFile now f)) listing /\
  (snd (clearExpiredSessions now listing)
   + length (fst (clearExpiredSessions now listing)))%nat = length listing.
Proof.
  induction listing as [|f rest [IH1 IH2]]; [now split |].
  cbn [clearExpiredSessions List.filter].
  destruct (clearExpiredSessions now rest) as [kept deleted].
  cbn [fst snd] in IH1, IH2. unfold isExpiredFile in *.
  destruct (JS.endsWith (fileName f) ".json"); cbn [negb andb];
    [destruct (now - mtimeMs f >? expiryMs) |];
    cbn [fst snd negb length]; rewrite <- ?IH1; split; try reflexivity; lia.
Qed.

(** X26: the sweep of expired sessions. What is left of the listing is, in
    order, every entry that is not a [.json] file older than the window;
    [deletedCount] is the number of entries gone; files of other kinds stay
    whatever their age; and a second sweep at the same time deletes
    nothing. *)
Theorem clearExpiredSessions_sweep (now : Z) (listing : list DirEntry) :
  let kept := fst (clearExpiredSessions now listing) in
  kept = List.filter (fun f => negb (isExpiredFile now f)) listing /\
  (snd (clearExpiredSessions now listing) + length kept)%nat = length listing /\
  (forall f, In f kept ->
     JS.endsWith (fileName f) ".json" = true -> now - mtimeMs f <= expiryMs) /\
  (forall f, In f listing -> JS.endsWith (fileName f) ".json" = false -> In f kept) /\
  clearExpiredSessions now kept = (kept, 0%nat).
Proof.
  cbv zeta. destruct (clearExpiredSessions_filter now listing) as [Hk Hn].
  split; [exact Hk |]. split; [exact Hn |]. split; [| split].
  - intros f Hin Hjson. rewrite Hk in Hin. apply filter_In in Hin as [_ Hnot].
    unfold isExpiredFile in Hnot. rewrite Hjson in Hnot. cbn [andb] in Hnot.
    apply negb_true_iff in Hnot.
    destruct (Z.gtb_spec (now - mtimeMs f) expiryMs); [discriminate | assumption].
  - intros f Hin Hjson. rewrite Hk. apply filter_In. split; [exact Hin |].
    unfold isExpiredFile. now rewrite Hjson.
  - destruct (clearExpiredSessions_filter now (fst (clearExpiredSessions now listing)))
      as [Hk2 Hn2].
    assert (Hsame : fst (clearExpiredSessions now (fst (clearExpiredSessions now listing)))
                    = fst (clearExpiredSessions now listing)).
    { rewrite Hk2, Hk. clear. induction listing as [|f rest IH]; [reflexivity |].
      cbn [List.filter]. destruct (negb (isExpiredFile now f)) eqn:Hf.
      - cbn [List.filter]. rewrite Hf. now f_equal.
      - exact IH. }
    rewrite Hsame in Hn2.
    destruct (clearExpiredSessions now (fst (clearExpiredSessions now listing)))
      as [kept2 deleted2].
    cbn [fst snd] in Hsame, Hn2. f_equal; [exact Hsame | lia].
Qed.

Lemma clearExpiredSessions_sweep_witness :
  let listing := [ {| fileName := "old.json"; mtimeMs := 0 |};
                   {| fileName := "notes.txt"; mtimeMs := 0 |};
                   {| fileName := "new.json"; mtimeMs := 90000000 |} ] in
  clearExpiredSessions 90000001 listing
  = ([ {| fileName := "notes.txt"; mtimeMs := 0 |};
       {| fileName := "new.json"; mtimeMs := 90000000 |} ], 1%nat) /\
  clearExpiredSessions 90000001 (fst (clearExpiredSessions 90000001 listing))
  = (fst (clearExpiredSessions 90000001 listing), 0%nat).
Proof.
  cbv zeta. split; [reflexivity |].
  apply (clearExpiredSessions_sweep 90000001).
Defined.

(** X27: how a restore fails inside the window. A file that does not parse,
    or a page that rejects [setCookie], gives false with the file kept and
    the page as it was; a page that takes the cookies and then rejects
    [evaluateOnNewDocument] also gives false with the file kept, but the
    cookies stay set on the page. *)
Theorem restoreSessionCookies_failures
    (now : Z) (fs : gmap string File) (page : Page) (sessionId : string) :
  (forall e, fs !! getSessionPath sessionId = Some (Unparsable e) ->
     restored (restoreSessionCookies now fs page sessionId) = false /\
     files (restoreSessionCookies now fs page sessionId) = fs /\
     pageAfter (restoreSessionCookies now fs page sessionId) = page) /\
  (forall session e,
     fs !! getSessionPath sessionId = Some (SessionFile session) ->
     now - timestamp session <= expiryMs ->
     cookies session <> [] ->
     setCookieError page = Some e ->
     restored (restoreSessionCookies now fs page sessionId) = false /\
     files (restoreSessionCookies now fs page sessionId) = fs /\
     pageAfter (restoreSessionCookies now fs page sessionId) = page) /\
  (forall session e,
     fs !! getSessionPath sessionId = Some (SessionFile session) ->
     now - timestamp session <= expiryMs ->
     localStorage session <> [] ->
     setCookieError page = None ->
     evaluateError page = Some e ->
     restored (restoreSessionCookies now fs page sessionId) = false /\
     files (restoreSessionCookies now fs page sessionId) = fs /\
     SessionManager.pageCookies (pageAfter (restoreSessionCookies now fs page sessionId))
     = (SessionManager.pageCookies page ++ cookies session)%list /\
     newDocumentStorage (pageAfter (restoreSessionCookies now fs page sessionId))
     = newDocumentStorage page).
Proof.
  split; [| split].
  - intros e Hf. unfold restoreSessionCookies. rewrite Hf. now repeat split.
  - intros session e Hf Hage Hcs Hc. unfold restoreSessionCookies. rewrite Hf.
    destruct (Z.gtb_spec (now - timestamp session) expiryMs) as [Hgt | _]; [lia |].
    destruct (cookies session) as [|c cs]; [contradiction |].
    cbn [length Nat.ltb Nat.leb]. unfold setCookie. rewrite Hc. now repeat split.
  - intros session e Hf Hage Hst Hc He. unfold restoreSessionCookies. rewrite Hf.
    destruct (Z.gtb_spec (now - timestamp session) expiryMs) as [Hgt | _]; [lia |].
    destruct (localStorage session) as [|kv st]; [contradiction |].
    destruct page as [pc nd sce ee]. cbn in Hc, He. subst sce ee.
    destruct (cookies session) as [|c cs];
      cbn; rewrite ?app_nil_r; now repeat split.
Qed.

Lemma restoreSessionCookies_failures_witness :
  let page := {| SessionManager.pageCookies := []; newDocumentStorage := [];
                 setCookieError := None; evaluateError := Some "Target closed" |} in
  restored (restoreSessionCookies 2000 sampleFiles page "u1") = false /\
  SessionManager.pageCookies (pageAfter (restoreSessionCookies 2000 sampleFiles page "u1"))
  = cookies sampleSession.
Proof.
  cbv zeta.
  destruct (proj2 (proj2 (restoreSessionCookies_failures 2000 sampleFiles
              {| SessionManager.pageCookies := []; newDocumentStorage := [];
                 setCookieError := None; evaluateError := Some "Target closed" |} "u1"))
              sampleSession "Target closed")
    as (H1 & _ & H2 & _); try reflexivity; try discriminate.
  split; [exact H1 | exact H2].
Defined.

(** ** The chat handler of the server *)

Section ChatHandler.

Import ChatPerplexity PerplexityServer.

Context {Database Array : Type}.
Variable search : string -> SearchOptions -> outcome string.
Variable getChatHistory : Database -> string -> Array.
Variable saveChatMessage : Database -> string -> Role -> string -> Database.
Variable elements : Database -> Array -> list ChatMessage.

(** X28: the chat handler searches before it looks at the conversation.
    The search engine is called once, with the bare message; its answer is
    what the handler returns, so two databases with different histories give
    the same answer; the prompt that [chatPerplexity] builds from the history
    goes to a function that ignores it. When the search succeeds the user
    message is saved afterwards, under the chat id; when it throws, the
    error is rethrown and nothing is read or saved. *)
Theorem handleChatPerplexity_ignores_history
    (typedArgs : Args) (randomUUID : string) (db : Database) :
  let options := {| so_launchOptions := launchOptions typedArgs;
                    so_allowDangerous := allowDangerous typedArgs |} in
  let id := default randomUUID (chat_id typedArgs) in
  let run := handleChatPerplexity search getChatHistory saveChatMessage elements
               typedArgs randomUUID in
  fst (fst (run db)) = search (message typedArgs) options /\
  (forall db2, fst (fst (run db2)) = fst (fst (run db))) /\
  snd (run db) !! 0%nat = Some (SearchEngineSearch (message typedArgs) options) /\
  (forall query o, In (SearchEngineSearch query o) (snd (run db)) ->
     query = message typedArgs) /\
  (forall e, search (message typedArgs) options = Thrown e ->
     run db = (Thrown e, db, [SearchEngineSearch (message typedArgs) options])) /\
  (forall answer, search (message typedArgs) options = Returned answer ->
     snd (fst (run db)) = saveChatMessage db id user (message typedArgs) /\
     snd (run db) !! 2%nat
     = Some (Chat (SaveChatMessage id {| role := user; content := message typedArgs |}))).
Proof.
  cbv zeta. unfold handleChatPerplexity, chatPerplexity.
  destruct (search (message typedArgs) _) as [answer | e] eqn:Hs;
    cbn [fst snd map].
  - repeat split; try reflexivity; try discriminate.
    intros query o Hin. cbn in Hin.
    destruct Hin as [H | [H | [H | [H | []]]]]; try discriminate H.
    now injection H.
  - repeat split; try reflexivity; try discriminate.
    + intros query o [H | []]. now injection H.
    + intros e' He. now injection He as <-.
Qed.

End ChatHandler.

Lemma handleChatPerplexity_ignores_history_witness :
  let search := fun (query : string) (_ : ChatPerplexity.SearchOptions) =>
                  Returned ("answer to " +:+ query) in
  let typedArgs := {| ChatPerplexity.message := "and then?";
                      ChatPerplexity.chat_id := Some "c1";
                      ChatPerplexity.launchOptions := None;
                      ChatPerplexity.allowDangerous := None |} in
  let append db id r text :=
    ChatPerplexity.append db id {| ChatPerplexity.role := r; ChatPerplexity.content := text |} in
  fst (fst (PerplexityServer.handleChatPerplexity search ChatPerplexity.getHistory append
              ChatPerplexity.rows typedArgs "generated"
              {[ "c1" := [{| ChatPerplexity.role := ChatPerplexity.user;
                             ChatPerplexity.content := "first question" |}] ]}))
  = Returned "answer to and then?".
Proof.
  cbv zeta.
  rewrite (proj1 (handleChatPerplexity_ignores_history
                    (fun (query : string) (_ : ChatPerplexity.SearchOptions) =>
                       Returned ("answer to " +:+ query))
                    ChatPerplexity.getHistory
                    (fun db id r text =>
                       ChatPerplexity.append db id
                         {| ChatPerplexity.role := r; ChatPerplexity.content := text |})
                    ChatPerplexity.rows _ _ _)).
  reflexivity.
Defined.

Local Open Scope Q_scope.

Lemma test_stand_ins_against_module_witness :
  let stats := fun average =>
    {| RequestTimingBinary64.totalRequests := 1;
       RequestTimingBinary64.averageResponseTime := average;
       RequestTimingBinary64.lastRequestTime := 0%Z;
       RequestTimingBinary64.minDelay := Binary64.ofZ 100;
       RequestTimingBinary64.maxDelay := Binary64.ofZ 2500 |} in
  TestPhase2Binary64.calculateAdaptiveDelay (stats (Binary64.ofZ 800)) (Binary64.decimal 5 10)
  = RequestTimingBinary64.calculateAdaptiveDelay (stats (Binary64.ofZ 800))
                                                 (Binary64.decimal 5 10) /\
  RequestTimingBinary64.calculateAdaptiveDelay (stats Binary64.NaN) (Binary64.decimal 5 10)
  = Binary64.ofZ 1050 /\
  TestPhase2Binary64.calculateAdaptiveDelay (stats Binary64.NaN) (Binary64.decimal 5 10)
  = Binary64.ofZ 250.
Proof.
  cbv zeta.
  destruct test_stand_ins_against_module as (Hsame & Hnan & _).
  split; [apply Hsame; reflexivity |].
  destruct (Hnan 1%nat 0%Z (Binary64.ofZ 100) (Binary64.ofZ 2500) (Binary64.decimal 5 10))
    as [Hmodule Hmock].
  split.
  - rewrite Hmodule. vm_compute. reflexivity.
  - rewrite Hmock. vm_compute. reflexivity.
Defined.

Lemma generateNetworkProfile_ranges_witness :
  RequestTiming.isRandom 0.5 /\
  0.3 <= RequestTiming.requestVariability
           (RequestTiming.generateNetworkProfile 0 0 0.5 0.5 0.5) /\
  RequestTiming.responseTimeMultiplier
    (RequestTiming.generateNetworkProfile 0 0 0.5 0.5 0.5) <= 1.2.
Proof.
  assert (Hr : RequestTiming.isRandom 0.5)
    by (unfold RequestTiming.isRandom; split; lra).
  split; [exact Hr |].
  destruct (generateNetworkProfile_ranges 0 0 0.5 0.5 0.5 Hr Hr Hr)
    as ((H1 & _) & (_ & H2) & _).
  split; assumption.
Defined.
